(** * DT-Investment: loan approval workflow, amortization schedule and risk scorer

    A shallow embedding of the three services that carry the lending core:

    - [services/loanApprovalService.js]  (class [LoanApprovalService])
    - [services/loanService.js]          ([createApprovalWorkflow],
                                          [calculatePaymentSchedule])
    - [services/riskAssessmentService.js] (class [RiskAssessmentService])

    Conventions.  SQL tables are lists of rows, a [SELECT] is a [filter], an
    [UPDATE ... WHERE] is a conditional [map], an [INSERT] appends a row.  Code
    that runs inside [transaction(async (client) => ...)] lives in the monad
    [tx], which threads the store and stops at the first [throw].  JavaScript
    numbers that take part in arithmetic are IEEE-754 binary64 values
    ([PrimFloat.float]); [DECIMAL(15,2)] amounts that are only compared with
    integer thresholds are exact rationals. *)

From Stdlib Require Import ZArith QArith List String Bool Lia DecimalString Floats.
Import ListNotations.

Set Warnings "-inexact-float".

Open Scope string_scope.
Open Scope list_scope.
Open Scope Z_scope.

(** ** Rows of the tables the services touch *)

Definition timestamp := Z.

Module Application.
(** A row of [loan_applications] (the columns the workflow reads or writes). *)
Record t := mk {
  id : Z;
  application_id : string;
  customer_id : Z;
  requested_amount : Q;
  status : string;
  submitted_at : option timestamp;
  approved_at : option timestamp;
  rejected_at : option timestamp;
  rejection_reason : option string;
  branch_id : Z
}.

Definition set_approved (now : timestamp) (a : t) : t :=
  mk (id a) (application_id a) (customer_id a) (requested_amount a)
     "approved" (submitted_at a) (Some now) (rejected_at a)
     (rejection_reason a) (branch_id a).

Definition set_pending_approval (a : t) : t :=
  mk (id a) (application_id a) (customer_id a) (requested_amount a)
     "pending_approval" (submitted_at a) (approved_at a) (rejected_at a)
     (rejection_reason a) (branch_id a).

Definition set_rejected (now : timestamp) (reason : option string) (a : t) : t :=
  mk (id a) (application_id a) (customer_id a) (requested_amount a)
     "rejected" (submitted_at a) (approved_at a) (Some now)
     reason (branch_id a).
End Application.

Module Approval.
(** A row of [loan_approvals]. *)
Record t := mk {
  id : Z;
  loan_application_id : Z;
  approval_level : Z;
  required_role : string;
  approved_by : option Z;
  approved_at : option timestamp;
  status : string;
  comments : option string;
  rejection_reason : option string;
  is_required : bool;
  created_at : timestamp
}.

(** [SET status = $1, approved_by = $2, approved_at = CURRENT_TIMESTAMP,
     comments = $3, rejection_reason = $4] *)
Definition set_decision (decision : string) (by_ : Z) (now : timestamp)
    (comments_ reason : option string) (r : t) : t :=
  mk (id r) (loan_application_id r) (approval_level r) (required_role r)
     (Some by_) (Some now) decision comments_ reason
     (is_required r) (created_at r).

(** [SET status = 'cancelled'] *)
Definition set_cancelled (r : t) : t :=
  mk (id r) (loan_application_id r) (approval_level r) (required_role r)
     (approved_by r) (approved_at r) "cancelled" (comments r)
     (rejection_reason r) (is_required r) (created_at r).

(** [SET status = 'pending', is_required = true] *)
Definition set_pending_required (r : t) : t :=
  mk (id r) (loan_application_id r) (approval_level r) (required_role r)
     (approved_by r) (approved_at r) "pending" (comments r)
     (rejection_reason r) true (created_at r).

(** [SET status = 'escalated', comments = $1] *)
Definition set_escalated (reason : string) (r : t) : t :=
  mk (id r) (loan_application_id r) (approval_level r) (required_role r)
     (approved_by r) (approved_at r) "escalated" (Some reason)
     (rejection_reason r) (is_required r) (created_at r).
End Approval.

Module User.
(** A row of [users] as [validateApprovalAuthority] selects it. *)
Record t := mk {
  id : Z;
  role : string;
  hierarchy_level : Z;
  branch_id : Z
}.
End User.

(** The [details] object that is serialised into [audit_logs.details]. *)
Inductive audit_details :=
| ApprovalDetails (approval_level : Z) (comments rejection_reason : option string)
                  (new_status : string)
| LoanAccountDetails (application_id : string) (amount : Q)
| EscalationDetails (from_level to_level : Z) (reason : string).

Module Audit.
(** A row of [audit_logs]. *)
Record t := mk {
  user_id : option Z;
  action : string;
  resource : string;
  resource_id : string;
  details : audit_details;
  success : bool
}.
End Audit.

(** The persistent state: the four tables and the [SERIAL] counter of
    [loan_approvals.id]. *)
Record store := mkStore {
  loan_applications : list Application.t;
  loan_approvals : list Approval.t;
  loan_approvals_id_seq : Z;
  users : list User.t;
  audit_logs : list Audit.t
}.

(** ** Errors *)

(** One constructor per [throw new Error(...)] of the approval service. *)
Inductive error :=
| Loan_application_not_found
| Application_not_reviewable
| No_pending_approval
| User_not_found
| Insufficient_authority
| CEO_approval_required
| Cannot_escalate.

(** [error.message] *)
Definition message (e : error) : string :=
  match e with
  | Loan_application_not_found => "Loan application not found"
  | Application_not_reviewable => "Application is not in a reviewable status"
  | No_pending_approval => "No pending approval found for this level"
  | User_not_found => "User not found"
  | Insufficient_authority => "Insufficient authority for this approval level"
  | CEO_approval_required => "CEO approval required for loans above 5,000,000"
  | Cannot_escalate => "Cannot escalate beyond highest approval level"
  end.

(** The error kinds of the design document; both authority failures of
    [validateApprovalAuthority] are of kind [InsufficientAuthority]. *)
Inductive error_kind :=
| NotFound | NotReviewable | NoPendingApproval | InsufficientAuthority | CannotEscalate.

Definition kind (e : error) : error_kind :=
  match e with
  | Loan_application_not_found | User_not_found => NotFound
  | Application_not_reviewable => NotReviewable
  | No_pending_approval => NoPendingApproval
  | Insufficient_authority | CEO_approval_required => InsufficientAuthority
  | Cannot_escalate => CannotEscalate
  end.

(** ** The transaction monad *)

Inductive outcome (A : Type) :=
| Returned (a : A)
| Threw (e : error).
Arguments Returned {A} a.
Arguments Threw {A} e.

(** A computation on a database client whose tables are [S].  When it
    throws, the store it hands back is the one reached at the [throw] (what
    a client without rollback would observe). *)
Definition tx (S A : Type) : Type := S -> S * outcome A.

Definition ret {S A} (a : A) : tx S A := fun s => (s, Returned a).

Definition throw {S A} (e : error) : tx S A := fun s => (s, Threw e).

Definition bind {S A B} (c : tx S A) (k : A -> tx S B) : tx S B :=
  fun s =>
    match c s with
    | (s', Returned a) => k a s'
    | (s', Threw e) => (s', Threw e)
    end.

Notation "x <- c ;; k" := (bind c (fun x => k))
  (at level 61, c at next level, right associativity).
Notation "c ;;; k" := (bind c (fun _ => k))
  (at level 61, right associativity).

(** [transaction(callback)] of [config/database.js]: [BEGIN], run the
    callback, [COMMIT] when it returns, [ROLLBACK] and rethrow when it throws. *)
Definition transaction {S A} (callback : tx S A) : tx S A :=
  fun s =>
    match callback s with
    | (s', Returned a) => (s', Returned a)
    | (_, Threw e) => (s, Threw e)
    end.

(** ** SQL statements *)

Definition update_where {R} (where_ : R -> bool) (set : R -> R) (rows : list R) : list R :=
  map (fun r => if where_ r then set r else r) rows.

Definition select_applications (where_ : Application.t -> bool) : tx store (list Application.t) :=
  fun s => (s, Returned (filter where_ (loan_applications s))).

Definition select_approvals (where_ : Approval.t -> bool) : tx store (list Approval.t) :=
  fun s => (s, Returned (filter where_ (loan_approvals s))).

Definition select_users (where_ : User.t -> bool) : tx store (list User.t) :=
  fun s => (s, Returned (filter where_ (users s))).

Definition update_applications (where_ : Application.t -> bool)
    (set : Application.t -> Application.t) : tx store unit :=
  fun s =>
    (mkStore (update_where where_ set (loan_applications s)) (loan_approvals s)
             (loan_approvals_id_seq s) (users s) (audit_logs s),
     Returned tt).

(** [UPDATE loan_approvals ... RETURNING *]: the result holds the updated rows. *)
Definition update_approvals (where_ : Approval.t -> bool)
    (set : Approval.t -> Approval.t) : tx store (list Approval.t) :=
  fun s =>
    (mkStore (loan_applications s) (update_where where_ set (loan_approvals s))
             (loan_approvals_id_seq s) (users s) (audit_logs s),
     Returned (map set (filter where_ (loan_approvals s)))).

(** [INSERT INTO loan_approvals (loan_application_id, approval_level,
    required_role, status, is_required, created_at)
    VALUES ($1, $2, $3, 'pending', $4, CURRENT_TIMESTAMP) RETURNING *] *)
Definition insert_approval (now : timestamp) (applicationId level : Z)
    (role : string) (required : bool) : tx store Approval.t :=
  fun s =>
    let row := Approval.mk (loan_approvals_id_seq s) applicationId level role
                 None None "pending" None None required now in
    (mkStore (loan_applications s) (loan_approvals s ++ [row])
             (loan_approvals_id_seq s + 1) (users s) (audit_logs s),
     Returned row).

Definition insert_audit_log (row : Audit.t) : tx store unit :=
  fun s =>
    (mkStore (loan_applications s) (loan_approvals s) (loan_approvals_id_seq s)
             (users s) (audit_logs s ++ [row]),
     Returned tt).

(** [Number.prototype.toString] on an integer id. *)
Definition toString (n : Z) : string := NilZero.string_of_int (Z.to_int n).

(** [a || null] on an optional string: [undefined], [null] and the empty
    string all become [null]. *)
Definition or_null (a : option string) : option string :=
  match a with
  | Some "" => None
  | other => other
  end.

(** ** Approval chain: [getRequiredRoleForLevel] and [createApprovalWorkflow] *)

(** [a > b] on exact amounts ([Qle_bool] is the library's [a <= b]). *)
Definition Qgt_bool (a b : Q) : bool := (Qnum b * QDen a <? Qnum a * QDen b)%Z.

(** [LoanApprovalService.getRequiredRoleForLevel(level, amount)];
    [None] is the [null] of the [default] branches. *)
Definition getRequiredRoleForLevel (level : Z) (amount : Q) : option string :=
  if Qle_bool amount 100000 then
    match level with
    | 1 => Some "loan_officer"
    | _ => None
    end
  else if Qle_bool amount 500000 then
    match level with
    | 1 => Some "loan_officer"
    | 2 => Some "branch_manager"
    | _ => None
    end
  else if Qle_bool amount 5000000 then
    match level with
    | 1 => Some "loan_officer"
    | 2 => Some "branch_manager"
    | 3 => Some "finance_manager"
    | _ => None
    end
  else
    match level with
    | 1 => Some "loan_officer"
    | 2 => Some "branch_manager"
    | 3 => Some "finance_manager"
    | 4 => Some "ceo"
    | _ => None
    end.

(** An element [{ level, role, required }] of [approvalLevels]. *)
Record approval_level_spec := mkLevel {
  level : Z;
  role : string;
  required : bool
}.

(** The [approvalLevels] array that [LoanService.createApprovalWorkflow]
    builds from the amount (its three-way [if]). *)
Definition approvalLevels (amount : Q) : list approval_level_spec :=
  if Qle_bool amount 100000 then
    [mkLevel 1 "loan_officer" true]
  else if Qle_bool amount 500000 then
    [mkLevel 1 "loan_officer" true; mkLevel 2 "branch_manager" true]
  else
    [mkLevel 1 "loan_officer" true; mkLevel 2 "branch_manager" true;
     mkLevel 3 "finance_manager" true].

(** The [for (const level of approvalLevels)] loop of inserts. *)
Fixpoint insert_approval_levels (now : timestamp) (applicationId : Z)
    (levels : list approval_level_spec) : tx store unit :=
  match levels with
  | [] => ret tt
  | l :: rest =>
      insert_approval now applicationId (level l) (role l) (required l) ;;;
      insert_approval_levels now applicationId rest
  end.

(** [LoanService.createApprovalWorkflow(client, applicationId, amount)],
    called by [submitLoanApplication] with [application.requested_amount]. *)
Definition createApprovalWorkflow (now : timestamp) (applicationId : Z) (amount : Q)
    : tx store unit :=
  insert_approval_levels now applicationId (approvalLevels amount).

(** The chain the design table (section 4.3) prescribes, by amount band;
    written from the table, to be compared with what the code inserts. *)
Definition chain_table (amount : Q) : list (Z * string) :=
  if Qle_bool amount 100000 then
    [(1, "loan_officer")]
  else if Qle_bool amount 500000 then
    [(1, "loan_officer"); (2, "branch_manager")]
  else if Qle_bool amount 5000000 then
    [(1, "loan_officer"); (2, "branch_manager"); (3, "finance_manager")]
  else
    [(1, "loan_officer"); (2, "branch_manager"); (3, "finance_manager"); (4, "ceo")].

(** The [(approval_level, required_role)] pairs of the rows of one application,
    in table order. *)
Definition chain_of (applicationId : Z) (s : store) : list (Z * string) :=
  map (fun r => (Approval.approval_level r, Approval.required_role r))
      (filter (fun r => Approval.loan_application_id r =? applicationId)
              (loan_approvals s)).

(** ** Authority validation *)

(** What [roleHierarchy[key]] evaluates to: a number for the six own
    properties, a function or object for the members every object literal
    inherits from [Object.prototype], [undefined] otherwise.  An object
    carries the string it converts to, which is what a comparison sees. *)
Inductive js_value :=
| JsNumber (n : Z)
| JsObject (text : string)
| JsUndefined.

Definition Object_prototype_members : list string :=
  ["constructor"; "__proto__"; "hasOwnProperty"; "isPrototypeOf";
   "propertyIsEnumerable"; "toLocaleString"; "toString"; "valueOf";
   "__defineGetter__"; "__defineSetter__"; "__lookupGetter__"; "__lookupSetter__"].

(** [String(roleHierarchy[key])] for an inherited member: ['__proto__'] is
    [Object.prototype] itself, ['constructor'] is the function [Object], each
    other member is the built-in function of its own name. *)
Definition member_text (key : string) : string :=
  if String.eqb key "__proto__" then "[object Object]"
  else if String.eqb key "constructor" then "function Object() { [native code] }"
  else String.append "function " (String.append key "() { [native code] }").

Definition roleHierarchy (key : string) : js_value :=
  if String.eqb key "loan_officer" then JsNumber 1
  else if String.eqb key "branch_manager" then JsNumber 2
  else if String.eqb key "finance_manager" then JsNumber 3
  else if String.eqb key "ceo" then JsNumber 4
  else if String.eqb key "admin" then JsNumber 5
  else if String.eqb key "super_admin" then JsNumber 6
  else if existsb (String.eqb key) Object_prototype_members
       then JsObject (member_text key)
  else JsUndefined.

(** [v || d] for the lookups above: only [undefined] is falsy there (the
    six numbers are non-zero, inherited members are objects). *)
Definition js_or (v : js_value) (d : Z) : js_value :=
  match v with
  | JsUndefined => JsNumber d
  | JsNumber 0 => JsNumber d
  | other => other
  end.

(** [a < b].  Two numbers compare as numbers.  Two objects convert to
    strings and compare as strings, code unit by code unit, a proper prefix
    being smaller.  An object against a number converts to its string and on
    to [NaN] (none of the strings above is a numeral), and every comparison
    with [NaN] is false. *)
Definition js_lt (a b : js_value) : bool :=
  match a, b with
  | JsNumber x, JsNumber y => x <? y
  | JsObject s, JsObject t => String.ltb s t
  | _, _ => false
  end.

(** [const userLevel = roleHierarchy[user.role] || 0] *)
Definition userLevel (role_ : string) : js_value := js_or (roleHierarchy role_) 0.

(** [const requiredLevel = roleHierarchy[requiredRole] || 999] *)
Definition requiredLevel (requiredRole : string) : js_value :=
  js_or (roleHierarchy requiredRole) 999.

(** [['admin', 'super_admin'].includes(role)] *)
Definition is_admin_role (role_ : string) : bool :=
  existsb (String.eqb role_) ["admin"; "super_admin"].

(** [LoanApprovalService.validateApprovalAuthority(userId, requiredRole,
    loanAmount)].  The source reads [users] through the pool's [query]; the
    table is never written by the modelled operations, so the read sees the
    same rows inside and outside the transaction. *)
Definition validateApprovalAuthority (userId : Z) (requiredRole : string)
    (loanAmount : Q) : tx store unit :=
  userResult <- select_users (fun u => User.id u =? userId) ;;
  match userResult with
  | [] => throw User_not_found
  | user :: _ =>
      if js_lt (userLevel (User.role user)) (requiredLevel requiredRole) then
        throw Insufficient_authority
      else if Qgt_bool loanAmount 5000000
              && negb (String.eqb (User.role user) "ceo")
              && negb (is_admin_role (User.role user)) then
        throw CEO_approval_required
      else ret tt
  end.

(** ** [LoanApprovalService] *)

(** [logApprovalActivity(client, applicationId, userId, action, details)] *)
Definition logApprovalActivity (applicationId : Z) (userId : option Z)
    (action : string) (details : audit_details) : tx store unit :=
  insert_audit_log
    (Audit.mk userId action "loan_approval" (toString applicationId) details true).

(** [createLoanAccount(client, application)]: a placeholder that only logs. *)
Definition createLoanAccount (application : Application.t) : tx store unit :=
  logApprovalActivity (Application.id application) None "loan_account_created"
    (LoanAccountDetails (Application.application_id application)
                        (Application.requested_amount application)).

(** [getNextSteps(applicationId, currentStatus)] *)
Definition getNextSteps (applicationId : Z) (currentStatus : string) : list string :=
  if String.eqb currentStatus "pending_approval" then
    ["Waiting for approval from next level"; "Risk assessment may be updated"]
  else if String.eqb currentStatus "approved" then
    ["Loan account will be created"; "Disbursement process will begin";
     "Customer will be notified"]
  else if String.eqb currentStatus "rejected" then
    ["Customer will be notified of rejection";
     "Feedback provided for future applications"]
  else [].

(** The [approvalData] argument: [{ decision, comments, rejection_reason }];
    an absent property is [None]. *)
Record approval_data := mkData {
  decision : string;
  comments : option string;
  rejection_reason : option string
}.

(** The object [processApproval] returns. *)
Record approval_result := mkResult {
  approval : option Approval.t;
  application_status : string;
  workflow_complete : bool;
  next_steps : list string
}.

(** [['submitted', 'under_review', 'pending_approval'].includes(status)] *)
Definition reviewable (status : string) : bool :=
  existsb (String.eqb status) ["submitted"; "under_review"; "pending_approval"].

(** The [WHERE] clauses of the approval queries. *)
Definition pending_at (applicationId approvalLevel : Z) (r : Approval.t) : bool :=
  (Approval.loan_application_id r =? applicationId)
  && (Approval.approval_level r =? approvalLevel)
  && String.eqb (Approval.status r) "pending".

Definition pending_required_of (applicationId : Z) (r : Approval.t) : bool :=
  (Approval.loan_application_id r =? applicationId)
  && String.eqb (Approval.status r) "pending"
  && Bool.eqb (Approval.is_required r) true.

Definition pending_of (applicationId : Z) (r : Approval.t) : bool :=
  (Approval.loan_application_id r =? applicationId)
  && String.eqb (Approval.status r) "pending".

(** The branch on [approvalData.decision]; it yields the new
    [applicationStatus] and [pendingCount] ([None] is the initial [null]). *)
Definition apply_decision (now : timestamp) (applicationId : Z)
    (application : Application.t) (approvalData : approval_data)
    : tx store (string * option Z)%type :=
  if String.eqb (decision approvalData) "approved" then
    pendingApprovalsResult <- select_approvals (pending_required_of applicationId) ;;
    let pendingCount := Z.of_nat (List.length pendingApprovalsResult) in
    if pendingCount =? 0 then
      update_applications (fun a => Application.id a =? applicationId)
                          (Application.set_approved now) ;;;
      createLoanAccount application ;;;
      ret ("approved", Some pendingCount)
    else
      update_applications (fun a => Application.id a =? applicationId)
                          Application.set_pending_approval ;;;
      ret ("pending_approval", Some pendingCount)
  else if String.eqb (decision approvalData) "rejected" then
    update_applications (fun a => Application.id a =? applicationId)
                        (Application.set_rejected now (rejection_reason approvalData)) ;;;
    update_approvals (pending_of applicationId) Approval.set_cancelled ;;;
    ret ("rejected", None)
  else
    ret (Application.status application, None).

(** The callback [processApproval] passes to [transaction].  The call to
    [sendApprovalNotifications] only writes to the console and has no
    counterpart here. *)
Definition processApproval_callback (now : timestamp)
    (applicationId approvalLevel : Z) (approvalData : approval_data)
    (approvedBy : Z) : tx store approval_result :=
  appResult <- select_applications (fun a => Application.id a =? applicationId) ;;
  match appResult with
  | [] => throw Loan_application_not_found
  | application :: _ =>
      if negb (reviewable (Application.status application)) then
        throw Application_not_reviewable
      else
        approvalResult <- select_approvals (pending_at applicationId approvalLevel) ;;
        match approvalResult with
        | [] => throw No_pending_approval
        | approval_ :: _ =>
            validateApprovalAuthority approvedBy (Approval.required_role approval_)
              (Application.requested_amount application) ;;;
            updatedApproval <-
              update_approvals (fun r => Approval.id r =? Approval.id approval_)
                (Approval.set_decision (decision approvalData) approvedBy now
                   (or_null (comments approvalData))
                   (or_null (rejection_reason approvalData))) ;;
            decided <- apply_decision now applicationId application approvalData ;;
            let applicationStatus := fst decided in
            let pendingCount := snd decided in
            logApprovalActivity applicationId (Some approvedBy) (decision approvalData)
              (ApprovalDetails approvalLevel (comments approvalData)
                 (rejection_reason approvalData) applicationStatus) ;;;
            ret (mkResult (hd_error updatedApproval)
                   applicationStatus
                   (match pendingCount with Some 0 => true | _ => false end
                    && String.eqb (decision approvalData) "approved")
                   (getNextSteps applicationId applicationStatus))
        end
  end.

(** [processApproval(applicationId, approvalLevel, approvalData, approvedBy)];
    [now] is the [CURRENT_TIMESTAMP] of its transaction. *)
Definition processApproval (now : timestamp) (applicationId approvalLevel : Z)
    (approvalData : approval_data) (approvedBy : Z) : tx store approval_result :=
  transaction (processApproval_callback now applicationId approvalLevel
                 approvalData approvedBy).

(** The object [escalateApproval] returns. *)
Record escalation_result := mkEscalation {
  escalated_to_level : Z;
  escalation_required_role : string;
  escalation_approval : option Approval.t;
  escalation_reason : string
}.

(** The callback [escalateApproval] passes to [transaction]. *)
Definition escalateApproval_callback (now : timestamp)
    (applicationId currentLevel : Z) (reason : string) (escalatedBy : Z)
    : tx store escalation_result :=
  appResult <- select_applications (fun a => Application.id a =? applicationId) ;;
  match appResult with
  | [] => throw Loan_application_not_found
  | application :: _ =>
      let nextLevel := currentLevel + 1 in
      match getRequiredRoleForLevel nextLevel (Application.requested_amount application) with
      | None => throw Cannot_escalate
      | Some nextRole =>
          existingResult <-
            select_approvals
              (fun r => (Approval.loan_application_id r =? applicationId)
                        && (Approval.approval_level r =? nextLevel)) ;;
          escalationApproval <-
            match existingResult with
            | [] =>
                row <- insert_approval now applicationId nextLevel nextRole true ;;
                ret (Some row)
            | existing :: _ =>
                escalationResult <-
                  update_approvals (fun r => Approval.id r =? Approval.id existing)
                                   Approval.set_pending_required ;;
                ret (hd_error escalationResult)
            end ;;
          update_approvals
            (fun r => (Approval.loan_application_id r =? applicationId)
                      && (Approval.approval_level r =? currentLevel))
            (Approval.set_escalated reason) ;;;
          logApprovalActivity applicationId (Some escalatedBy) "escalated"
            (EscalationDetails currentLevel nextLevel reason) ;;;
          ret (mkEscalation nextLevel nextRole escalationApproval reason)
      end
  end.

(** [escalateApproval(applicationId, currentLevel, reason, escalatedBy)] *)
Definition escalateApproval (now : timestamp) (applicationId currentLevel : Z)
    (reason : string) (escalatedBy : Z) : tx store escalation_result :=
  transaction (escalateApproval_callback now applicationId currentLevel reason
                 escalatedBy).

(** An element of the [applications] array of [bulkApprove]. *)
Record bulk_item := mkItem {
  item_application_id : Z;
  item_approval_level : Z;
  item_decision : string;
  item_comments : option string;
  item_rejection_reason : option string
}.

(** [results.summary] *)
Record bulk_summary := mkSummary {
  total : Z;
  approved : Z;
  rejected : Z;
  failed_count : Z
}.

(** [results] *)
Record bulk_results := mkResults {
  successful : list (Z * approval_result);
  failed : list (Z * string);
  summary : bulk_summary
}.

(** One iteration of [for (const appData of applications)]: the [try] runs
    [processApproval] in its own transaction, the [catch] records the message.
    [now] is the [CURRENT_TIMESTAMP] of that transaction. *)
Definition bulk_step (approvedBy : Z) (acc : store * bulk_results)
    (timed : timestamp * bulk_item) : store * bulk_results :=
  let '(s, results) := acc in
  let '(now, appData) := timed in
  match processApproval now (item_application_id appData)
          (item_approval_level appData)
          (mkData (item_decision appData) (item_comments appData)
                  (item_rejection_reason appData))
          approvedBy s with
  | (s', Returned result) =>
      (s',
       mkResults (successful results ++ [(item_application_id appData, result)])
         (failed results)
         (if String.eqb (item_decision appData) "approved" then
            mkSummary (total (summary results)) (approved (summary results) + 1)
                      (rejected (summary results)) (failed_count (summary results))
          else
            mkSummary (total (summary results)) (approved (summary results))
                      (rejected (summary results) + 1) (failed_count (summary results))))
  | (s', Threw e) =>
      (s',
       mkResults (successful results)
         (failed results ++ [(item_application_id appData, message e)])
         (mkSummary (total (summary results)) (approved (summary results))
                    (rejected (summary results)) (failed_count (summary results) + 1)))
  end.

(** [bulkApprove(applications, approvedBy)].  Each item is paired with the
    time at which its transaction begins. *)
Definition bulkApprove (applications : list (timestamp * bulk_item)) (approvedBy : Z)
    (s : store) : store * bulk_results :=
  fold_left (bulk_step approvedBy) applications
    (s, mkResults [] [] (mkSummary (Z.of_nat (List.length applications)) 0 0 0)).

(** ** JavaScript numbers *)

(** The parts of [Math] the services use, on binary64 values.  [NaN]
    propagates through every definition because float comparisons with
    [NaN] are false and arithmetic on [NaN] is [NaN]. *)
Module JsMath.
Local Open Scope float_scope.

(** [2^52]: from here on every binary64 value is an integer. *)
Definition two52 : float := 4503599627370496.

(** Largest integer below or equal to a value [x >= 0]: [x + 2^52 - 2^52]
    is [x] rounded to the nearest integer, corrected downwards. *)
Definition floor_nonneg (x : float) : float :=
  if two52 <=? x then x
  else
    let t := (x + two52) - two52 in
    if t =? x then x else if x <? t then t - 1 else t.

(** [Math.floor] *)
Definition floor (x : float) : float :=
  if x <? 0 then
    let a := - x in
    if two52 <=? a then x
    else
      let t := (a + two52) - two52 in
      if t =? a then x else if t <? a then - (t + 1) else - t
  else floor_nonneg x.

(** [Math.round]: the nearest integer, ties towards [+Infinity]; a zero
    result keeps the sign of the argument. *)
Definition round (x : float) : float :=
  let f := floor x in
  let r := if 0.5 <=? x - f then f + 1 else f in
  if r =? 0 then (if get_sign x then -0 else 0) else r.

(** [Math.max(a, b)]: [NaN] if either is; [+0] is larger than [-0]. *)
Definition max (a b : float) : float :=
  if is_nan a || is_nan b then nan
  else if a <? b then b
  else if b <? a then a
  else if get_sign a then b else a.

(** [Math.min(a, b)]: [NaN] if either is; [-0] is smaller than [+0]. *)
Definition min (a b : float) : float :=
  if is_nan a || is_nan b then nan
  else if b <? a then b
  else if a <? b then a
  else if get_sign a then a else b.

(** [!x] on a number: [0], [-0] and [NaN] are falsy. *)
Definition falsy (x : float) : bool := (x =? 0) || is_nan x.

(** [x || 0] on a number. *)
Definition or_zero (x : float) : float := if falsy x then 0 else x.

(** The number with the value of a loop counter. *)
Definition of_nat (n : nat) : float := of_uint63 (Uint63.of_Z (Z.of_nat n)).

(** [Math.round(x * 100) / 100], the rounding to cents used throughout. *)
Definition round2 (x : float) : float := round (x * 100) / 100.
End JsMath.

(** ** [LoanService.calculatePaymentSchedule] *)

(** An element of [schedule]. *)
Record schedule_entry := mkEntry {
  payment_number : nat;
  due_date : string;
  payment_amount : float;
  principal_amount : float;
  interest_amount : float;
  remaining_balance : float;
  entry_status : string
}.

(** The object [calculatePaymentSchedule] returns. *)
Record payment_schedule := mkSchedule {
  monthlyPayment : float;
  totalAmount : float;
  totalInterest : float;
  schedule : list schedule_entry
}.

Section ScheduleCalculator.
Local Open Scope float_scope.

(** The date library ([moment]) and [Math.pow] are taken as given. *)
Variable moment : Type.
(** [date.add(n, unit)] *)
Variable add : moment -> Z -> string -> moment.
(** [date.format('YYYY-MM-DD')] *)
Variable format : moment -> string.
Variable Math_pow : float -> float -> float.

(** The [switch (paymentFrequency)] that moves [currentDate]. *)
Definition next_payment_date (paymentFrequency : string) (currentDate : moment) : moment :=
  if String.eqb paymentFrequency "weekly" then add currentDate 1%Z "week"
  else if String.eqb paymentFrequency "bi_weekly" then add currentDate 2%Z "weeks"
  else if String.eqb paymentFrequency "monthly" then add currentDate 1%Z "month"
  else if String.eqb paymentFrequency "quarterly" then add currentDate 3%Z "months"
  else add currentDate 1%Z "month".

(** The body of [for (let i = 1; i <= termMonths; i++)], with [remaining]
    iterations still to run from counter [i]. *)
Fixpoint schedule_loop (remaining i termMonths : nat)
    (monthlyRate monthlyPayment_ : float) (paymentFrequency : string)
    (remainingBalance : float) (currentDate : moment) : list schedule_entry :=
  match remaining with
  | O => []
  | S remaining' =>
      let interestPayment := remainingBalance * monthlyRate in
      let principalPayment := monthlyPayment_ - interestPayment in
      let remainingBalance := remainingBalance - principalPayment in
      if Nat.eqb i termMonths && (0.01 <? remainingBalance) then
        let finalPrincipalPayment := principalPayment + remainingBalance in
        let finalPayment := finalPrincipalPayment + interestPayment in
        mkEntry i (format currentDate)
                (JsMath.round2 finalPayment)
                (JsMath.round2 finalPrincipalPayment)
                (JsMath.round2 interestPayment)
                0 "pending"
        :: schedule_loop remaining' (S i) termMonths monthlyRate monthlyPayment_
             paymentFrequency 0 (next_payment_date paymentFrequency currentDate)
      else
        mkEntry i (format currentDate)
                (JsMath.round2 monthlyPayment_)
                (JsMath.round2 principalPayment)
                (JsMath.round2 interestPayment)
                (JsMath.round2 (JsMath.max 0 remainingBalance))
                "pending"
        :: schedule_loop remaining' (S i) termMonths monthlyRate monthlyPayment_
             paymentFrequency remainingBalance
             (next_payment_date paymentFrequency currentDate)
  end.

(** [calculatePaymentSchedule({ principal, interestRate, termMonths,
    paymentFrequency, startDate })] *)
Definition calculatePaymentSchedule (principal interestRate : float)
    (termMonths : nat) (paymentFrequency : string) (startDate : moment)
    : payment_schedule :=
  let monthlyRate := (interestRate / 100) / 12 in
  let n := JsMath.of_nat termMonths in
  let monthlyPayment_ :=
    principal * (monthlyRate * Math_pow (1 + monthlyRate) n)
    / (Math_pow (1 + monthlyRate) n - 1) in
  let schedule_ :=
    schedule_loop termMonths 1 termMonths monthlyRate monthlyPayment_
      paymentFrequency principal startDate in
  mkSchedule
    (JsMath.round2 monthlyPayment_)
    (JsMath.round2 (fold_left (fun sum payment => sum + payment_amount payment) schedule_ 0))
    (JsMath.round2 (fold_left (fun sum payment => sum + interest_amount payment) schedule_ 0))
    schedule_.
End ScheduleCalculator.

(** A power function by repeated multiplication for whole exponents; it
    agrees with [Math.pow] wherever the result is exact, in particular at
    base [1]. *)
Fixpoint pow_nat (b : float) (n : nat) : float :=
  match n with
  | O => 1%float
  | S n' => (b * pow_nat b n')%float
  end.

(** [pow_nat] with the exponent given as a number (whole and non-negative). *)
Definition pow_whole (b e : float) : float :=
  match Prim2SF e with
  | S754_finite false m ex => pow_nat b (Z.to_nat (Z.shiftl (Z.pos m) ex))
  | _ => 1%float
  end.

(** ** [RiskAssessmentService] *)

Module Risk.
Local Open Scope float_scope.

(** [financialHistory.credit_history] *)
Record credit_history := mkCredit {
  successful_loans : float;
  defaulted_loans : float;
  credit_late_payments : float
}.

(** [financialHistory.payment_history] *)
Record payment_history := mkPayments {
  total_payments : float;
  on_time_payments : float;
  late_payments : float
}.

Record financial_history := mkHistory {
  credit_history_of : option credit_history;
  payment_history_of : option payment_history
}.

(** The row [performRiskAssessment] selects: [loan_applications] joined with
    [customers] and [loan_products]; numeric columns as numbers. *)
Record application_row := mkRow {
  id : Z;
  customer_id : Z;
  requested_amount : float;
  monthly_income : float;
  existing_debts : float;
  employment_status : string;
  collateral_type : option string;
  collateral_value : float;
  guarantor_name : option string;
  guarantor_phone : option string;
  kyc_status : string;
  kyc_approved_at : option timestamp
}.

(** [!s] on an optional string: [null], [undefined] and [''] are falsy. *)
Definition absent (s : option string) : bool :=
  match s with
  | None | Some "" => true
  | Some _ => false
  end.

(** [assessCreditScore(creditHistory)] *)
Definition assessCreditScore (creditHistory : option credit_history) : float :=
  match creditHistory with
  | None => 50
  | Some h =>
      let score := 50 in
      let score :=
        if 0 <? successful_loans h
        then score + JsMath.min (successful_loans h * 10) 30 else score in
      let score :=
        if 0 <? defaulted_loans h
        then score - defaulted_loans h * 20 else score in
      let score :=
        if 0 <? credit_late_payments h
        then score - JsMath.min (credit_late_payments h * 5) 25 else score in
      JsMath.max 0 (JsMath.min 100 score)
  end.

(** [assessPaymentHistory(paymentHistory)] *)
Definition assessPaymentHistory (paymentHistory : option payment_history) : float :=
  match paymentHistory with
  | None => 60
  | Some h =>
      let score :=
        if 0 <? total_payments h then
          let onTimeRate := (on_time_payments h / total_payments h) * 100 in
          JsMath.min 100 (20 + onTimeRate * 0.8)
        else 60 in
      JsMath.max 0 (JsMath.min 100 score)
  end.

(** [assessExistingLoans(existingDebts, monthlyIncome)] *)
Definition assessExistingLoans (existingDebts monthlyIncome : float) : float :=
  if JsMath.falsy existingDebts || (existingDebts =? 0) then 100
  else
    let debtRatio := (existingDebts / monthlyIncome) * 100 in
    if debtRatio <=? 20 then 100
    else if debtRatio <=? 40 then 80
    else if debtRatio <=? 60 then 60
    else if debtRatio <=? 80 then 40
    else 20.

(** [assessIncomeStability(employmentStatus, monthlyIncome)] *)
Definition assessIncomeStability (employmentStatus : string) (monthlyIncome : float)
    : float :=
  let score :=
    if String.eqb employmentStatus "employed" then 85
    else if String.eqb employmentStatus "self_employed" then 70
    else if String.eqb employmentStatus "retired" then 60
    else if String.eqb employmentStatus "unemployed" then 20
    else if String.eqb employmentStatus "student" then 30
    else 40 in
  let score :=
    if 100000 <=? monthlyIncome then score + 10
    else if 50000 <=? monthlyIncome then score + 5
    else if monthlyIncome <? 20000 then score - 10
    else score in
  JsMath.max 0 (JsMath.min 100 score).

(** [assessDebtToIncomeRatio(existingDebts, monthlyIncome)] *)
Definition assessDebtToIncomeRatio (existingDebts monthlyIncome : float) : float :=
  let dtiRatio := (JsMath.or_zero existingDebts / monthlyIncome) * 100 in
  if dtiRatio <=? 15 then 100
  else if dtiRatio <=? 25 then 90
  else if dtiRatio <=? 35 then 75
  else if dtiRatio <=? 45 then 60
  else if dtiRatio <=? 55 then 40
  else 20.

(** [assessEmploymentHistory(employmentStatus)] *)
Definition assessEmploymentHistory (employmentStatus : string) : float :=
  if String.eqb employmentStatus "employed" then 90
  else if String.eqb employmentStatus "self_employed" then 75
  else if String.eqb employmentStatus "retired" then 70
  else if String.eqb employmentStatus "unemployed" then 10
  else if String.eqb employmentStatus "student" then 40
  else 50.

(** [assessCollateralValue(collateralType, collateralValue, loanAmount)] *)
Definition assessCollateralValue (collateralType : option string)
    (collateralValue loanAmount : float) : float :=
  match collateralType with
  | None | Some "" | Some "none" => 20
  | Some ty =>
      if JsMath.falsy collateralValue || (collateralValue =? 0) then 30
      else
        let collateralRatio := (collateralValue / loanAmount) * 100 in
        let typeMultiplier :=
          if String.eqb ty "property" then 1.2
          else if String.eqb ty "fixed_deposit" then 1.1
          else if String.eqb ty "gold" then 1.0
          else if String.eqb ty "vehicle" then 0.9
          else if String.eqb ty "business_assets" then 0.8
          else if String.eqb ty "guarantee" then 0.7
          else 0.6 in
        let score :=
          if 150 <=? collateralRatio then 100
          else if 120 <=? collateralRatio then 90
          else if 100 <=? collateralRatio then 80
          else if 80 <=? collateralRatio then 70
          else if 60 <=? collateralRatio then 60
          else 40 in
        JsMath.min 100 (score * typeMultiplier)
  end.

(** [assessGuarantorStrength(guarantorName, guarantorPhone)] *)
Definition assessGuarantorStrength (guarantorName guarantorPhone : option string)
    : float :=
  if absent guarantorName || absent guarantorPhone then 40 else 70.

(** [assessKYCCompleteness(kycStatus, _kycApprovedAt)] *)
Definition assessKYCCompleteness (kycStatus : string)
    (_kycApprovedAt : option timestamp) : float :=
  if String.eqb kycStatus "approved" then 100
  else if String.eqb kycStatus "pending" then 50
  else if String.eqb kycStatus "rejected" then 0
  else 20.

(** A scores object, as [Object.entries] lists it (insertion order). *)
Definition scores := list (string * float).

(** [calculateRiskFactorScores(application, financialHistory)] *)
Definition calculateRiskFactorScores (application : application_row)
    (financialHistory : financial_history) : scores :=
  [("credit_score", assessCreditScore (credit_history_of financialHistory));
   ("payment_history", assessPaymentHistory (payment_history_of financialHistory));
   ("existing_loans",
      assessExistingLoans (existing_debts application) (monthly_income application));
   ("income_stability",
      assessIncomeStability (employment_status application) (monthly_income application));
   ("debt_to_income_ratio",
      assessDebtToIncomeRatio (existing_debts application) (monthly_income application));
   ("employment_history", assessEmploymentHistory (employment_status application));
   ("collateral_value",
      assessCollateralValue (collateral_type application) (collateral_value application)
        (requested_amount application));
   ("guarantor_strength",
      assessGuarantorStrength (guarantor_name application) (guarantor_phone application));
   ("kyc_completeness",
      assessKYCCompleteness (kyc_status application) (kyc_approved_at application))].

(** [this.riskFactors]: factor name and weight, in declaration order. *)
Definition riskFactors : list (string * float) :=
  [("credit_score", 0.25); ("payment_history", 0.20); ("existing_loans", 0.15);
   ("income_stability", 0.15); ("debt_to_income_ratio", 0.10);
   ("employment_history", 0.05); ("collateral_value", 0.05);
   ("guarantor_strength", 0.03); ("kyc_completeness", 0.02)].

Fixpoint lookup {A} (key : string) (entries : list (string * A)) : option A :=
  match entries with
  | [] => None
  | (k, v) :: rest => if String.eqb k key then Some v else lookup key rest
  end.

(** What the loop body reads as [this.riskFactors[factor].weight] when
    [this.riskFactors[factor]] is truthy: the weight of an own factor; for a
    member inherited from [Object.prototype] the weight is [undefined], which
    the arithmetic turns into [NaN]; [None] when the lookup is [undefined]. *)
Definition weight_of (factor : string) : option float :=
  match lookup factor riskFactors with
  | Some w => Some w
  | None =>
      if existsb (String.eqb factor) Object_prototype_members then Some nan
      else None
  end.

(** The [for (const [factor, score] of Object.entries(...))] loop, on the
    pair [(totalScore, totalWeight)]. *)
Fixpoint accumulate (entries : scores) (totalScore totalWeight : float)
    : float * float :=
  match entries with
  | [] => (totalScore, totalWeight)
  | (factor, score) :: rest =>
      match weight_of factor with
      | Some weight =>
          accumulate rest (totalScore + score * weight) (totalWeight + weight)
      | None => accumulate rest totalScore totalWeight
      end
  end.

(** [calculateOverallRiskScore(riskFactorScores)] *)
Definition calculateOverallRiskScore (riskFactorScores : scores) : float :=
  let '(totalScore, totalWeight) := accumulate riskFactorScores 0 0 in
  if 0 <? totalWeight then JsMath.round (totalScore / totalWeight) else 50.

(** [determineRiskLevel(score)] *)
Definition determineRiskLevel (score : float) : string :=
  if 90 <=? score then "very_low"
  else if 75 <=? score then "low"
  else if 60 <=? score then "medium"
  else if 40 <=? score then "high"
  else "very_high".

(** An element of the recommendation list. *)
Record recommendation := mkRec {
  rec_type : string;
  rec_priority : string;
  rec_message : string;
  rec_action : string
}.

(** [(scores && scores.key || 0)] *)
Definition score_or_zero (key : string) (s : scores) : float :=
  match lookup key s with
  | Some v => JsMath.or_zero v
  | None => 0
  end.

(** [generateRecommendations(riskLevel, _riskFactorScores, _application)] *)
Definition generateRecommendations (riskLevel : string) (riskFactorScores : scores)
    (_application : application_row) : list recommendation :=
  (if String.eqb riskLevel "very_low" then
     [mkRec "approval" "high" "Recommend approval with standard terms"
            "Proceed with loan approval process"]
   else if String.eqb riskLevel "low" then
     [mkRec "approval" "medium" "Recommend approval with standard terms"
            "Minor documentation review recommended"]
   else if String.eqb riskLevel "medium" then
     [mkRec "conditional" "medium" "Conditional approval - consider additional security"
            "Require additional collateral or guarantor"]
   else if String.eqb riskLevel "high" then
     [mkRec "review" "high" "Requires senior management review"
            "Detailed financial assessment needed"]
   else if String.eqb riskLevel "very_high" then
     [mkRec "rejection" "high" "Recommend rejection or significant risk mitigation"
            "Consider alternative loan products or declined"]
   else [])
  ++ (if score_or_zero "debt_to_income_ratio" riskFactorScores <? 60 then
        [mkRec "concern" "medium" "High debt-to-income ratio detected"
               "Verify all income sources and existing debts"]
      else [])
  ++ (if score_or_zero "collateral_value" riskFactorScores <? 50 then
        [mkRec "requirement" "medium" "Insufficient collateral coverage"
               "Require additional collateral or reduce loan amount"]
      else [])
  ++ (if score_or_zero "income_stability" riskFactorScores <? 60 then
        [mkRec "verification" "high" "Income stability concerns"
               "Verify employment and income documentation"]
      else []).

(** [calculateFraudScore(_application)] *)
Definition calculateFraudScore (application : application_row) : float :=
  let fraudScore := 0 in
  let fraudScore :=
    if JsMath.or_zero (requested_amount application) * 2 <? monthly_income application
    then fraudScore + 10 else fraudScore in
  let fraudScore :=
    if (1000000 <? JsMath.or_zero (requested_amount application))
       && String.eqb (employment_status application) "unemployed"
    then fraudScore + 30 else fraudScore in
  JsMath.min 100 fraudScore.

(** [calculateBehavioralScore(_application)]; [random] is the value the
    call to [Math.random()] returns. *)
Definition calculateBehavioralScore (random : float) : float :=
  JsMath.floor (random * 40) + 60.

(** [calculateMarketRiskScore(_application)] *)
Definition calculateMarketRiskScore (random : float) : float :=
  JsMath.floor (random * 30) + 50.

(** The object [generateAIInsights] returns. *)
Record ai_insights := mkInsights {
  fraud_score : float;
  behavioral_score : float;
  market_risk_score : float;
  insight_recommendations : list string
}.

(** [generateAIInsights(_application, _riskFactorScores)]; [random k] is the
    value of the [k]-th call to [Math.random()]. *)
Definition generateAIInsights (random : nat -> float) (application : application_row)
    (_riskFactorScores : scores) : ai_insights :=
  mkInsights
    (calculateFraudScore application)
    (calculateBehavioralScore (random 0%nat))
    (calculateMarketRiskScore (random 1%nat))
    ["Consider seasonal income variations for self-employed applicants";
     "Monitor for early payment indicators";
     "Assess local economic conditions impact"].

(** [getCustomerFinancialHistory(_customerId)]: the placeholder history. *)
Definition getCustomerFinancialHistory (_customerId : Z) : financial_history :=
  mkHistory (Some (mkCredit 0 0 0)) (Some (mkPayments 0 0 0)).

(** The returned object: the inserted row of [loan_risk_assessments] with
    [risk_factors], [recommendations] and [ai_insights] as objects. *)
Record saved_assessment := mkSaved {
  assessment_id : Z;
  loan_application_id : Z;
  saved_customer_id : Z;
  overall_score : float;
  risk_level : string;
  risk_factors : scores;
  recommendations : list recommendation;
  insights : ai_insights;
  assessed_by : Z;
  created_at : timestamp
}.

(** A row of [audit_logs] written by [logRiskAssessmentActivity], with the
    [details] object [{ risk_level, overall_score, assessment_id }]. *)
Record audit_row := mkAudit {
  audit_user_id : Z;
  audit_action : string;
  audit_resource : string;
  audit_resource_id : string;
  detail_risk_level : string;
  detail_overall_score : float;
  detail_assessment_id : Z
}.

(** The tables of the risk orchestrator: the rows of the application join,
    [loan_risk_assessments] with its [SERIAL] counter, [audit_logs]. *)
Record db := mkDb {
  application_rows : list application_row;
  loan_risk_assessments : list saved_assessment;
  loan_risk_assessments_id_seq : Z;
  risk_audit_logs : list audit_row
}.

(** [saveRiskAssessment(client, assessment)] *)
Definition saveRiskAssessment (now : timestamp) (applicationId customerId : Z)
    (overallScore : float) (riskLevel : string) (riskFactorScores : scores)
    (recs : list recommendation) (ai : ai_insights) (assessedBy : Z)
    : tx db saved_assessment :=
  fun s =>
    let row := mkSaved (loan_risk_assessments_id_seq s) applicationId customerId
                 overallScore riskLevel riskFactorScores recs ai assessedBy now in
    (mkDb (application_rows s) (loan_risk_assessments s ++ [row])
          (loan_risk_assessments_id_seq s + 1) (risk_audit_logs s),
     Returned row).

(** [logRiskAssessmentActivity(client, applicationId, userId, action, details)] *)
Definition logRiskAssessmentActivity (applicationId userId : Z) (action : string)
    (riskLevel : string) (overallScore : float) (assessmentId : Z) : tx db unit :=
  fun s =>
    (mkDb (application_rows s) (loan_risk_assessments s)
          (loan_risk_assessments_id_seq s)
          (risk_audit_logs s
           ++ [mkAudit userId action "loan_risk_assessment" (toString applicationId)
                       riskLevel overallScore assessmentId]),
     Returned tt).

(** The callback [performRiskAssessment] passes to [transaction]. *)
Definition performRiskAssessment_callback (now : timestamp) (random : nat -> float)
    (applicationId assessedBy : Z) : tx db saved_assessment :=
  appResult <-
    (fun s => (s, Returned (filter (fun a => (id a =? applicationId)%Z)
                                   (application_rows s)))) ;;
  match appResult with
  | [] => throw Loan_application_not_found
  | application :: _ =>
      let financialHistory := getCustomerFinancialHistory (customer_id application) in
      let riskFactorScores := calculateRiskFactorScores application financialHistory in
      let overallScore := calculateOverallRiskScore riskFactorScores in
      let riskLevel := determineRiskLevel overallScore in
      savedAssessment <-
        saveRiskAssessment now applicationId (customer_id application)
          overallScore riskLevel riskFactorScores
          (generateRecommendations riskLevel riskFactorScores application)
          (generateAIInsights random application riskFactorScores)
          assessedBy ;;
      logRiskAssessmentActivity applicationId assessedBy "risk_assessment_completed"
        riskLevel overallScore (assessment_id savedAssessment) ;;;
      ret savedAssessment
  end.

(** [performRiskAssessment(applicationId, assessedBy)]; [now] is the
    [CURRENT_TIMESTAMP] of the transaction and [random] the values
    [Math.random()] returns during the run. *)
Definition performRiskAssessment (now : timestamp) (random : nat -> float)
    (applicationId assessedBy : Z) : tx db saved_assessment :=
  transaction (performRiskAssessment_callback now random applicationId assessedBy).

(** A saved assessment without its [ai_insights]. *)
Definition without_insights (a : saved_assessment) :=
  (assessment_id a, loan_application_id a, saved_customer_id a, overall_score a,
   risk_level a, risk_factors a, recommendations a, assessed_by a, created_at a).
End Risk.

(** * Properties *)

(** ** Amount comparisons *)

Lemma Qle_bool_false (a b : Q) : Qle_bool a b = false <-> (b < a)%Q.
Proof.
  split; intro H.
  - apply Qnot_le_lt. intro Hle. apply Qle_bool_iff in Hle. congruence.
  - destruct (Qle_bool a b) eqn:E; [|reflexivity].
    apply Qle_bool_iff in E. exfalso. apply (Qlt_not_le _ _ H E).
Qed.

Lemma Qgt_bool_iff (a b : Q) : Qgt_bool a b = true <-> (b < a)%Q.
Proof. unfold Qgt_bool, Qlt. apply Z.ltb_lt. Qed.

Lemma Qgt_bool_false (a b : Q) : Qgt_bool a b = false <-> (a <= b)%Q.
Proof. unfold Qgt_bool, Qle. rewrite Z.ltb_ge. reflexivity. Qed.

(** Decides the three threshold tests of the chain builders from facts
    about the amount. *)
Ltac amount_bands :=
  repeat match goal with
  | H : Qle_bool _ _ = true |- _ => apply Qle_bool_iff in H
  | H : Qle_bool _ _ = false |- _ => apply Qle_bool_false in H
  | H : Qgt_bool _ _ = true |- _ => apply Qgt_bool_iff in H
  | H : Qgt_bool _ _ = false |- _ => apply Qgt_bool_false in H
  end;
  unfold Qle, Qlt in *; simpl in *; try lia.

(** ** The materialised chain *)

Lemma chain_of_insert_levels (now : timestamp) (applicationId : Z)
    (levels : list approval_level_spec) (s : store) :
  chain_of applicationId (fst (insert_approval_levels now applicationId levels s))
  = chain_of applicationId s ++ map (fun l => (level l, role l)) levels.
Proof.
  revert s. induction levels as [|l rest IH]; intro s; simpl.
  - now rewrite app_nil_r.
  - unfold bind, insert_approval. simpl. rewrite IH.
    unfold chain_of. simpl. rewrite filter_app, map_app. simpl.
    rewrite Z.eqb_refl. simpl. now rewrite <- app_assoc.
Qed.

Lemma insert_levels_returns (now : timestamp) (applicationId : Z)
    (levels : list approval_level_spec) (s : store) :
  snd (insert_approval_levels now applicationId levels s) = Returned tt.
Proof.
  revert s. induction levels as [|l rest IH]; intro s; simpl; [reflexivity|].
  unfold bind, insert_approval. simpl. apply IH.
Qed.

(** Up to 5,000,000 the rows [createApprovalWorkflow] inserts are the
    chain of the design table. *)
Lemma createApprovalWorkflow_matches_table_up_to_5000000
    (now : timestamp) (applicationId : Z) (amount : Q) (s : store) :
  (amount <= 5000000)%Q ->
  chain_of applicationId s = [] ->
  chain_of applicationId (fst (createApprovalWorkflow now applicationId amount s))
  = chain_table amount.
Proof.
  intros Hle Hfresh. unfold createApprovalWorkflow.
  rewrite chain_of_insert_levels, Hfresh. simpl.
  unfold approvalLevels, chain_table.
  destruct (Qle_bool amount 100000) eqn:E1; [reflexivity|].
  destruct (Qle_bool amount 500000) eqn:E2; [reflexivity|].
  destruct (Qle_bool amount 5000000) eqn:E3; [reflexivity|].
  exfalso. amount_bands.
Qed.

(** C1.  Above 5,000,000 the chain [createApprovalWorkflow] materialises on
    submission has levels 1 to 3 only: the level-4 [ceo] row that the design
    table and [getRequiredRoleForLevel] prescribe for such amounts is never
    inserted. *)
Theorem createApprovalWorkflow_omits_ceo_above_5000000
    (now : timestamp) (applicationId : Z) (amount : Q) (s : store) :
  (5000000 < amount)%Q ->
  chain_of applicationId s = [] ->
  let s' := fst (createApprovalWorkflow now applicationId amount s) in
  snd (createApprovalWorkflow now applicationId amount s) = Returned tt
  /\ chain_of applicationId s'
     = [(1, "loan_officer"); (2, "branch_manager"); (3, "finance_manager")]
  /\ chain_table amount = chain_of applicationId s' ++ [(4, "ceo")]
  /\ getRequiredRoleForLevel 4 amount = Some "ceo".
Proof.
  intros Hgt Hfresh s'. subst s'. unfold createApprovalWorkflow.
  rewrite chain_of_insert_levels, Hfresh, insert_levels_returns.
  unfold approvalLevels, chain_table, getRequiredRoleForLevel.
  destruct (Qle_bool amount 100000) eqn:E1; [exfalso; amount_bands|].
  destruct (Qle_bool amount 500000) eqn:E2; [exfalso; amount_bands|].
  destruct (Qle_bool amount 5000000) eqn:E3; [exfalso; amount_bands|].
  simpl. repeat split; reflexivity.
Qed.

(** The empty database. *)
Definition empty_store : store := mkStore [] [] 1 [] [].

(** C1 at the amounts 5,000,001 and 10,000,000, on the empty database. *)
Lemma createApprovalWorkflow_omits_ceo_witness :
  (let s' := fst (createApprovalWorkflow 0 1 5000001 empty_store) in
   snd (createApprovalWorkflow 0 1 5000001 empty_store) = Returned tt
   /\ chain_of 1 s'
      = [(1, "loan_officer"); (2, "branch_manager"); (3, "finance_manager")]
   /\ chain_table 5000001 = chain_of 1 s' ++ [(4, "ceo")]
   /\ getRequiredRoleForLevel 4 5000001 = Some "ceo").
Proof.
  apply (createApprovalWorkflow_omits_ceo_above_5000000 0 1 5000001 empty_store).
  - reflexivity.
  - reflexivity.
Defined.

(** The chains materialised at the band boundaries. *)
Example chains_at_the_boundaries :
  map (fun amount => chain_of 1 (fst (createApprovalWorkflow 0 1 amount empty_store)))
      [100000%Q; 500000%Q; 5000000%Q; 5000001%Q]
  = [[(1, "loan_officer")];
     [(1, "loan_officer"); (2, "branch_manager")];
     [(1, "loan_officer"); (2, "branch_manager"); (3, "finance_manager")];
     [(1, "loan_officer"); (2, "branch_manager"); (3, "finance_manager")]].
Proof. reflexivity. Qed.

(** ** Authority validation *)

Lemma validateApprovalAuthority_reads_only (userId : Z) (requiredRole : string)
    (loanAmount : Q) (s : store) :
  fst (validateApprovalAuthority userId requiredRole loanAmount s) = s.
Proof.
  unfold validateApprovalAuthority, bind, select_users.
  destruct (filter _ (users s)) as [|user rest]; [reflexivity|].
  destruct (js_lt _ _); [reflexivity|].
  destruct (_ && _); reflexivity.
Qed.

(** The ranks of the fixed hierarchy. *)
Lemma roleHierarchy_ranks :
  map userLevel
      ["loan_officer"; "branch_manager"; "finance_manager"; "ceo"; "admin"; "super_admin"]
  = map JsNumber [1; 2; 3; 4; 5; 6].
Proof. reflexivity. Qed.

(** A role that ranks below [ceo] is none of [ceo], [admin], [super_admin]. *)
Lemma below_ceo_not_exempt (role_ : string) :
  js_lt (userLevel role_) (userLevel "ceo") = true ->
  negb (String.eqb role_ "ceo") && negb (is_admin_role role_) = true.
Proof.
  intro H. unfold is_admin_role. simpl.
  destruct (String.eqb role_ "ceo") eqn:E1.
  { apply String.eqb_eq in E1. subst. discriminate H. }
  destruct (String.eqb role_ "admin") eqn:E2.
  { apply String.eqb_eq in E2. subst. discriminate H. }
  destruct (String.eqb role_ "super_admin") eqn:E3.
  { apply String.eqb_eq in E3. subst. discriminate H. }
  reflexivity.
Qed.

(** [validateApprovalAuthority] throws an authority error, without touching
    the store, for an actor below the required role or below [ceo] on a loan
    above 5,000,000. *)
Lemma validateApprovalAuthority_rejects (userId : Z) (requiredRole : string)
    (loanAmount : Q) (s : store) (user : User.t) (rest : list User.t) :
  filter (fun u => User.id u =? userId) (users s) = user :: rest ->
  js_lt (userLevel (User.role user)) (requiredLevel requiredRole) = true
  \/ ((5000000 < loanAmount)%Q
      /\ js_lt (userLevel (User.role user)) (userLevel "ceo") = true) ->
  exists e, kind e = InsufficientAuthority
            /\ validateApprovalAuthority userId requiredRole loanAmount s = (s, Threw e).
Proof.
  intros Huser Hrank.
  unfold validateApprovalAuthority, bind, select_users. rewrite Huser.
  destruct (js_lt (userLevel (User.role user)) (requiredLevel requiredRole)) eqn:Elt.
  - exists Insufficient_authority. split; reflexivity.
  - destruct Hrank as [Hrank | [Hamount Hceo]]; [discriminate|].
    apply Qgt_bool_iff in Hamount. rewrite Hamount. cbn [andb].
    rewrite (below_ceo_not_exempt _ Hceo).
    exists CEO_approval_required. split; reflexivity.
Qed.

(** ** Tables as lists *)

Section Tables.
Context {R : Type}.
Variables (p q : R -> bool) (f : R -> R).

Lemma update_where_length (l : list R) :
  List.length (update_where q f l) = List.length l.
Proof. unfold update_where. apply length_map. Qed.

(** Rows selected by [p] after an update that takes its rows out of [p]. *)
Lemma filter_update_where_out (l : list R) :
  (forall r, q r = true -> p (f r) = false) ->
  filter p (update_where q f l) = filter (fun r => p r && negb (q r)) l.
Proof.
  intro Hout. induction l as [|r l IH]; [reflexivity|]. cbn.
  destruct (q r) eqn:Eq.
  - rewrite (Hout r Eq), andb_false_r. exact IH.
  - rewrite andb_true_r. destruct (p r); [f_equal|]; exact IH.
Qed.

(** Rows selected by [p] after an update of exactly those rows that keeps
    them in [p]. *)
Lemma filter_update_where_same (l : list R) :
  (forall r, p r = true -> p (f r) = true) ->
  filter p (update_where p f l) = map f (filter p l).
Proof.
  intro Hkeep. induction l as [|r l IH]; [reflexivity|]. cbn.
  destruct (p r) eqn:Ep.
  - rewrite (Hkeep r Ep). cbn. f_equal. exact IH.
  - rewrite Ep. exact IH.
Qed.

(** An update only touches rows it selects. *)
Lemma filter_update_where_apart (l : list R) :
  (forall r, q r = true -> p r = false) ->
  (forall r, q r = true -> p (f r) = false) ->
  filter p (update_where q f l) = filter p l.
Proof.
  intros Hapart Hout. induction l as [|r l IH]; [reflexivity|]. cbn.
  destruct (q r) eqn:Eq.
  - rewrite (Hout r Eq), (Hapart r Eq). exact IH.
  - destruct (p r); [f_equal|]; exact IH.
Qed.

(** An update that does not move rows in or out of [p]. *)
Lemma filter_update_where_invariant (l : list R) :
  (forall r, p (f r) = p r) ->
  filter p (update_where q f l) = update_where q f (filter p l).
Proof.
  intro Hinv. induction l as [|r l IH]; [reflexivity|]. cbn.
  destruct (q r) eqn:Eq.
  - rewrite Hinv. destruct (p r); cbn; [rewrite Eq; f_equal|]; exact IH.
  - destruct (p r); cbn; [rewrite Eq; f_equal|]; exact IH.
Qed.

Lemma in_update_where (l : list R) (r' : R) :
  In r' (update_where q f l) <->
  exists r, In r l /\ r' = if q r then f r else r.
Proof.
  unfold update_where. rewrite in_map_iff.
  split; intros [r [H1 H2]]; exists r; split; auto.
Qed.

Lemma filter_head_in (l : list R) (r : R) (rest : list R) :
  filter p l = r :: rest -> In r l /\ p r = true.
Proof.
  intro H. apply filter_In. rewrite H. now left.
Qed.
End Tables.

(** ** Transactions *)

Lemma transaction_commits {S A} (callback : tx S A) (s s' : S) (a : A) :
  callback s = (s', Returned a) -> transaction callback s = (s', Returned a).
Proof. intro H. unfold transaction. now rewrite H. Qed.

Lemma transaction_rolls_back {S A} (callback : tx S A) (s s' : S) (e : error) :
  callback s = (s', Threw e) -> transaction callback s = (s, Threw e).
Proof. intro H. unfold transaction. now rewrite H. Qed.

(** [SELECT * FROM loan_applications WHERE id = $1], first row. *)
Definition find_application (applicationId : Z) (s : store) : option Application.t :=
  hd_error (filter (fun a => Application.id a =? applicationId) (loan_applications s)).

(** ** [processApproval] *)

Section ProcessApproval.
Variables (now : timestamp) (applicationId approvalLevel approvedBy : Z).
Variable approvalData : approval_data.
Variable s : store.

(** The application exists and is reviewable; a pending record exists at
    the level. *)
Variables (application : Application.t) (apps : list Application.t).
Variables (approval_ : Approval.t) (others : list Approval.t).
Hypothesis Happ :
  filter (fun a => Application.id a =? applicationId) (loan_applications s)
  = application :: apps.
Hypothesis Hreviewable : reviewable (Application.status application) = true.
Hypothesis Hpending :
  filter (pending_at applicationId approvalLevel) (loan_approvals s)
  = approval_ :: others.

(** Up to the authority check the callback only reads. *)
Lemma callback_throws_at_authority_check (e : error) :
  validateApprovalAuthority approvedBy (Approval.required_role approval_)
    (Application.requested_amount application) s = (s, Threw e) ->
  processApproval_callback now applicationId approvalLevel approvalData approvedBy s
  = (s, Threw e).
Proof.
  intro Hv.
  unfold processApproval_callback, bind at 1, select_applications. rewrite Happ.
  rewrite Hreviewable. cbn [negb].
  unfold bind at 1, select_approvals. rewrite Hpending.
  unfold bind at 1. rewrite Hv. reflexivity.
Qed.

(** From here on the actor passes the authority check. *)
Hypothesis Hauthority :
  validateApprovalAuthority approvedBy (Approval.required_role approval_)
    (Application.requested_amount application) s = (s, Returned tt).

(** The store once the record is marked with the decision. *)
Definition marked : store :=
  mkStore (loan_applications s)
    (update_where (fun r => Approval.id r =? Approval.id approval_)
       (Approval.set_decision (decision approvalData) approvedBy now
          (or_null (comments approvalData))
          (or_null (rejection_reason approvalData)))
       (loan_approvals s))
    (loan_approvals_id_seq s) (users s) (audit_logs s).

(** The rows the marking [UPDATE] returns. *)
Definition marked_rows : list Approval.t :=
  map (Approval.set_decision (decision approvalData) approvedBy now
         (or_null (comments approvalData))
         (or_null (rejection_reason approvalData)))
      (filter (fun r => Approval.id r =? Approval.id approval_) (loan_approvals s)).

(** The audit row of the decision. *)
Definition decision_audit (applicationStatus : string) : Audit.t :=
  Audit.mk (Some approvedBy) (decision approvalData) "loan_approval"
    (toString applicationId)
    (ApprovalDetails approvalLevel (comments approvalData)
       (rejection_reason approvalData) applicationStatus)
    true.

Definition with_audit (row : Audit.t) (s0 : store) : store :=
  mkStore (loan_applications s0) (loan_approvals s0) (loan_approvals_id_seq s0)
    (users s0) (audit_logs s0 ++ [row]).

(** After the authority check the callback marks the record, applies the
    decision, logs it and returns. *)
Lemma callback_after_authority_check (s2 : store) (applicationStatus : string)
    (pendingCount : option Z) :
  apply_decision now applicationId application approvalData marked
  = (s2, Returned (applicationStatus, pendingCount)) ->
  processApproval_callback now applicationId approvalLevel approvalData approvedBy s
  = (with_audit (decision_audit applicationStatus) s2,
     Returned (mkResult (hd_error marked_rows) applicationStatus
                 (match pendingCount with Some 0 => true | _ => false end
                  && String.eqb (decision approvalData) "approved")
                 (getNextSteps applicationId applicationStatus))).
Proof.
  intro Hd.
  unfold processApproval_callback, bind at 1, select_applications. rewrite Happ.
  rewrite Hreviewable. cbn [negb].
  unfold bind at 1, select_approvals. rewrite Hpending.
  unfold bind at 1. rewrite Hauthority.
  unfold bind at 1, update_approvals. fold marked. fold marked_rows.
  unfold bind at 1. rewrite Hd. cbn [fst snd].
  reflexivity.
Qed.

(** The pending required records of the application other than the one
    being decided. *)
Definition remaining_pending : list Approval.t :=
  filter (fun r => pending_required_of applicationId r
                   && negb (Approval.id r =? Approval.id approval_))
         (loan_approvals s).

Definition with_applications (set : Application.t -> Application.t) (s0 : store)
    : store :=
  mkStore (update_where (fun a => Application.id a =? applicationId) set
             (loan_applications s0))
    (loan_approvals s0) (loan_approvals_id_seq s0) (users s0) (audit_logs s0).

Definition with_approvals (rows : list Approval.t) (s0 : store) : store :=
  mkStore (loan_applications s0) rows (loan_approvals_id_seq s0) (users s0)
    (audit_logs s0).

Definition loan_account_audit : Audit.t :=
  Audit.mk None "loan_account_created" "loan_approval"
    (toString (Application.id application))
    (LoanAccountDetails (Application.application_id application)
       (Application.requested_amount application))
    true.

Lemma pending_count_after_marking :
  String.eqb (decision approvalData) "pending" = false ->
  filter (pending_required_of applicationId) (loan_approvals marked)
  = remaining_pending.
Proof.
  intro Hd. unfold marked, remaining_pending. cbn [loan_approvals].
  apply filter_update_where_out. intros r _.
  unfold pending_required_of. cbn. rewrite Hd.
  now rewrite andb_false_r.
Qed.

Lemma apply_decision_approved_last :
  decision approvalData = "approved" ->
  remaining_pending = [] ->
  apply_decision now applicationId application approvalData marked
  = (with_audit loan_account_audit
       (with_applications (Application.set_approved now) marked),
     Returned ("approved", Some 0)).
Proof.
  intros Hd Hnone. unfold apply_decision. rewrite Hd.
  change (String.eqb "approved" "approved") with true. cbv iota.
  unfold bind at 1, select_approvals.
  assert (Hx : String.eqb (decision approvalData) "pending" = false) by (rewrite Hd; reflexivity).
  rewrite (pending_count_after_marking Hx).
  rewrite Hnone. cbn [List.length Z.of_nat Z.eqb].
  reflexivity.
Qed.

Lemma apply_decision_approved_more :
  decision approvalData = "approved" ->
  remaining_pending <> [] ->
  apply_decision now applicationId application approvalData marked
  = (with_applications Application.set_pending_approval marked,
     Returned ("pending_approval", Some (Z.of_nat (List.length remaining_pending)))).
Proof.
  intros Hd Hsome. unfold apply_decision. rewrite Hd.
  change (String.eqb "approved" "approved") with true. cbv iota.
  unfold bind at 1, select_approvals.
  assert (Hx : String.eqb (decision approvalData) "pending" = false) by (rewrite Hd; reflexivity).
  rewrite (pending_count_after_marking Hx).
  destruct remaining_pending as [|r rest] eqn:E; [congruence|].
  replace (Z.of_nat (List.length (r :: rest)) =? 0) with false
    by (symmetry; apply Z.eqb_neq; cbn [List.length]; lia).
  reflexivity.
Qed.

Lemma apply_decision_rejected :
  decision approvalData = "rejected" ->
  apply_decision now applicationId application approvalData marked
  = (with_approvals
       (update_where (pending_of applicationId) Approval.set_cancelled
          (loan_approvals marked))
       (with_applications
          (Application.set_rejected now (rejection_reason approvalData)) marked),
     Returned ("rejected", None)).
Proof.
  intros Hd. unfold apply_decision. rewrite Hd.
  change (String.eqb "rejected" "approved") with false.
  change (String.eqb "rejected" "rejected") with true. cbv iota.
  reflexivity.
Qed.

Lemma apply_decision_other :
  decision approvalData <> "approved" ->
  decision approvalData <> "rejected" ->
  apply_decision now applicationId application approvalData marked
  = (marked, Returned (Application.status application, None)).
Proof.
  intros H1 H2. unfold apply_decision.
  apply String.eqb_neq in H1, H2. rewrite H1, H2. reflexivity.
Qed.

(** The row the call returns as [approval]. *)
Lemma marked_rows_head :
  exists r, hd_error marked_rows = Some r
            /\ Approval.status r = decision approvalData
            /\ Approval.approved_by r = Some approvedBy
            /\ Approval.id r = Approval.id approval_.
Proof.
  unfold marked_rows.
  destruct (filter_head_in _ _ _ _ Hpending) as [Hin _].
  destruct (filter (fun r => Approval.id r =? Approval.id approval_) (loan_approvals s))
    as [|r rest] eqn:E.
  - exfalso. assert (Hm : In approval_ []); [|exact Hm].
    rewrite <- E. apply filter_In. split; [exact Hin | apply Z.eqb_refl].
  - destruct (filter_head_in _ _ _ _ E) as [_ Hr]. apply Z.eqb_eq in Hr.
    eexists. split; [reflexivity|]. cbn. auto.
Qed.

(** The decided record carries the decision in the marked table. *)
Lemma decided_record_marked :
  In (Approval.set_decision (decision approvalData) approvedBy now
        (or_null (comments approvalData)) (or_null (rejection_reason approvalData))
        approval_)
     (loan_approvals marked).
Proof.
  destruct (filter_head_in _ _ _ _ Hpending) as [Hin _].
  unfold marked. cbn [loan_approvals]. apply in_update_where.
  exists approval_. split; [exact Hin|]. now rewrite Z.eqb_refl.
Qed.
End ProcessApproval.

(** *** The authority check *)

(** C4.  When the application is reviewable and a pending record exists at
    the level, [processApproval] fails with an error of kind
    [InsufficientAuthority] whenever the actor's role ranks below the record's
    required role in the hierarchy loan_officer(1) < branch_manager(2) <
    finance_manager(3) < ceo(4) < admin(5) < super_admin(6), or the amount
    exceeds 5,000,000 and the role ranks below ceo.  The callback itself
    stops in the store it started from (the check precedes every update), and
    so does the transaction. *)
Theorem processApproval_insufficient_authority
    (now applicationId approvalLevel approvedBy : Z) (approvalData : approval_data)
    (s : store) (application : Application.t) (apps : list Application.t)
    (approval_ : Approval.t) (others : list Approval.t)
    (user : User.t) (rest : list User.t) :
  filter (fun a => Application.id a =? applicationId) (loan_applications s)
  = application :: apps ->
  reviewable (Application.status application) = true ->
  filter (pending_at applicationId approvalLevel) (loan_approvals s)
  = approval_ :: others ->
  filter (fun u => User.id u =? approvedBy) (users s) = user :: rest ->
  js_lt (userLevel (User.role user)) (requiredLevel (Approval.required_role approval_))
  = true
  \/ ((5000000 < Application.requested_amount application)%Q
      /\ js_lt (userLevel (User.role user)) (userLevel "ceo") = true) ->
  map userLevel
      ["loan_officer"; "branch_manager"; "finance_manager"; "ceo"; "admin"; "super_admin"]
  = map JsNumber [1; 2; 3; 4; 5; 6]
  /\ exists e,
       kind e = InsufficientAuthority
       /\ processApproval_callback now applicationId approvalLevel approvalData
            approvedBy s = (s, Threw e)
       /\ processApproval now applicationId approvalLevel approvalData approvedBy s
          = (s, Threw e).
Proof.
  intros Happ Hrev Hpend Huser Hrank. split; [exact roleHierarchy_ranks|].
  destruct (validateApprovalAuthority_rejects approvedBy
              (Approval.required_role approval_)
              (Application.requested_amount application) s user rest Huser Hrank)
    as [e [Hkind Hthrow]].
  exists e. split; [exact Hkind|].
  pose proof (callback_throws_at_authority_check now applicationId approvalLevel
                approvedBy approvalData s application apps approval_ others
                Happ Hrev Hpend e Hthrow) as Hcb.
  split; [exact Hcb|].
  unfold processApproval. exact (transaction_rolls_back _ _ _ _ Hcb).
Qed.

(** A loan of 10,000,000 under review: levels 1 and 2 approved, level 3
    pending for [finance_manager]; user 7 is a finance manager, user 3 a loan
    officer, user 9 the CEO. *)
Definition big_loan : Application.t :=
  Application.mk 1 "LA00000001" 10 10000000 "pending_approval" (Some 5) None None None 1.

Definition big_loan_store : store :=
  mkStore [big_loan]
    [Approval.mk 1 1 1 "loan_officer" (Some 3) (Some 6) "approved" None None true 5;
     Approval.mk 2 1 2 "branch_manager" (Some 4) (Some 7) "approved" None None true 5;
     Approval.mk 3 1 3 "finance_manager" None None "pending" None None true 5]
    4
    [User.mk 3 "loan_officer" 1 1; User.mk 4 "branch_manager" 2 1;
     User.mk 7 "finance_manager" 3 1; User.mk 9 "ceo" 4 1]
    [].

(** C4 on [big_loan_store]: the finance manager decides level 3, whose
    required role is their own, and is refused because of the amount. *)
Lemma processApproval_insufficient_authority_witness :
  map userLevel
      ["loan_officer"; "branch_manager"; "finance_manager"; "ceo"; "admin"; "super_admin"]
  = map JsNumber [1; 2; 3; 4; 5; 6]
  /\ exists e,
       kind e = InsufficientAuthority
       /\ processApproval_callback 8 1 3 (mkData "approved" None None) 7 big_loan_store
          = (big_loan_store, Threw e)
       /\ processApproval 8 1 3 (mkData "approved" None None) 7 big_loan_store
          = (big_loan_store, Threw e).
Proof.
  apply (processApproval_insufficient_authority 8 1 3 7 (mkData "approved" None None)
           big_loan_store big_loan []
           (Approval.mk 3 1 3 "finance_manager" None None "pending" None None true 5) []
           (User.mk 7 "finance_manager" 3 1) []).
  - reflexivity.
  - reflexivity.
  - reflexivity.
  - reflexivity.
  - right. split; reflexivity.
Defined.

(** The authority scenario of the design document: a loan officer deciding a
    record that requires [ceo]. *)
Example loan_officer_cannot_decide_ceo_record :
  let s := mkStore [Application.mk 2 "LA00000002" 10 10000 "submitted" (Some 5)
                      None None None 1]
             [Approval.mk 88 2 2 "ceo" None None "pending" None None true 5] 89
             [User.mk 100 "loan_officer" 1 1] [] in
  processApproval 8 2 2 (mkData "approved" None None) 100 s
  = (s, Threw Insufficient_authority).
Proof. reflexivity. Qed.

(** *** Decisions outside the enumeration *)

(** C9.  For a reviewable application with a pending record at the level and
    an actor who passes the authority check, every decision string other than
    ['approved'] and ['rejected'] is accepted: the call returns, the record is
    stored with that string as its status, the applications table is left as it
    was, and the result reports the previous application status with
    [workflow_complete = false]. *)
Theorem processApproval_accepts_any_decision
    (now applicationId approvalLevel approvedBy : Z) (approvalData : approval_data)
    (s : store) (application : Application.t) (apps : list Application.t)
    (approval_ : Approval.t) (others : list Approval.t) :
  filter (fun a => Application.id a =? applicationId) (loan_applications s)
  = application :: apps ->
  reviewable (Application.status application) = true ->
  filter (pending_at applicationId approvalLevel) (loan_approvals s)
  = approval_ :: others ->
  validateApprovalAuthority approvedBy (Approval.required_role approval_)
    (Application.requested_amount application) s = (s, Returned tt) ->
  decision approvalData <> "approved" ->
  decision approvalData <> "rejected" ->
  exists s' result,
    processApproval now applicationId approvalLevel approvalData approvedBy s
    = (s', Returned result)
    /\ (exists r, In r (loan_approvals s')
                  /\ Approval.id r = Approval.id approval_
                  /\ Approval.approval_level r = approvalLevel
                  /\ Approval.status r = decision approvalData)
    /\ (exists r, approval result = Some r
                  /\ Approval.status r = decision approvalData)
    /\ loan_applications s' = loan_applications s
    /\ find_application applicationId s' = Some application
    /\ application_status result = Application.status application
    /\ workflow_complete result = false.
Proof.
  intros Happ Hrev Hpend Hauth Hna Hnr.
  pose proof (apply_decision_other now applicationId approvedBy approvalData s
                application approval_ Hna Hnr) as Hd.
  pose proof (callback_after_authority_check now applicationId approvalLevel
                approvedBy approvalData s application apps approval_ others
                Happ Hrev Hpend Hauth _ _ _ Hd) as Hcb.
  eexists. eexists. split.
  { unfold processApproval. apply transaction_commits. exact Hcb. }
  destruct (filter_head_in _ _ _ _ Hpend) as [_ Hp].
  unfold pending_at in Hp. apply andb_prop in Hp. destruct Hp as [Hp _].
  apply andb_prop in Hp. destruct Hp as [_ Hlevel]. apply Z.eqb_eq in Hlevel.
  split.
  { eexists. split.
    - cbn [with_audit loan_approvals].
      apply (decided_record_marked now applicationId approvalLevel approvedBy
               approvalData s approval_ others Hpend).
    - cbn. auto. }
  split.
  { destruct (marked_rows_head now applicationId approvalLevel approvedBy approvalData
                s approval_ others Hpend) as [r [Hr [Hst _]]].
    exists r. cbn [approval]. auto. }
  split; [reflexivity|].
  split.
  { unfold find_application. cbn [with_audit marked loan_applications].
    now rewrite Happ. }
  split; reflexivity.
Qed.

(** A small loan after submission: one pending level for the loan officer. *)
Definition small_loan : Application.t :=
  Application.mk 1 "LA00000001" 10 50000 "submitted" (Some 5) None None None 1.

Definition small_loan_store : store :=
  mkStore [small_loan]
    [Approval.mk 1 1 1 "loan_officer" None None "pending" None None true 5]
    2 [User.mk 3 "loan_officer" 1 1; User.mk 4 "branch_manager" 2 1] [].

(** C9 on [small_loan_store] with the decision ['maybe']. *)
Lemma processApproval_accepts_any_decision_witness :
  exists s' result,
    processApproval 8 1 1 (mkData "maybe" None None) 3 small_loan_store
    = (s', Returned result)
    /\ (exists r, In r (loan_approvals s')
                  /\ Approval.id r = 1
                  /\ Approval.approval_level r = 1
                  /\ Approval.status r = "maybe")
    /\ (exists r, approval result = Some r /\ Approval.status r = "maybe")
    /\ loan_applications s' = loan_applications small_loan_store
    /\ find_application 1 s' = Some small_loan
    /\ application_status result = "submitted"
    /\ workflow_complete result = false.
Proof.
  apply (processApproval_accepts_any_decision 8 1 1 3 (mkData "maybe" None None)
           small_loan_store small_loan []
           (Approval.mk 1 1 1 "loan_officer" None None "pending" None None true 5) []).
  - reflexivity.
  - reflexivity.
  - reflexivity.
  - reflexivity.
  - discriminate.
  - discriminate.
Defined.

(** *** Approve and reject *)

Section Decisions.
Variables (now applicationId approvalLevel approvedBy : Z).
Variable approvalData : approval_data.
Variable s : store.
Variables (application : Application.t) (apps : list Application.t).
Variables (approval_ : Approval.t) (others : list Approval.t).
Hypothesis Happ :
  filter (fun a => Application.id a =? applicationId) (loan_applications s)
  = application :: apps.
Hypothesis Hreviewable : reviewable (Application.status application) = true.
Hypothesis Hpending :
  filter (pending_at applicationId approvalLevel) (loan_approvals s)
  = approval_ :: others.
Hypothesis Hauthority :
  validateApprovalAuthority approvedBy (Approval.required_role approval_)
    (Application.requested_amount application) s = (s, Returned tt).

Lemma find_after_update (set : Application.t -> Application.t) (s' : store) :
  (forall a, Application.id (set a) = Application.id a) ->
  loan_applications s'
  = update_where (fun a => Application.id a =? applicationId) set (loan_applications s) ->
  find_application applicationId s' = Some (set application).
Proof.
  intros Hid Hupd. unfold find_application. rewrite Hupd.
  rewrite filter_update_where_same by (intros a; rewrite Hid; auto).
  now rewrite Happ.
Qed.

(** The last approval: no other pending required record is left. *)
Lemma processApproval_last_approval :
  decision approvalData = "approved" ->
  remaining_pending applicationId s approval_ = [] ->
  exists s' result,
    processApproval now applicationId approvalLevel approvalData approvedBy s
    = (s', Returned result)
    /\ (exists a, find_application applicationId s' = Some a
                  /\ Application.status a = "approved"
                  /\ Application.approved_at a = Some now)
    /\ application_status result = "approved"
    /\ workflow_complete result = true.
Proof.
  intros Hd Hnone.
  pose proof (apply_decision_approved_last now applicationId approvedBy approvalData s
                application approval_ Hd Hnone) as Hdec.
  pose proof (callback_after_authority_check now applicationId approvalLevel
                approvedBy approvalData s application apps approval_ others
                Happ Hreviewable Hpending Hauthority _ _ _ Hdec) as Hcb.
  eexists. eexists. split.
  { unfold processApproval. apply transaction_commits. exact Hcb. }
  split.
  { exists (Application.set_approved now application). split; [|split; reflexivity].
    apply find_after_update; reflexivity. }
  split; [reflexivity|].
  cbn [workflow_complete]. rewrite Hd. reflexivity.
Qed.

(** An approval that leaves other pending required records. *)
Lemma processApproval_intermediate_approval :
  decision approvalData = "approved" ->
  remaining_pending applicationId s approval_ <> [] ->
  exists s' result,
    processApproval now applicationId approvalLevel approvalData approvedBy s
    = (s', Returned result)
    /\ (exists a, find_application applicationId s' = Some a
                  /\ Application.status a = "pending_approval")
    /\ application_status result = "pending_approval"
    /\ workflow_complete result = false.
Proof.
  intros Hd Hsome.
  pose proof (apply_decision_approved_more now applicationId approvedBy approvalData s
                application approval_ Hd Hsome) as Hdec.
  pose proof (callback_after_authority_check now applicationId approvalLevel
                approvedBy approvalData s application apps approval_ others
                Happ Hreviewable Hpending Hauthority _ _ _ Hdec) as Hcb.
  eexists. eexists. split.
  { unfold processApproval. apply transaction_commits. exact Hcb. }
  split.
  { exists (Application.set_pending_approval application). split; [|reflexivity].
    apply find_after_update; reflexivity. }
  split; [reflexivity|].
  cbn [workflow_complete].
  destruct (remaining_pending applicationId s approval_) as [|r rest]; [congruence|].
  cbn [List.length]. rewrite Nat2Z.inj_succ.
  destruct (Z.succ (Z.of_nat (List.length rest))) eqn:E; try reflexivity. lia.
Qed.
(** A rejection: the application is rejected and stamped, every other
    pending record of the application is cancelled, and no level of the
    application can be decided any more. *)
Lemma processApproval_rejection :
  decision approvalData = "rejected" ->
  exists s' result,
    processApproval now applicationId approvalLevel approvalData approvedBy s
    = (s', Returned result)
    /\ (exists a, find_application applicationId s' = Some a
                  /\ Application.status a = "rejected"
                  /\ Application.rejected_at a = Some now
                  /\ Application.rejection_reason a = rejection_reason approvalData)
    /\ (forall r, In r (loan_approvals s) ->
                  pending_of applicationId r = true ->
                  Approval.id r <> Approval.id approval_ ->
                  In (Approval.set_cancelled r) (loan_approvals s'))
    /\ (exists r, In r (loan_approvals s')
                  /\ Approval.id r = Approval.id approval_
                  /\ Approval.status r = "rejected")
    /\ (forall r, In r (loan_approvals s') ->
                  Approval.loan_application_id r = applicationId ->
                  Approval.status r <> "pending")
    /\ (forall lvl, filter (pending_at applicationId lvl) (loan_approvals s') = [])
    /\ (forall now' lvl data' by',
          processApproval now' applicationId lvl data' by' s'
          = (s', Threw Application_not_reviewable))
    /\ application_status result = "rejected"
    /\ workflow_complete result = false.
Proof.
  intros Hd.
  pose proof (apply_decision_rejected now applicationId approvedBy approvalData s
                application approval_ Hd) as Hdec.
  pose proof (callback_after_authority_check now applicationId approvalLevel
                approvedBy approvalData s application apps approval_ others
                Happ Hreviewable Hpending Hauthority _ _ _ Hdec) as Hcb.
  set (s' := with_audit _ _) in Hcb.
  assert (Hrows : loan_approvals s'
                  = update_where (pending_of applicationId) Approval.set_cancelled
                      (loan_approvals (marked now approvedBy approvalData s approval_)))
    by reflexivity.
  assert (Hfind : find_application applicationId s'
                  = Some (Application.set_rejected now (rejection_reason approvalData)
                            application))
    by (apply find_after_update; reflexivity).
  assert (Hnone : forall r, In r (loan_approvals s') ->
                    Approval.loan_application_id r = applicationId ->
                    Approval.status r <> "pending").
  { intros r Hin Happid. rewrite Hrows in Hin. apply in_update_where in Hin.
    destruct Hin as [r0 [_ Hr]]. destruct (pending_of applicationId r0) eqn:Ep.
    - subst r. cbn. discriminate.
    - subst r0. unfold pending_of in Ep. rewrite Happid, Z.eqb_refl in Ep.
      cbn [andb] in Ep. now apply String.eqb_neq. }
  exists s'. eexists. split.
  { unfold processApproval. apply transaction_commits. exact Hcb. }
  split.
  { eexists. split; [exact Hfind|]. repeat split; reflexivity. }
  split.
  { intros r Hin Hp Hid. rewrite Hrows. apply in_update_where.
    exists r. rewrite Hp. split; [|reflexivity].
    unfold marked. cbn [loan_approvals]. apply in_update_where.
    exists r. split; [exact Hin|].
    apply Z.eqb_neq in Hid. now rewrite Hid. }
  split.
  { pose proof (decided_record_marked now applicationId approvalLevel approvedBy
                  approvalData s approval_ others Hpending) as Hin.
    exists (Approval.set_decision (decision approvalData) approvedBy now
              (or_null (comments approvalData)) (or_null (rejection_reason approvalData))
              approval_).
    split; [|cbn; rewrite Hd; auto].
    rewrite Hrows. apply in_update_where.
    exists (Approval.set_decision (decision approvalData) approvedBy now
              (or_null (comments approvalData)) (or_null (rejection_reason approvalData))
              approval_).
    split; [exact Hin|].
    unfold pending_of. cbn [Approval.status Approval.set_decision]. rewrite Hd.
    change (String.eqb "rejected" "pending") with false.
    rewrite andb_false_r. reflexivity. }
  split; [exact Hnone|].
  split.
  { intro lvl.
    destruct (filter (pending_at applicationId lvl) (loan_approvals s')) as [|r rest] eqn:E;
      [reflexivity|].
    destruct (filter_head_in _ _ _ _ E) as [Hin Hp]. unfold pending_at in Hp.
    apply andb_prop in Hp. destruct Hp as [Hp Hst].
    apply andb_prop in Hp. destruct Hp as [Hid _].
    apply Z.eqb_eq in Hid. apply String.eqb_eq in Hst.
    exfalso. exact (Hnone r Hin Hid Hst). }
  split.
  { intros now' lvl data' by'. unfold processApproval.
    apply transaction_rolls_back with (s' := s').
    unfold processApproval_callback, bind at 1, select_applications.
    unfold find_application in Hfind.
    destruct (filter _ (loan_applications s')) as [|a rest]; [discriminate|].
    cbn in Hfind. injection Hfind as ->. reflexivity. }
  split; [reflexivity|].
  cbn [workflow_complete]. reflexivity.
Qed.
End Decisions.

(** C3.  For a reviewable application, a pending record at the level and an
    actor who passes the authority check:
    - decision ['approved'], no other pending required record left: the
      application becomes ['approved'] with [approved_at] stamped and the result
      reports the workflow complete;
    - decision ['approved'], other pending required records left: the
      application becomes ['pending_approval'];
    - decision ['rejected']: the application becomes ['rejected'] with
      [rejected_at] and the reason stamped, every other pending record of the
      application is ['cancelled'], no record of the application is pending at
      any level, and every later [processApproval] on it fails. *)
Theorem processApproval_decision_outcomes
    (now applicationId approvalLevel approvedBy : Z) (approvalData : approval_data)
    (s : store) (application : Application.t) (apps : list Application.t)
    (approval_ : Approval.t) (others : list Approval.t) :
  filter (fun a => Application.id a =? applicationId) (loan_applications s)
  = application :: apps ->
  reviewable (Application.status application) = true ->
  filter (pending_at applicationId approvalLevel) (loan_approvals s)
  = approval_ :: others ->
  validateApprovalAuthority approvedBy (Approval.required_role approval_)
    (Application.requested_amount application) s = (s, Returned tt) ->
  (decision approvalData = "approved" ->
   filter (fun r => pending_required_of applicationId r
                    && negb (Approval.id r =? Approval.id approval_))
          (loan_approvals s) = [] ->
   exists s' result,
     processApproval now applicationId approvalLevel approvalData approvedBy s
     = (s', Returned result)
     /\ (exists a, find_application applicationId s' = Some a
                   /\ Application.status a = "approved"
                   /\ Application.approved_at a = Some now)
     /\ application_status result = "approved"
     /\ workflow_complete result = true)
  /\ (decision approvalData = "approved" ->
      filter (fun r => pending_required_of applicationId r
                       && negb (Approval.id r =? Approval.id approval_))
             (loan_approvals s) <> [] ->
      exists s' result,
        processApproval now applicationId approvalLevel approvalData approvedBy s
        = (s', Returned result)
        /\ (exists a, find_application applicationId s' = Some a
                      /\ Application.status a = "pending_approval")
        /\ application_status result = "pending_approval"
        /\ workflow_complete result = false)
  /\ (decision approvalData = "rejected" ->
      exists s' result,
        processApproval now applicationId approvalLevel approvalData approvedBy s
        = (s', Returned result)
        /\ (exists a, find_application applicationId s' = Some a
                      /\ Application.status a = "rejected"
                      /\ Application.rejected_at a = Some now
                      /\ Application.rejection_reason a = rejection_reason approvalData)
        /\ (forall r, In r (loan_approvals s) ->
                      pending_of applicationId r = true ->
                      Approval.id r <> Approval.id approval_ ->
                      In (Approval.set_cancelled r) (loan_approvals s'))
        /\ (exists r, In r (loan_approvals s')
                      /\ Approval.id r = Approval.id approval_
                      /\ Approval.status r = "rejected")
        /\ (forall r, In r (loan_approvals s') ->
                      Approval.loan_application_id r = applicationId ->
                      Approval.status r <> "pending")
        /\ (forall lvl, filter (pending_at applicationId lvl) (loan_approvals s') = [])
        /\ (forall now' lvl data' by',
              processApproval now' applicationId lvl data' by' s'
              = (s', Threw Application_not_reviewable))
        /\ application_status result = "rejected"
        /\ workflow_complete result = false).
Proof.
  intros Happ Hrev Hpend Hauth. split; [|split].
  - intros Hd Hnone.
    exact (processApproval_last_approval now applicationId approvalLevel approvedBy
             approvalData s application apps approval_ others
             Happ Hrev Hpend Hauth Hd Hnone).
  - intros Hd Hsome.
    exact (processApproval_intermediate_approval now applicationId approvalLevel
             approvedBy approvalData s application apps approval_ others
             Happ Hrev Hpend Hauth Hd Hsome).
  - intros Hd.
    exact (processApproval_rejection now applicationId approvalLevel approvedBy
             approvalData s application apps approval_ others
             Happ Hrev Hpend Hauth Hd).
Qed.

(** A loan of 200,000 after submission: a two-level chain, both pending. *)
Definition medium_loan : Application.t :=
  Application.mk 1 "LA00000001" 10 200000 "submitted" (Some 5) None None None 1.

Definition level_1_pending : Approval.t :=
  Approval.mk 1 1 1 "loan_officer" None None "pending" None None true 5.

Definition level_2_pending : Approval.t :=
  Approval.mk 2 1 2 "branch_manager" None None "pending" None None true 5.

Definition medium_loan_store : store :=
  mkStore [medium_loan] [level_1_pending; level_2_pending] 3
    [User.mk 3 "loan_officer" 1 1; User.mk 4 "branch_manager" 2 1] [].

(** C3 on [medium_loan_store]: approving level 1 leaves level 2 pending and
    moves the application to ['pending_approval']. *)
Lemma processApproval_decision_outcomes_witness :
  exists s' result,
    processApproval 8 1 1 (mkData "approved" None None) 3 medium_loan_store
    = (s', Returned result)
    /\ (exists a, find_application 1 s' = Some a
                  /\ Application.status a = "pending_approval")
    /\ application_status result = "pending_approval"
    /\ workflow_complete result = false.
Proof.
  refine (proj1 (proj2 (processApproval_decision_outcomes 8 1 1 3
                          (mkData "approved" None None) medium_loan_store
                          medium_loan [] level_1_pending [] _ _ _ _)) _ _).
  - reflexivity.
  - reflexivity.
  - reflexivity.
  - reflexivity.
  - reflexivity.
  - discriminate.
Defined.

(** The workflow scenario of the design document on the two-level chain. *)
Example two_level_chain_scenario :
  let approve := mkData "approved" None None in
  let reject := mkData "rejected" None (Some "incomplete documents") in
  let after_1 := fst (processApproval 8 1 1 approve 3 medium_loan_store) in
  let after_2 := fst (processApproval 9 1 2 approve 4 after_1) in
  let rejected_1 := fst (processApproval 8 1 1 reject 3 medium_loan_store) in
  option_map Application.status (find_application 1 after_1) = Some "pending_approval"
  /\ option_map Application.status (find_application 1 after_2) = Some "approved"
  /\ option_map Application.status (find_application 1 rejected_1) = Some "rejected"
  /\ map Approval.status (loan_approvals rejected_1) = ["rejected"; "cancelled"].
Proof. repeat split. Qed.

(** ** [escalateApproval] *)

Section Escalation.
Variables (now applicationId currentLevel escalatedBy : Z) (reason : string).
Variable s : store.
Variables (application : Application.t) (apps : list Application.t).
Hypothesis Happ :
  filter (fun a => Application.id a =? applicationId) (loan_applications s)
  = application :: apps.

(** The [WHERE] clauses of the two approval statements. *)
Definition at_next_level (r : Approval.t) : bool :=
  (Approval.loan_application_id r =? applicationId)
  && (Approval.approval_level r =? currentLevel + 1).

Definition at_current_level (r : Approval.t) : bool :=
  (Approval.loan_application_id r =? applicationId)
  && (Approval.approval_level r =? currentLevel).

Definition escalation_audit : Audit.t :=
  Audit.mk (Some escalatedBy) "escalated" "loan_approval" (toString applicationId)
    (EscalationDetails currentLevel (currentLevel + 1) reason) true.

Lemma escalate_without_next_role :
  getRequiredRoleForLevel (currentLevel + 1) (Application.requested_amount application)
  = None ->
  escalateApproval_callback now applicationId currentLevel reason escalatedBy s
  = (s, Threw Cannot_escalate).
Proof.
  intro Hrole.
  unfold escalateApproval_callback, bind at 1, select_applications. rewrite Happ.
  cbv zeta. rewrite Hrole. reflexivity.
Qed.

Lemma escalate_onto_existing (nextRole : string) (existing : Approval.t)
    (rest : list Approval.t) :
  getRequiredRoleForLevel (currentLevel + 1) (Application.requested_amount application)
  = Some nextRole ->
  filter at_next_level (loan_approvals s) = existing :: rest ->
  escalateApproval_callback now applicationId currentLevel reason escalatedBy s
  = (mkStore (loan_applications s)
       (update_where at_current_level (Approval.set_escalated reason)
          (update_where (fun r => Approval.id r =? Approval.id existing)
             Approval.set_pending_required (loan_approvals s)))
       (loan_approvals_id_seq s) (users s) (audit_logs s ++ [escalation_audit]),
     Returned
       (mkEscalation (currentLevel + 1) nextRole
          (hd_error (map Approval.set_pending_required
                       (filter (fun r => Approval.id r =? Approval.id existing)
                          (loan_approvals s))))
          reason)).
Proof.
  intros Hrole Hexisting.
  unfold escalateApproval_callback, bind at 1, select_applications. rewrite Happ.
  cbv zeta. rewrite Hrole.
  unfold bind at 1, select_approvals. fold at_next_level. rewrite Hexisting.
  reflexivity.
Qed.

Lemma escalate_onto_new (nextRole : string) :
  getRequiredRoleForLevel (currentLevel + 1) (Application.requested_amount application)
  = Some nextRole ->
  filter at_next_level (loan_approvals s) = [] ->
  let row := Approval.mk (loan_approvals_id_seq s) applicationId (currentLevel + 1)
               nextRole None None "pending" None None true now in
  escalateApproval_callback now applicationId currentLevel reason escalatedBy s
  = (mkStore (loan_applications s)
       (update_where at_current_level (Approval.set_escalated reason)
          (loan_approvals s ++ [row]))
       (loan_approvals_id_seq s + 1) (users s) (audit_logs s ++ [escalation_audit]),
     Returned (mkEscalation (currentLevel + 1) nextRole (Some row) reason)).
Proof.
  intros Hrole Hexisting row.
  unfold escalateApproval_callback, bind at 1, select_applications. rewrite Happ.
  cbv zeta. rewrite Hrole.
  unfold bind at 1, select_approvals. fold at_next_level. rewrite Hexisting.
  reflexivity.
Qed.

(** Rows at the current level end up escalated with the reason. *)
Lemma escalated_rows (rows : list Approval.t) (r : Approval.t) :
  In r (update_where at_current_level (Approval.set_escalated reason) rows) ->
  Approval.loan_application_id r = applicationId ->
  Approval.approval_level r = currentLevel ->
  Approval.status r = "escalated" /\ Approval.comments r = Some reason.
Proof.
  intros Hin Hid Hlevel. apply in_update_where in Hin.
  destruct Hin as [r0 [_ Hr]]. destruct (at_current_level r0) eqn:E.
  - subst r. split; reflexivity.
  - subst r0. unfold at_current_level in E.
    rewrite Hid, Hlevel, !Z.eqb_refl in E. discriminate.
Qed.

Lemma next_level_row_kept (rows : list Approval.t) (r : Approval.t) :
  In r rows ->
  Approval.approval_level r = currentLevel + 1 ->
  In r (update_where at_current_level (Approval.set_escalated reason) rows).
Proof.
  intros Hin Hlevel. apply in_update_where. exists r. split; [exact Hin|].
  unfold at_current_level. rewrite Hlevel.
  replace (currentLevel + 1 =? currentLevel) with false
    by (symmetry; apply Z.eqb_neq; lia).
  now rewrite andb_false_r.
Qed.
End Escalation.

(** C6.  For an existing application, [escalateApproval] looks up the role
    of [currentLevel + 1] for the application's amount; it fails with
    [CannotEscalate] exactly when there is none.  Otherwise it returns.  When
    a record is already present at the next level, the table holds afterwards
    a record with its id, application, level, role and other columns whose
    status is ['pending'] and whose [is_required] is true, the returned record
    is such a one, and no record is inserted; else a new required ['pending']
    record with the next level and role is inserted.  The records at the
    current level are ['escalated'] with the reason as comment. *)
Theorem escalateApproval_next_level
    (now applicationId currentLevel escalatedBy : Z) (reason : string) (s : store)
    (application : Application.t) (apps : list Application.t) :
  filter (fun a => Application.id a =? applicationId) (loan_applications s)
  = application :: apps ->
  let nextLevel := currentLevel + 1 in
  let amount := Application.requested_amount application in
  ((exists e, kind e = CannotEscalate
              /\ escalateApproval now applicationId currentLevel reason escalatedBy s
                 = (s, Threw e))
   <-> getRequiredRoleForLevel nextLevel amount = None)
  /\ (forall nextRole,
        getRequiredRoleForLevel nextLevel amount = Some nextRole ->
        exists s' result,
          escalateApproval now applicationId currentLevel reason escalatedBy s
          = (s', Returned result)
          /\ escalated_to_level result = nextLevel
          /\ escalation_required_role result = nextRole
          /\ (forall existing rest,
                filter (at_next_level applicationId currentLevel) (loan_approvals s)
                = existing :: rest ->
                (exists r,
                   In r (loan_approvals s')
                   /\ Approval.status r = "pending"
                   /\ Approval.is_required r = true
                   /\ Approval.id r = Approval.id existing
                   /\ Approval.loan_application_id r = applicationId
                   /\ Approval.approval_level r = nextLevel
                   /\ Approval.required_role r = Approval.required_role existing
                   /\ Approval.approved_by r = Approval.approved_by existing
                   /\ Approval.approved_at r = Approval.approved_at existing
                   /\ Approval.comments r = Approval.comments existing
                   /\ Approval.rejection_reason r = Approval.rejection_reason existing
                   /\ Approval.created_at r = Approval.created_at existing)
                /\ (exists r,
                      escalation_approval result = Some r
                      /\ Approval.status r = "pending"
                      /\ Approval.is_required r = true
                      /\ Approval.id r = Approval.id existing)
                /\ List.length (loan_approvals s') = List.length (loan_approvals s)
                /\ loan_approvals_id_seq s' = loan_approvals_id_seq s)
          /\ (filter (at_next_level applicationId currentLevel) (loan_approvals s) = [] ->
              exists row,
                loan_approvals s'
                = update_where (at_current_level applicationId currentLevel)
                    (Approval.set_escalated reason) (loan_approvals s) ++ [row]
                /\ escalation_approval result = Some row
                /\ Approval.loan_application_id row = applicationId
                /\ Approval.approval_level row = nextLevel
                /\ Approval.required_role row = nextRole
                /\ Approval.status row = "pending"
                /\ Approval.is_required row = true)
          /\ List.length (filter (at_current_level applicationId currentLevel)
                            (loan_approvals s'))
             = List.length (filter (at_current_level applicationId currentLevel)
                              (loan_approvals s))
          /\ (forall r, In r (loan_approvals s') ->
                        Approval.loan_application_id r = applicationId ->
                        Approval.approval_level r = currentLevel ->
                        Approval.status r = "escalated"
                        /\ Approval.comments r = Some reason)).
Proof.
  intros Happ nextLevel amount. subst nextLevel amount.
  assert (Hsome : forall nextRole,
            getRequiredRoleForLevel (currentLevel + 1)
              (Application.requested_amount application) = Some nextRole ->
            exists s' result,
              escalateApproval_callback now applicationId currentLevel reason escalatedBy s
              = (s', Returned result)).
  { intros nextRole Hrole.
    destruct (filter (at_next_level applicationId currentLevel) (loan_approvals s))
      as [|existing rest] eqn:E.
    - eexists. eexists.
      exact (escalate_onto_new now applicationId currentLevel escalatedBy reason s
               application apps Happ nextRole Hrole E).
    - eexists. eexists.
      exact (escalate_onto_existing now applicationId currentLevel escalatedBy reason s
               application apps Happ nextRole existing rest Hrole E). }
  split.
  { split.
    - intros [e [Hkind Hthrow]].
      destruct (getRequiredRoleForLevel (currentLevel + 1)
                  (Application.requested_amount application)) as [nextRole|] eqn:Hrole;
        [|reflexivity].
      destruct (Hsome nextRole eq_refl) as [s' [result Hcb]].
      unfold escalateApproval in Hthrow.
      rewrite (transaction_commits _ _ _ _ Hcb) in Hthrow. discriminate.
    - intro Hrole. exists Cannot_escalate. split; [reflexivity|].
      unfold escalateApproval. apply transaction_rolls_back with (s' := s).
      exact (escalate_without_next_role now applicationId currentLevel escalatedBy
               reason s application apps Happ Hrole). }
  intros nextRole Hrole.
  destruct (filter (at_next_level applicationId currentLevel) (loan_approvals s))
    as [|existing rest] eqn:E.
  - pose proof (escalate_onto_new now applicationId currentLevel escalatedBy reason s
                  application apps Happ nextRole Hrole E) as Hcb.
    cbv zeta in Hcb.
    eexists. eexists. split.
    { unfold escalateApproval. apply transaction_commits. exact Hcb. }
    split; [reflexivity|]. split; [reflexivity|].
    assert (Hrow : at_current_level applicationId currentLevel
                     (Approval.mk (loan_approvals_id_seq s) applicationId
                        (currentLevel + 1) nextRole None None "pending" None None
                        true now) = false).
    { unfold at_current_level. cbn.
      replace (currentLevel + 1 =? currentLevel) with false
        by (symmetry; apply Z.eqb_neq; lia).
      now rewrite andb_false_r. }
    split; [intros ? ? Habs; discriminate|].
    split.
    { intros _. eexists. split.
      - cbn [loan_approvals]. unfold update_where at 1. rewrite map_app.
        cbn [map]. rewrite Hrow. reflexivity.
      - repeat split; reflexivity. }
    split.
    { cbn [loan_approvals]. unfold update_where at 1. rewrite map_app, filter_app.
      cbn [map filter]. rewrite Hrow. cbn [filter]. rewrite Hrow. rewrite app_nil_r.
      fold (update_where (at_current_level applicationId currentLevel)
              (Approval.set_escalated reason) (loan_approvals s)).
      rewrite filter_update_where_invariant by reflexivity.
      apply update_where_length. }
    intros r Hin. cbn [loan_approvals] in Hin.
    exact (escalated_rows applicationId currentLevel reason _ r Hin).
  - pose proof (escalate_onto_existing now applicationId currentLevel escalatedBy reason s
                  application apps Happ nextRole existing rest Hrole E) as Hcb.
    eexists. eexists. split.
    { unfold escalateApproval. apply transaction_commits. exact Hcb. }
    split; [reflexivity|]. split; [reflexivity|].
    split.
    { intros existing' rest' Heq. injection Heq as <- <-.
      destruct (filter_head_in _ _ _ _ E) as [Hin Hp].
      unfold at_next_level in Hp. apply andb_prop in Hp. destruct Hp as [Hown Hlevel].
      apply Z.eqb_eq in Hown. apply Z.eqb_eq in Hlevel.
      split; [|split; [|split]].
      - exists (Approval.set_pending_required existing). split.
        + cbn [loan_approvals].
          apply next_level_row_kept; [|exact Hlevel].
          apply in_update_where. exists existing. split; [exact Hin|].
          now rewrite Z.eqb_refl.
        + cbn. repeat split; assumption.
      - cbn [escalation_approval].
        destruct (filter (fun r => Approval.id r =? Approval.id existing)
                    (loan_approvals s)) as [|r0 rest0] eqn:Eid.
        + assert (Hex : In existing
                          (filter (fun r => Approval.id r =? Approval.id existing)
                             (loan_approvals s)))
            by (apply filter_In; split; [exact Hin | apply Z.eqb_refl]).
          rewrite Eid in Hex. destruct Hex.
        + destruct (filter_head_in _ _ _ _ Eid) as [_ Hid0].
          apply Z.eqb_eq in Hid0.
          exists (Approval.set_pending_required r0). cbn.
          repeat split; assumption.
      - cbn [loan_approvals]. now rewrite !update_where_length.
      - reflexivity. }
    split; [intro Habs; discriminate|].
    split.
    { cbn [loan_approvals].
      rewrite !filter_update_where_invariant by reflexivity.
      now rewrite !update_where_length. }
    intros r Hin. cbn [loan_approvals] in Hin.
    exact (escalated_rows applicationId currentLevel reason _ r Hin).
Qed.

(** A level-2 record that was cancelled and is not required. *)
Definition level_2_waived : Approval.t :=
  Approval.mk 2 1 2 "branch_manager" None None "cancelled" None None false 5.

Definition waived_level_store : store :=
  mkStore [medium_loan] [level_1_pending; level_2_waived] 3
    [User.mk 3 "loan_officer" 1 1; User.mk 4 "branch_manager" 2 1] [].

(** C6 on a loan of 200,000 (chain of two levels).  On [medium_loan_store]
    escalating level 2 finds no role at level 3.  On [waived_level_store]
    escalating level 1 meets the cancelled, not required record of level 2:
    afterwards the table holds record 2 as ['pending'] and required, and this
    is the record returned. *)
Lemma escalateApproval_next_level_witness :
  (exists e, kind e = CannotEscalate
             /\ escalateApproval 8 1 2 "needs senior review" 4 medium_loan_store
                = (medium_loan_store, Threw e))
  /\ (exists s' result r,
        escalateApproval 8 1 1 "needs senior review" 3 waived_level_store
        = (s', Returned result)
        /\ escalated_to_level result = 2
        /\ escalation_required_role result = "branch_manager"
        /\ In r (loan_approvals s')
        /\ escalation_approval result = Some r
        /\ Approval.id r = 2
        /\ Approval.approval_level r = 2
        /\ Approval.status r = "pending"
        /\ Approval.is_required r = true
        /\ List.length (loan_approvals s') = 2%nat).
Proof.
  split.
  - refine (proj2 (proj1 (escalateApproval_next_level 8 1 2 4 "needs senior review"
                            medium_loan_store medium_loan [] _)) _).
    + reflexivity.
    + reflexivity.
  - destruct (proj2 (escalateApproval_next_level 8 1 1 3 "needs senior review"
                       waived_level_store medium_loan [] eq_refl)
                "branch_manager" eq_refl)
      as [s' [result [Hrun [Hlevel [Hrole [Hexisting _]]]]]].
    destruct (Hexisting level_2_waived [] eq_refl)
      as [[r [Hin [Hstatus [Hrequired [Hid [_ [Hlvl _]]]]]]] [[r' [Hret _]] [Hlen _]]].
    exists s', result, r.
    assert (Hsame : escalation_approval result = Some r).
    { rewrite Hret. f_equal.
      assert (Hs' : s' = fst (escalateApproval 8 1 1 "needs senior review" 3
                                waived_level_store))
        by (now rewrite Hrun).
      assert (Hres : Returned result
                     = snd (escalateApproval 8 1 1 "needs senior review" 3
                              waived_level_store))
        by (now rewrite Hrun).
      injection Hres as Hres. rewrite Hres in Hret. injection Hret as <-.
      rewrite Hs' in Hin. cbn in Hin.
      destruct Hin as [<- | [<- | []]]; [discriminate Hstatus | reflexivity]. }
    repeat split; assumption.
Defined.

(** Escalating level 1 of the same loan resets the existing level-2 record
    and marks level 1. *)
Example escalate_level_1_of_medium_loan :
  let s' := fst (escalateApproval 8 1 1 "needs senior review" 3 medium_loan_store) in
  map (fun r => (Approval.approval_level r, Approval.status r, Approval.comments r))
      (loan_approvals s')
  = [(1, "escalated", Some "needs senior review"); (2, "pending", None)].
Proof. reflexivity. Qed.

(** ** [bulkApprove] *)

Section Bulk.
Variable approvedBy : Z.

(** The call [bulk_step] makes for an item. *)
Definition process_item (timed : timestamp * bulk_item) : tx store approval_result :=
  processApproval (fst timed) (item_application_id (snd timed))
    (item_approval_level (snd timed))
    (mkData (item_decision (snd timed)) (item_comments (snd timed))
            (item_rejection_reason (snd timed)))
    approvedBy.

(** A failed [processApproval] leaves the store as it was. *)
Lemma processApproval_failure_keeps_store (now applicationId approvalLevel : Z)
    (approvalData : approval_data) (s s' : store) (e : error) :
  processApproval now applicationId approvalLevel approvalData approvedBy s
  = (s', Threw e) -> s' = s.
Proof.
  unfold processApproval, transaction.
  destruct (processApproval_callback _ _ _ _ _ s) as [s1 [a|e1]]; intro H;
    inversion H; reflexivity.
Qed.

Lemma bulk_step_success (s s' : store) (results : bulk_results)
    (timed : timestamp * bulk_item) (result : approval_result) :
  process_item timed s = (s', Returned result) ->
  bulk_step approvedBy (s, results) timed
  = (s',
     mkResults (successful results ++ [(item_application_id (snd timed), result)])
       (failed results)
       (if String.eqb (item_decision (snd timed)) "approved" then
          mkSummary (total (summary results)) (approved (summary results) + 1)
                    (rejected (summary results)) (failed_count (summary results))
        else
          mkSummary (total (summary results)) (approved (summary results))
                    (rejected (summary results) + 1) (failed_count (summary results)))).
Proof.
  destruct timed as [now appData]. unfold process_item, bulk_step. cbn [fst snd].
  intro H. now rewrite H.
Qed.

Lemma bulk_step_failure (s s' : store) (results : bulk_results)
    (timed : timestamp * bulk_item) (e : error) :
  process_item timed s = (s', Threw e) ->
  bulk_step approvedBy (s, results) timed
  = (s,
     mkResults (successful results)
       (failed results ++ [(item_application_id (snd timed), message e)])
       (mkSummary (total (summary results)) (approved (summary results))
          (rejected (summary results)) (failed_count (summary results) + 1))).
Proof.
  destruct timed as [now appData]. unfold process_item, bulk_step. cbn [fst snd].
  intro H. rewrite H. f_equal.
  exact (processApproval_failure_keeps_store _ _ _ _ _ _ _ H).
Qed.

(** The outcome of every item, each obtained by running [processApproval] on
    the store the items before it have left. *)
Fixpoint outcomes (items : list (timestamp * bulk_item)) (s : store)
    : list (bulk_item * outcome approval_result) :=
  match items with
  | [] => []
  | timed :: rest =>
      (snd timed, snd (process_item timed s))
      :: outcomes rest (fst (process_item timed s))
  end.

(** The store after all items. *)
Fixpoint store_after (items : list (timestamp * bulk_item)) (s : store) : store :=
  match items with
  | [] => s
  | timed :: rest => store_after rest (fst (process_item timed s))
  end.

Definition successes (os : list (bulk_item * outcome approval_result))
    : list (Z * approval_result) :=
  flat_map (fun io => match snd io with
                      | Returned result => [(item_application_id (fst io), result)]
                      | Threw _ => []
                      end) os.

Definition failures (os : list (bulk_item * outcome approval_result))
    : list (Z * string) :=
  flat_map (fun io => match snd io with
                      | Returned _ => []
                      | Threw e => [(item_application_id (fst io), message e)]
                      end) os.

(** Items that returned, split by whether they asked for ['approved']. *)
Definition returned_with (approved_ : bool) (io : bulk_item * outcome approval_result)
    : bool :=
  match snd io with
  | Returned _ => Bool.eqb (String.eqb (item_decision (fst io)) "approved") approved_
  | Threw _ => false
  end.

Definition count {A} (p : A -> bool) (l : list A) : Z :=
  Z.of_nat (List.length (filter p l)).

Lemma count_cons {A} (p : A -> bool) (a : A) (l : list A) :
  count p (a :: l) = (if p a then 1 else 0) + count p l.
Proof.
  unfold count. cbn [filter]. destruct (p a); cbn [List.length]; lia.
Qed.

Lemma returned_with_returned (b : bool) (i : bulk_item) (r : approval_result) :
  returned_with b (i, Returned r)
  = Bool.eqb (String.eqb (item_decision i) "approved") b.
Proof. reflexivity. Qed.

Lemma returned_with_threw (b : bool) (i : bulk_item) (e : error) :
  returned_with b (i, Threw e) = false.
Proof. reflexivity. Qed.

Lemma outcomes_app (pre post : list (timestamp * bulk_item)) (s : store) :
  outcomes (pre ++ post) s = outcomes pre s ++ outcomes post (store_after pre s).
Proof.
  revert s. induction pre as [|t pre IH]; intro s; [reflexivity|].
  cbn. f_equal. apply IH.
Qed.

Lemma store_after_app (pre post : list (timestamp * bulk_item)) (s : store) :
  store_after (pre ++ post) s = store_after post (store_after pre s).
Proof.
  revert s. induction pre as [|t pre IH]; intro s; [reflexivity|]. cbn. apply IH.
Qed.

(** The loop of [bulkApprove] from any accumulator, in terms of the outcomes. *)
Lemma bulk_loop_outcomes (items : list (timestamp * bulk_item)) (s : store)
    (results : bulk_results) :
  fold_left (bulk_step approvedBy) items (s, results)
  = (store_after items s,
     mkResults (successful results ++ successes (outcomes items s))
       (failed results ++ failures (outcomes items s))
       (mkSummary (total (summary results))
          (approved (summary results) + count (returned_with true) (outcomes items s))
          (rejected (summary results) + count (returned_with false) (outcomes items s))
          (failed_count (summary results)
           + Z.of_nat (List.length (failures (outcomes items s)))))).
Proof.
  revert s results. induction items as [|timed items IH]; intros s results.
  - cbn. rewrite !app_nil_r, !Z.add_0_r.
    destruct results as [? ? []]. reflexivity.
  - cbn [fold_left outcomes store_after].
    destruct (process_item timed s) as [s1 [result|e]] eqn:E.
    + rewrite (bulk_step_success s s1 results timed result E), IH.
      cbn [fst snd successful failed summary].
      unfold successes, failures. cbn [flat_map fst snd].
      rewrite !count_cons, !returned_with_returned.
      rewrite <- !app_assoc. cbn [app].
      destruct (String.eqb (item_decision (snd timed)) "approved");
        cbn [total approved rejected failed_count Bool.eqb];
        f_equal; f_equal; f_equal; lia.
    + rewrite (bulk_step_failure s s1 results timed e E), IH.
      pose proof (processApproval_failure_keeps_store _ _ _ _ _ _ _ E) as ->.
      cbn [fst snd successful failed summary].
      unfold successes, failures. cbn [flat_map fst snd].
      rewrite !count_cons, !returned_with_threw.
      rewrite <- !app_assoc. cbn [app total approved rejected failed_count].
      cbn [List.length]. f_equal; f_equal; f_equal; lia.
Qed.

Lemma outcomes_length (items : list (timestamp * bulk_item)) (s : store) :
  List.length (outcomes items s) = List.length items.
Proof.
  revert s. induction items as [|t items IH]; intro s; [reflexivity|].
  cbn. f_equal. apply IH.
Qed.

Lemma successes_failures_length (os : list (bulk_item * outcome approval_result)) :
  count (returned_with true) os + count (returned_with false) os
  = Z.of_nat (List.length (successes os))
  /\ Z.of_nat (List.length (successes os)) + Z.of_nat (List.length (failures os))
     = Z.of_nat (List.length os).
Proof.
  induction os as [|[i [r|e]] os [IH1 IH2]]; [split; reflexivity| |].
  - rewrite !count_cons, !returned_with_returned.
    unfold successes, failures in *. cbn [flat_map fst snd app List.length].
    destruct (String.eqb (item_decision i) "approved"); cbn [Bool.eqb]; split; lia.
  - rewrite !count_cons, !returned_with_threw.
    unfold successes, failures in *. cbn [flat_map fst snd app List.length].
    split; lia.
Qed.

(** A failing item leaves the store to the items after it as it found it. *)
Lemma store_after_skips_failure (pre post : list (timestamp * bulk_item))
    (timed : timestamp * bulk_item) (e : error) (s : store) :
  snd (process_item timed (store_after pre s)) = Threw e ->
  store_after (pre ++ timed :: post) s = store_after (pre ++ post) s
  /\ outcomes (pre ++ timed :: post) s
     = outcomes pre s ++ (snd timed, Threw e) :: outcomes post (store_after pre s)
  /\ outcomes (pre ++ post) s = outcomes pre s ++ outcomes post (store_after pre s).
Proof.
  intro Hfail.
  assert (Hsame : fst (process_item timed (store_after pre s)) = store_after pre s).
  { destruct (process_item timed (store_after pre s)) as [s1 o] eqn:E.
    cbn [snd] in Hfail. subst o. cbn [fst].
    unfold process_item in E.
    exact (processApproval_failure_keeps_store _ _ _ _ _ _ _ E). }
  rewrite !store_after_app, !outcomes_app. cbn [store_after outcomes].
  rewrite Hsame, Hfail. repeat split.
Qed.

Lemma successes_app (os1 os2 : list (bulk_item * outcome approval_result)) :
  successes (os1 ++ os2) = successes os1 ++ successes os2.
Proof. unfold successes. apply flat_map_app. Qed.

Lemma failures_app (os1 os2 : list (bulk_item * outcome approval_result)) :
  failures (os1 ++ os2) = failures os1 ++ failures os2.
Proof. unfold failures. apply flat_map_app. Qed.
End Bulk.

(** C7.  [bulkApprove] runs [processApproval] on every item, each in its own
    transaction on the store left by the items before it.  An item that
    returns is listed in [successful], one that throws is listed in [failed]
    with its message; the summary counts all items, the returned items that
    asked for ['approved'], the other returned items, and the failures, and
    the counts add up.  The final store is the one the items committed, and a
    failing item changes neither that store nor the successes of the other
    items: the batch without it ends in the same store with the same
    [successful] list. *)
Theorem bulkApprove_per_item_atomicity (approvedBy : Z)
    (items : list (timestamp * bulk_item)) (s : store) :
  let results := snd (bulkApprove items approvedBy s) in
  let os := outcomes approvedBy items s in
  successful results = successes os
  /\ failed results = failures os
  /\ total (summary results) = Z.of_nat (List.length items)
  /\ approved (summary results) = count (returned_with true) os
  /\ rejected (summary results) = count (returned_with false) os
  /\ failed_count (summary results) = Z.of_nat (List.length (failed results))
  /\ approved (summary results) + rejected (summary results)
     = Z.of_nat (List.length (successful results))
  /\ approved (summary results) + rejected (summary results)
     + failed_count (summary results) = total (summary results)
  /\ fst (bulkApprove items approvedBy s) = store_after approvedBy items s
  /\ (forall pre timed post e,
        items = pre ++ timed :: post ->
        snd (process_item approvedBy timed (store_after approvedBy pre s)) = Threw e ->
        fst (bulkApprove items approvedBy s)
        = fst (bulkApprove (pre ++ post) approvedBy s)
        /\ successful results
           = successful (snd (bulkApprove (pre ++ post) approvedBy s))
        /\ failed results
           = failures (outcomes approvedBy pre s)
             ++ (item_application_id (snd timed), message e)
             :: failures (outcomes approvedBy post (store_after approvedBy pre s))).
Proof.
  intros results os. subst results os. unfold bulkApprove.
  rewrite bulk_loop_outcomes. cbn [fst snd successful failed summary total approved
                                     rejected failed_count app].
  destruct (successes_failures_length (outcomes approvedBy items s)) as [H1 H2].
  rewrite outcomes_length in H2.
  repeat (split; [first [reflexivity | lia]|]).
  intros pre timed post e Hitems Hfail.
  rewrite bulk_loop_outcomes. cbn [fst snd successful app]. subst items.
  destruct (store_after_skips_failure approvedBy pre post timed e s Hfail)
    as [Hstore [Hwith Hwithout]].
  split; [exact Hstore|].
  rewrite Hwith, Hwithout, !successes_app, failures_app. split; reflexivity.
Qed.

(** The batch of the design document on [small_loan_store]: a valid approval
    of application 1 and an item for application 999, which does not exist. *)
Definition valid_item : bulk_item := mkItem 1 1 "approved" None None.
Definition missing_application_item : bulk_item := mkItem 999 1 "approved" None None.

(** C7 on that batch: the failure of the second item leaves the store and the
    successes of the batch that holds the first item alone. *)
Lemma bulkApprove_per_item_atomicity_witness :
  fst (bulkApprove [(8, valid_item); (9, missing_application_item)] 3 small_loan_store)
  = fst (bulkApprove [(8, valid_item)] 3 small_loan_store)
  /\ successful (snd (bulkApprove [(8, valid_item); (9, missing_application_item)] 3
                        small_loan_store))
     = successful (snd (bulkApprove [(8, valid_item)] 3 small_loan_store))
  /\ failed (snd (bulkApprove [(8, valid_item); (9, missing_application_item)] 3
                    small_loan_store))
     = [(999, "Loan application not found")].
Proof.
  refine (proj2 (proj2 (proj2 (proj2 (proj2 (proj2 (proj2 (proj2 (proj2
            (bulkApprove_per_item_atomicity 3
               [(8, valid_item); (9, missing_application_item)] small_loan_store)))))))))
            [(8, valid_item)] (9, missing_application_item) []
            Loan_application_not_found _ _).
  - reflexivity.
  - reflexivity.
Defined.

(** The same batch, evaluated: one success, one failure, and the approval of
    application 1 is committed. *)
Example bulkApprove_valid_and_missing :
  let run := bulkApprove [(8, valid_item); (9, missing_application_item)] 3
               small_loan_store in
  map fst (successful (snd run)) = [1]
  /\ failed (snd run) = [(999, "Loan application not found")]
  /\ summary (snd run) = mkSummary 2 1 0 1
  /\ option_map Application.status (find_application 1 (fst run)) = Some "approved"
  /\ map Approval.status (loan_approvals (fst run)) = ["approved"].
Proof. repeat split. Qed.

(** *** Decisions of the enumeration *)

(** Items that returned and asked for ['rejected']. *)
Definition returned_rejected (io : bulk_item * outcome approval_result) : bool :=
  match snd io with
  | Returned _ => String.eqb (item_decision (fst io)) "rejected"
  | Threw _ => false
  end.

Lemma outcomes_items (approvedBy : Z) (items : list (timestamp * bulk_item)) (s : store) :
  map fst (outcomes approvedBy items s) = map snd items.
Proof.
  revert s. induction items as [|t items IH]; intro s; [reflexivity|].
  cbn. f_equal. apply IH.
Qed.

(** When every item asks for ['approved'] or ['rejected'] (what the route's
    validation admits), the [rejected] counter of the summary is the number of
    returned items that asked for ['rejected']. *)
Lemma bulkApprove_rejected_count (approvedBy : Z)
    (items : list (timestamp * bulk_item)) (s : store) :
  Forall (fun t => item_decision (snd t) = "approved"
                   \/ item_decision (snd t) = "rejected") items ->
  rejected (summary (snd (bulkApprove items approvedBy s)))
  = count returned_rejected (outcomes approvedBy items s).
Proof.
  intro Henum. unfold bulkApprove. rewrite bulk_loop_outcomes.
  cbn [snd summary rejected]. rewrite Z.add_0_l.
  assert (Hos : Forall (fun io => item_decision (fst io) = "approved"
                                  \/ item_decision (fst io) = "rejected")
                       (outcomes approvedBy items s)).
  { rewrite Forall_forall in *. intros io Hin.
    assert (Hi : In (fst io) (map snd items))
      by (rewrite <- (outcomes_items approvedBy items s); now apply in_map).
    apply in_map_iff in Hi. destruct Hi as [t [Ht Hin']].
    rewrite <- Ht. now apply Henum. }
  induction Hos as [|[i o] os Hio Hos IH]; [reflexivity|].
  rewrite !count_cons, IH. f_equal.
  unfold returned_with, returned_rejected. cbn [fst snd] in *.
  destruct o; [|reflexivity].
  destruct Hio as [-> | ->]; reflexivity.
Qed.

(** ** Arithmetic on [NaN] and zero *)

Section FloatFacts.
Local Open Scope float_scope.

Lemma nan_of_spec (x : float) : Prim2SF x = S754_nan -> x = nan.
Proof. intro H. apply Prim2SF_inj. rewrite H. reflexivity. Qed.

(** [x * 0 / 0] is [NaN] whatever [x] is. *)
Lemma mul_zero_div_zero (x : float) : x * 0 / 0 = nan.
Proof.
  apply nan_of_spec. rewrite div_spec, mul_spec.
  destruct (Prim2SF x) as [sg|sg| |sg m e]; reflexivity.
Qed.

Lemma nan_sub (y : float) : nan - y = nan.
Proof. apply nan_of_spec. rewrite sub_spec. reflexivity. Qed.

Lemma sub_nan (x : float) : x - nan = nan.
Proof.
  apply nan_of_spec. rewrite sub_spec. destruct (Prim2SF x); reflexivity.
Qed.

Lemma add_nan (x : float) : x + nan = nan.
Proof.
  apply nan_of_spec. rewrite add_spec. destruct (Prim2SF x); reflexivity.
Qed.

(** [0 / x] is [0] for every positive [x], infinite or not. *)
Lemma zero_div_positive (x : float) : (0 <? x) = true -> 0 / x = 0.
Proof.
  intro H. rewrite ltb_spec in H. apply Prim2SF_inj. rewrite div_spec.
  destruct (Prim2SF x) as [sg|sg| |sg m e]; try discriminate;
    destruct sg; try discriminate; reflexivity.
Qed.

Lemma round2_nan : JsMath.round2 nan = nan.
Proof. reflexivity. Qed.
End FloatFacts.

(** ** The schedule at rate zero *)

Section ZeroRate.
Local Open Scope float_scope.
Variable moment : Type.
Variable add : moment -> Z -> string -> moment.
Variable format : moment -> string.
Variable Math_pow : float -> float -> float.

(** An entry whose payment, principal portion and remaining balance are
    all [NaN]. *)
Definition nan_entry (e : schedule_entry) : Prop :=
  payment_amount e = nan /\ principal_amount e = nan /\ remaining_balance e = nan.

(** With a [NaN] payment every iteration of the loop produces a [NaN]
    entry, from any balance. *)
Lemma schedule_loop_nan_payment (remaining i termMonths : nat) (monthlyRate : float)
    (paymentFrequency : string) (remainingBalance : float) (currentDate : moment) :
  let entries := schedule_loop moment add format remaining i termMonths monthlyRate nan
                   paymentFrequency remainingBalance currentDate in
  List.length entries = remaining
  /\ Forall nan_entry entries
  /\ map payment_number entries = seq i remaining.
Proof.
  revert i remainingBalance currentDate.
  induction remaining as [|remaining IH]; intros i remainingBalance currentDate.
  - cbn. repeat split; constructor.
  - cbn [schedule_loop]. rewrite nan_sub, sub_nan.
    change (0.01 <? nan) with false. rewrite andb_false_r.
    cbv zeta.
    destruct (IH (S i) nan (next_payment_date moment add paymentFrequency currentDate))
      as [Hlen [Hall Hnum]].
    cbn [List.length map seq payment_number]. rewrite Hlen, Hnum.
    repeat split. constructor; [|exact Hall].
    repeat split; reflexivity.
Qed.

(** Sum of a column of [NaN] entries. *)
Lemma sum_of_nan_entries (column : schedule_entry -> float)
    (entries : list schedule_entry) (sum : float) :
  Forall (fun e => column e = nan) entries ->
  entries <> [] ->
  fold_left (fun sum payment => sum + column payment) entries sum = nan.
Proof.
  intros Hall Hne. revert sum.
  induction Hall as [|e entries He Hall IH]; [congruence|]. intro sum.
  cbn [fold_left]. rewrite He, add_nan.
  destruct entries as [|e' entries']; [reflexivity|].
  apply IH. discriminate.
Qed.

(** The level payment at rate zero is [0 / 0]. *)
Lemma zero_rate_payment (principal : float) (termMonths : nat) :
  Math_pow 1 (JsMath.of_nat termMonths) = 1 ->
  principal * (0 / 100 / 12 * Math_pow (1 + 0 / 100 / 12) (JsMath.of_nat termMonths))
  / (Math_pow (1 + 0 / 100 / 12) (JsMath.of_nat termMonths) - 1) = nan.
Proof.
  intro Hpow. change (0 / 100 / 12) with 0. change (1 + 0) with 1.
  rewrite Hpow. change (0 * 1) with 0. change (1 - 1) with 0.
  apply mul_zero_div_zero.
Qed.
End ZeroRate.

(** C2.  With an annual rate of 0 the amortization formula divides zero by
    zero and nothing special-cases it: whenever [Math.pow(1, n)] is [1], the
    periodic payment, the total, and the payment, principal portion and
    remaining balance of every one of the [n] entries are [NaN], for every
    principal, frequency and start date.  No entry has the principal portion
    [principal / n]. *)
Theorem calculatePaymentSchedule_zero_rate_is_NaN
    (moment : Type) (add : moment -> Z -> string -> moment) (format : moment -> string)
    (Math_pow : float -> float -> float)
    (principal : float) (termMonths : nat) (paymentFrequency : string)
    (startDate : moment) :
  Math_pow 1%float (JsMath.of_nat termMonths) = 1%float ->
  (1 <= termMonths)%nat ->
  let result := calculatePaymentSchedule moment add format Math_pow principal 0%float
                  termMonths paymentFrequency startDate in
  monthlyPayment result = nan
  /\ totalAmount result = nan
  /\ List.length (schedule result) = termMonths
  /\ Forall (fun e => payment_amount e = nan
                      /\ principal_amount e = nan
                      /\ PrimFloat.eqb (principal_amount e)
                           (principal / JsMath.of_nat termMonths) = false
                      /\ remaining_balance e = nan)
            (schedule result).
Proof.
  intros Hpow Hterm result. subst result. unfold calculatePaymentSchedule. cbv zeta.
  cbn [monthlyPayment totalAmount schedule].
  rewrite (zero_rate_payment Math_pow principal termMonths Hpow).
  destruct (schedule_loop_nan_payment moment add format termMonths 1 termMonths
              (0 / 100 / 12)%float paymentFrequency principal startDate)
    as [Hlen [Hall _]].
  split; [reflexivity|]. split.
  { rewrite sum_of_nan_entries; [reflexivity| |].
    - eapply Forall_impl; [|exact Hall]. intros e He. apply He.
    - intro Hnil. rewrite Hnil in Hlen. cbn in Hlen. lia. }
  split; [exact Hlen|].
  eapply Forall_impl; [|exact Hall]. intros e [Hpay [Hprin Hbal]].
  repeat split; try assumption. rewrite Hprin.
  rewrite eqb_spec. reflexivity.
Qed.

(** Stand-ins for the date library in examples: a date is a day number,
    with weeks of 7 and months of 30 days. *)
Definition day_add (date : Z) (n : Z) (unit : string) : Z :=
  if String.eqb unit "week" || String.eqb unit "weeks" then date + 7 * n
  else date + 30 * n.

Definition day_format (date : Z) : string := toString date.

(** C2 at principal 12000 over 12 months, monthly from day 0. *)
Lemma calculatePaymentSchedule_zero_rate_witness :
  let result := calculatePaymentSchedule Z day_add day_format pow_whole 12000%float
                  0%float 12 "monthly" 0 in
  monthlyPayment result = nan
  /\ totalAmount result = nan
  /\ List.length (schedule result) = 12%nat
  /\ Forall (fun e => payment_amount e = nan
                      /\ principal_amount e = nan
                      /\ PrimFloat.eqb (principal_amount e)
                           (12000 / JsMath.of_nat 12)%float = false
                      /\ remaining_balance e = nan)
            (schedule result).
Proof.
  apply (calculatePaymentSchedule_zero_rate_is_NaN Z day_add day_format pow_whole
           12000%float 12 "monthly" 0).
  - reflexivity.
  - lia.
Defined.

(** C5.  The same missing case breaks the schedule invariant for the valid
    input rate = 0: the principal portions sum to [NaN] instead of the
    principal, the final entry's remaining balance is [NaN] instead of 0, and
    no entry's balance is below another's. *)
Theorem calculatePaymentSchedule_zero_rate_breaks_invariant
    (moment : Type) (add : moment -> Z -> string -> moment) (format : moment -> string)
    (Math_pow : float -> float -> float)
    (principal : float) (termMonths : nat) (paymentFrequency : string)
    (startDate : moment) :
  Math_pow 1%float (JsMath.of_nat termMonths) = 1%float ->
  (1 <= termMonths)%nat ->
  let result := calculatePaymentSchedule moment add format Math_pow principal 0%float
                  termMonths paymentFrequency startDate in
  fold_left (fun sum e => (sum + principal_amount e)%float) (schedule result) 0%float
  = nan
  /\ (exists final,
        nth_error (schedule result) (termMonths - 1) = Some final
        /\ remaining_balance final = nan
        /\ PrimFloat.eqb (remaining_balance final) 0 = false)
  /\ (forall e1 e2, In e1 (schedule result) -> In e2 (schedule result) ->
        PrimFloat.ltb (remaining_balance e2) (remaining_balance e1) = false).
Proof.
  intros Hpow Hterm result. subst result. unfold calculatePaymentSchedule. cbv zeta.
  cbn [schedule].
  rewrite (zero_rate_payment Math_pow principal termMonths Hpow).
  destruct (schedule_loop_nan_payment moment add format termMonths 1 termMonths
              (0 / 100 / 12)%float paymentFrequency principal startDate)
    as [Hlen [Hall _]].
  set (entries := schedule_loop _ _ _ _ _ _ _ _ _ _ _) in *.
  rewrite Forall_forall in Hall.
  split.
  { apply sum_of_nan_entries.
    - apply Forall_forall. intros e He. apply (Hall e He).
    - intro Hnil. rewrite Hnil in Hlen. cbn in Hlen. lia. }
  split.
  { destruct (nth_error entries (termMonths - 1)) as [final|] eqn:E.
    - exists final. split; [reflexivity|].
      destruct (Hall final (nth_error_In _ _ E)) as [_ [_ Hbal]].
      rewrite Hbal. split; reflexivity.
    - apply nth_error_None in E. lia. }
  intros e1 e2 H1 H2.
  destruct (Hall e1 H1) as [_ [_ ->]]. destruct (Hall e2 H2) as [_ [_ ->]].
  reflexivity.
Qed.

(** C5 at principal 12000 over 12 months. *)
Lemma calculatePaymentSchedule_zero_rate_breaks_invariant_witness :
  let result := calculatePaymentSchedule Z day_add day_format pow_whole 12000%float
                  0%float 12 "monthly" 0 in
  fold_left (fun sum e => (sum + principal_amount e)%float) (schedule result) 0%float
  = nan
  /\ (exists final,
        nth_error (schedule result) (12 - 1) = Some final
        /\ remaining_balance final = nan
        /\ PrimFloat.eqb (remaining_balance final) 0 = false)
  /\ (forall e1 e2, In e1 (schedule result) -> In e2 (schedule result) ->
        PrimFloat.ltb (remaining_balance e2) (remaining_balance e1) = false).
Proof.
  apply (calculatePaymentSchedule_zero_rate_breaks_invariant Z day_add day_format
           pow_whole 12000%float 12 "monthly" 0).
  - reflexivity.
  - lia.
Defined.

(** The schedule of the repository's own test input (100000 at 12% over 12
    months).  [Math.pow(1.01, 12)] is taken within two units in the last place
    of 1.1268250301319698; for each such value the twelve principal portions,
    rounded to cents one by one, sum to 100000.01: the final-entry fold tests
    the unrounded balance, which is below 0.01, and never fires. *)
Lemma test_input_principal_off_by_a_cent
    (moment : Type) (add : moment -> Z -> string -> moment) (format : moment -> string)
    (Math_pow : float -> float -> float) (startDate : moment) :
  let p := 1.1268250301319698%float in
  In (Math_pow (1 + 12 / 100 / 12)%float (JsMath.of_nat 12))
     [next_down (next_down p); next_down p; p; next_up p; next_up (next_up p)] ->
  let result := calculatePaymentSchedule moment add format Math_pow 100000%float
                  12%float 12 "monthly" startDate in
  map principal_amount (schedule result)
  = [7884.88; 7963.73; 8043.36; 8123.80; 8205.04; 8287.09;
     8369.96; 8453.66; 8538.19; 8623.58; 8709.81; 8796.91]%float
  /\ JsMath.round2 (fold_left (fun sum e => (sum + principal_amount e)%float)
                      (schedule result) 0%float)
     = 100000.01%float
  /\ map payment_amount (schedule result) = repeat 8884.88%float 12.
Proof.
  intros p Hpow result. subst result. unfold calculatePaymentSchedule. cbv zeta.
  cbn [schedule].
  repeat (destruct Hpow as [Hpow | Hpow];
          [rewrite <- Hpow; vm_compute; repeat split |]).
  destruct Hpow.
Qed.

(** ** The risk scorer *)

Section RiskRules.
Local Open Scope float_scope.
Import Risk.

Lemma assessDebtToIncomeRatio_without_debt (monthlyIncome : float) :
  (0 <? monthlyIncome) = true -> assessDebtToIncomeRatio 0 monthlyIncome = 100.
Proof.
  intro Hpos. unfold assessDebtToIncomeRatio.
  change (JsMath.or_zero 0) with 0. rewrite (zero_div_positive _ Hpos).
  reflexivity.
Qed.

(** The scores object with a score for each of the nine factors, in the
    order [calculateRiskFactorScores] builds it. *)
Definition nine_scores (credit payment loans income dti employment collateral
                        guarantor kyc : float) : scores :=
  [("credit_score", credit); ("payment_history", payment); ("existing_loans", loans);
   ("income_stability", income); ("debt_to_income_ratio", dti);
   ("employment_history", employment); ("collateral_value", collateral);
   ("guarantor_strength", guarantor); ("kyc_completeness", kyc)].

(** The level of a whole score between 0 and 100, by the documented bands. *)
Definition level_by_band (n : nat) : string :=
  if (90 <=? n)%nat then "very_low"
  else if (75 <=? n)%nat then "low"
  else if (60 <=? n)%nat then "medium"
  else if (40 <=? n)%nat then "high"
  else "very_high".

Lemma determineRiskLevel_bands (n : nat) :
  (n <= 100)%nat -> determineRiskLevel (JsMath.of_nat n) = level_by_band n.
Proof.
  intro Hle.
  assert (Hall : forallb (fun k => String.eqb (determineRiskLevel (JsMath.of_nat k))
                                     (level_by_band k))
                         (seq 0 101) = true) by (vm_compute; reflexivity).
  rewrite forallb_forall in Hall. apply String.eqb_eq. apply Hall.
  apply in_seq. lia.
Qed.

(** C8.  The documented rules of the scorer: no credit history scores 50;
    no debt against a positive income scores 100 on the debt-to-income
    factor; with all nine factor scores the overall score is the weighted sum
    divided by the sum of the weights, rounded, and the nine weights sum to
    1; the level is [very_low] from 90, else [low] from 75, else [medium] from
    60, else [high] from 40, and [very_high] otherwise. *)
Theorem risk_scorer_rules :
  assessCreditScore None = 50
  /\ (forall monthlyIncome,
        (0 <? monthlyIncome) = true -> assessDebtToIncomeRatio 0 monthlyIncome = 100)
  /\ (forall s1 s2 s3 s4 s5 s6 s7 s8 s9,
        calculateOverallRiskScore (nine_scores s1 s2 s3 s4 s5 s6 s7 s8 s9)
        = JsMath.round
            ((0 + s1 * 0.25 + s2 * 0.20 + s3 * 0.15 + s4 * 0.15 + s5 * 0.10
              + s6 * 0.05 + s7 * 0.05 + s8 * 0.03 + s9 * 0.02)
             / (0 + 0.25 + 0.20 + 0.15 + 0.15 + 0.10 + 0.05 + 0.05 + 0.03 + 0.02)))
  /\ map snd riskFactors = [0.25; 0.20; 0.15; 0.15; 0.10; 0.05; 0.05; 0.03; 0.02]
  /\ fold_left PrimFloat.add (map snd riskFactors) 0 = 1
  /\ (forall score,
        ((90 <=? score) = true -> determineRiskLevel score = "very_low")
        /\ ((90 <=? score) = false -> (75 <=? score) = true ->
            determineRiskLevel score = "low")
        /\ ((90 <=? score) = false -> (75 <=? score) = false ->
            (60 <=? score) = true -> determineRiskLevel score = "medium")
        /\ ((90 <=? score) = false -> (75 <=? score) = false ->
            (60 <=? score) = false -> (40 <=? score) = true ->
            determineRiskLevel score = "high")
        /\ ((90 <=? score) = false -> (75 <=? score) = false ->
            (60 <=? score) = false -> (40 <=? score) = false ->
            determineRiskLevel score = "very_high"))
  /\ (forall n : nat,
        (n <= 100)%nat ->
        determineRiskLevel (JsMath.of_nat n)
        = if (90 <=? n)%nat then "very_low"
          else if (75 <=? n)%nat then "low"
          else if (60 <=? n)%nat then "medium"
          else if (40 <=? n)%nat then "high"
          else "very_high").
Proof.
  split; [reflexivity|].
  split; [exact assessDebtToIncomeRatio_without_debt|].
  split; [intros; reflexivity|].
  split; [reflexivity|].
  split; [reflexivity|].
  split; [|exact determineRiskLevel_bands].
  intro score. unfold determineRiskLevel.
  repeat split.
  - intros ->. reflexivity.
  - intros -> ->. reflexivity.
  - intros -> -> ->. reflexivity.
  - intros -> -> -> ->. reflexivity.
  - intros -> -> -> ->. reflexivity.
Qed.

(** C8 at the inputs of the repository's tests: no debt against an income of
    50000. *)
Lemma risk_scorer_rules_witness : assessDebtToIncomeRatio 0 50000 = 100.
Proof.
  refine (proj1 (proj2 risk_scorer_rules) 50000 _). reflexivity.
Defined.

(** The factor scores of the repository's test: weighted sum 79.2, overall
    score 79, level [low]. *)
Example overall_score_of_test_scores :
  let s := nine_scores 80 90 100 70 60 80 50 40 100 in
  calculateOverallRiskScore s = 79
  /\ determineRiskLevel (calculateOverallRiskScore s) = "low".
Proof. split; reflexivity. Qed.
End RiskRules.

(** ** Determinism of the risk assessment *)

Section RiskDeterminism.
Import Risk.

(** What a run computes from the selected row, whatever [Math.random] and
    the clock return. *)
Lemma performRiskAssessment_returns (now : timestamp) (random : nat -> float)
    (applicationId assessedBy : Z) (d : db)
    (application : application_row) (rest : list application_row) :
  filter (fun a => Risk.id a =? applicationId) (application_rows d)
  = application :: rest ->
  let factors := calculateRiskFactorScores application
                   (getCustomerFinancialHistory (Risk.customer_id application)) in
  let overall := calculateOverallRiskScore factors in
  let row := mkSaved (loan_risk_assessments_id_seq d) applicationId
               (Risk.customer_id application) overall (determineRiskLevel overall)
               factors
               (generateRecommendations (determineRiskLevel overall) factors application)
               (generateAIInsights random application factors) assessedBy now in
  performRiskAssessment now random applicationId assessedBy d
  = (mkDb (application_rows d) (loan_risk_assessments d ++ [row])
          (loan_risk_assessments_id_seq d + 1)
          (risk_audit_logs d
           ++ [mkAudit assessedBy "risk_assessment_completed" "loan_risk_assessment"
                 (toString applicationId) (determineRiskLevel overall) overall
                 (loan_risk_assessments_id_seq d)]),
     Returned row).
Proof.
  intros Happ factors overall row.
  unfold performRiskAssessment. apply transaction_commits.
  unfold performRiskAssessment_callback, bind at 1. rewrite Happ.
  reflexivity.
Qed.

Lemma performRiskAssessment_not_found (now : timestamp) (random : nat -> float)
    (applicationId assessedBy : Z) (d : db) :
  filter (fun a => Risk.id a =? applicationId) (application_rows d) = [] ->
  performRiskAssessment now random applicationId assessedBy d
  = (d, Threw Loan_application_not_found).
Proof.
  intros Happ. unfold performRiskAssessment.
  apply transaction_rolls_back with (s' := d).
  unfold performRiskAssessment_callback, bind at 1. rewrite Happ. reflexivity.
Qed.

(** The outcomes of two runs agree on everything the scorer computed. *)
Definition same_scores (o1 o2 : outcome saved_assessment) : Prop :=
  match o1, o2 with
  | Returned a1, Returned a2 =>
      risk_factors a1 = risk_factors a2
      /\ overall_score a1 = overall_score a2
      /\ risk_level a1 = risk_level a2
      /\ recommendations a1 = recommendations a2
      /\ fraud_score (insights a1) = fraud_score (insights a2)
  | Threw e1, Threw e2 => e1 = e2
  | _, _ => False
  end.

(** C10.  Two runs of [performRiskAssessment] on the same application rows
    return the same factor scores, overall score, risk level and
    recommendations, whatever the clock, the assessor, the earlier assessments
    in the database and the values of [Math.random] are.  For one database,
    clock and assessor, runs with different random values differ only in the
    [ai_insights] of the saved row: the returned and the stored assessments
    agree on every other field, and the audit log is the same. *)
Theorem performRiskAssessment_deterministic
    (now1 now2 : timestamp) (random1 random2 : nat -> float)
    (applicationId assessedBy1 assessedBy2 : Z) (d1 d2 : db) :
  application_rows d1 = application_rows d2 ->
  same_scores (snd (performRiskAssessment now1 random1 applicationId assessedBy1 d1))
              (snd (performRiskAssessment now2 random2 applicationId assessedBy2 d2))
  /\ (let run1 := performRiskAssessment now1 random1 applicationId assessedBy1 d1 in
      let run2 := performRiskAssessment now1 random2 applicationId assessedBy1 d1 in
      match snd run1, snd run2 with
      | Returned a1, Returned a2 => without_insights a1 = without_insights a2
      | Threw e1, Threw e2 => e1 = e2
      | _, _ => False
      end
      /\ map without_insights (loan_risk_assessments (fst run1))
         = map without_insights (loan_risk_assessments (fst run2))
      /\ risk_audit_logs (fst run1) = risk_audit_logs (fst run2)
      /\ application_rows (fst run1) = application_rows (fst run2)).
Proof.
  intros Hrows.
  destruct (filter (fun a => Risk.id a =? applicationId) (application_rows d1))
    as [|application rest] eqn:Happ.
  - rewrite (performRiskAssessment_not_found now1 random1 _ _ d1 Happ).
    rewrite (performRiskAssessment_not_found now1 random2 _ _ d1 Happ).
    rewrite Hrows in Happ.
    rewrite (performRiskAssessment_not_found now2 random2 _ _ d2 Happ).
    cbn. repeat split.
  - rewrite (performRiskAssessment_returns now1 random1 _ _ d1 _ _ Happ).
    rewrite (performRiskAssessment_returns now1 random2 _ _ d1 _ _ Happ).
    rewrite Hrows in Happ.
    rewrite (performRiskAssessment_returns now2 random2 _ _ d2 _ _ Happ).
    cbn [fst snd same_scores risk_factors overall_score risk_level recommendations
         insights fraud_score generateAIInsights loan_risk_assessments
         risk_audit_logs application_rows].
    rewrite !map_app. cbn [map without_insights assessment_id loan_application_id
                           saved_customer_id overall_score risk_level risk_factors
                           recommendations assessed_by created_at].
    repeat split.
Qed.
End RiskDeterminism.

(** The application row of the repository's orchestrator test. *)
Definition test_application_row : Risk.application_row :=
  Risk.mkRow 1 10 50000 60000 10000 "employed" (Some "property") 80000
    (Some "G") (Some "123") "approved" (Some 0).

Definition test_risk_db : Risk.db := Risk.mkDb [test_application_row] [] 555 [].

(** C10 on [test_risk_db]: a run with low random values at time 1 by user 42
    and a run with high random values at time 2 by user 43. *)
Lemma performRiskAssessment_deterministic_witness :
  same_scores
    (snd (Risk.performRiskAssessment 1 (fun _ => 0.1%float) 1 42 test_risk_db))
    (snd (Risk.performRiskAssessment 2 (fun _ => 0.9%float) 1 43 test_risk_db)).
Proof.
  refine (proj1 (performRiskAssessment_deterministic 1 2 (fun _ => 0.1%float)
                   (fun _ => 0.9%float) 1 42 43 test_risk_db test_risk_db _)).
  reflexivity.
Defined.

(** The two runs evaluated: equal scores, different placeholder insights. *)
Example test_assessment_runs :
  let low := snd (Risk.performRiskAssessment 1 (fun _ => 0.1%float) 1 42 test_risk_db) in
  let high := snd (Risk.performRiskAssessment 1 (fun _ => 0.9%float) 1 42 test_risk_db) in
  match low, high with
  | Returned a1, Returned a2 =>
      Risk.overall_score a1 = 76%float
      /\ Risk.overall_score a2 = 76%float
      /\ Risk.risk_level a1 = "low"
      /\ Risk.risk_level a2 = "low"
      /\ Risk.behavioral_score (Risk.insights a1) = 64%float
      /\ Risk.behavioral_score (Risk.insights a2) = 96%float
      /\ Risk.market_risk_score (Risk.insights a1) = 53%float
      /\ Risk.market_risk_score (Risk.insights a2) = 77%float
  | _, _ => False
  end.
Proof. vm_compute. repeat split. Qed.

(** * Further properties of the services *)

From Stdlib Require Import Lqa.

(** Decides threshold tests on amounts that also involve an order between
    two amounts. *)
Ltac amount_order :=
  repeat match goal with
  | H : Qle_bool _ _ = true |- _ => apply Qle_bool_iff in H
  | H : Qle_bool _ _ = false |- _ => apply Qle_bool_false in H
  | H : Qgt_bool _ _ = true |- _ => apply Qgt_bool_iff in H
  | H : Qgt_bool _ _ = false |- _ => apply Qgt_bool_false in H
  end;
  lra.

(** ** The approval ladder *)

(** The role [getRequiredRoleForLevel] asks for at a level has exactly that
    level as its rank in [roleHierarchy]; roles exist at levels 1 to 4 only,
    at every level below one that has a role, and a role found for an amount
    is found for every larger amount. *)
Theorem getRequiredRoleForLevel_ladder (level : Z) (amount : Q) (r : string) :
  getRequiredRoleForLevel level amount = Some r ->
  1 <= level <= 4
  /\ userLevel r = JsNumber level
  /\ requiredLevel r = JsNumber level
  /\ (forall lower, 1 <= lower <= level ->
        getRequiredRoleForLevel lower amount <> None)
  /\ (forall larger, (amount <= larger)%Q ->
        getRequiredRoleForLevel level larger = Some r).
Proof.
  intro H. unfold getRequiredRoleForLevel in H.
  assert (Hlevel : 1 <= level <= 4).
  { destruct (Qle_bool amount 100000), (Qle_bool amount 500000),
      (Qle_bool amount 5000000);
      destruct level as [|p|p]; try discriminate;
      do 3 (try destruct p as [p|p|]); try discriminate; lia. }
  assert (Hcases : level = 1 \/ level = 2 \/ level = 3 \/ level = 4) by lia.
  split; [exact Hlevel|].
  assert (Hrank : userLevel r = JsNumber level /\ requiredLevel r = JsNumber level).
  { destruct (Qle_bool amount 100000), (Qle_bool amount 500000),
      (Qle_bool amount 5000000);
      destruct Hcases as [-> | [-> | [-> | ->]]]; cbn in H; try discriminate;
      injection H as <-; split; reflexivity. }
  destruct Hrank as [Hu Hr]. split; [exact Hu|]. split; [exact Hr|]. split.
  - intros lower Hlower.
    assert (Hl : lower = 1 \/ lower = 2 \/ lower = 3 \/ lower = 4) by lia.
    unfold getRequiredRoleForLevel.
    destruct (Qle_bool amount 100000), (Qle_bool amount 500000),
      (Qle_bool amount 5000000);
      destruct Hcases as [-> | [-> | [-> | ->]]]; cbn in H; try discriminate;
      destruct Hl as [-> | [-> | [-> | ->]]]; try lia; cbn; discriminate.
  - intros larger Hle. unfold getRequiredRoleForLevel.
    destruct (Qle_bool amount 100000) eqn:E1, (Qle_bool amount 500000) eqn:E2,
      (Qle_bool amount 5000000) eqn:E3;
      destruct (Qle_bool larger 100000) eqn:F1, (Qle_bool larger 500000) eqn:F2,
        (Qle_bool larger 5000000) eqn:F3;
      destruct Hcases as [-> | [-> | [-> | ->]]]; cbn in H |- *;
      try discriminate; try exact H;
      exfalso; amount_order.
Qed.

(** The ladder at level 3 of a loan of 1,000,000. *)
Lemma getRequiredRoleForLevel_ladder_witness :
  1 <= 3 <= 4
  /\ userLevel "finance_manager" = JsNumber 3
  /\ requiredLevel "finance_manager" = JsNumber 3
  /\ (forall lower, 1 <= lower <= 3 ->
        getRequiredRoleForLevel lower 1000000 <> None)
  /\ (forall larger, (1000000 <= larger)%Q ->
        getRequiredRoleForLevel 3 larger = Some "finance_manager").
Proof.
  apply (getRequiredRoleForLevel_ladder 3 1000000 "finance_manager"). reflexivity.
Defined.

(** ** Rows written by [createApprovalWorkflow] *)

(** The rows a run of inserts appends, the first with id [next]. *)
Fixpoint inserted_rows (now : timestamp) (applicationId next : Z)
    (levels : list approval_level_spec) : list Approval.t :=
  match levels with
  | [] => []
  | l :: rest =>
      Approval.mk next applicationId (level l) (role l) None None "pending" None None
        (required l) now
      :: inserted_rows now applicationId (next + 1) rest
  end.

Lemma insert_approval_levels_store (now : timestamp) (applicationId : Z)
    (levels : list approval_level_spec) (s : store) :
  fst (insert_approval_levels now applicationId levels s)
  = mkStore (loan_applications s)
      (loan_approvals s
       ++ inserted_rows now applicationId (loan_approvals_id_seq s) levels)
      (loan_approvals_id_seq s + Z.of_nat (List.length levels))
      (users s) (audit_logs s).
Proof.
  revert s. induction levels as [|l rest IH]; intro s.
  - cbn. rewrite app_nil_r, Z.add_0_r. now destruct s.
  - cbn [insert_approval_levels]. unfold bind, insert_approval. cbn [fst].
    rewrite IH. cbn [loan_applications loan_approvals loan_approvals_id_seq users
                     audit_logs inserted_rows List.length].
    rewrite <- app_assoc. cbn [app]. f_equal. lia.
Qed.

Lemma inserted_rows_ids (now : timestamp) (applicationId next : Z)
    (levels : list approval_level_spec) :
  map Approval.id (inserted_rows now applicationId next levels)
  = map (fun k => next + Z.of_nat k) (seq 0 (List.length levels)).
Proof.
  revert next. induction levels as [|l rest IH]; intro next; [reflexivity|].
  cbn [inserted_rows map List.length seq Approval.id]. rewrite IH, <- seq_shift, map_map.
  f_equal; [cbn; lia|]. apply map_ext. intro k. lia.
Qed.

(** For every amount, [createApprovalWorkflow] keeps the existing rows and
    appends one row per level 1, 2, ... in ascending order, each for this
    application, ['pending'], required, undecided, with the role
    [getRequiredRoleForLevel] gives for its level and amount, and with
    consecutive ids from the sequence; nothing else in the store changes. *)
Theorem createApprovalWorkflow_rows (now : timestamp) (applicationId : Z) (amount : Q)
    (s : store) :
  let s' := fst (createApprovalWorkflow now applicationId amount s) in
  exists rows,
    loan_approvals s' = loan_approvals s ++ rows
    /\ map Approval.approval_level rows
       = map Z.of_nat (seq 1 (List.length rows))
    /\ (1 <= List.length rows <= 3)%nat
    /\ Forall (fun r => Approval.loan_application_id r = applicationId
                        /\ Approval.status r = "pending"
                        /\ Approval.is_required r = true
                        /\ Approval.approved_by r = None
                        /\ Approval.created_at r = now
                        /\ getRequiredRoleForLevel (Approval.approval_level r) amount
                           = Some (Approval.required_role r))
              rows
    /\ map Approval.id rows
       = map (fun k => loan_approvals_id_seq s + Z.of_nat k)
             (seq 0 (List.length rows))
    /\ loan_approvals_id_seq s'
       = loan_approvals_id_seq s + Z.of_nat (List.length rows)
    /\ loan_applications s' = loan_applications s
    /\ users s' = users s
    /\ audit_logs s' = audit_logs s.
Proof.
  intro s'. subst s'. unfold createApprovalWorkflow.
  rewrite insert_approval_levels_store.
  exists (inserted_rows now applicationId (loan_approvals_id_seq s)
            (approvalLevels amount)).
  cbn [loan_applications loan_approvals loan_approvals_id_seq users audit_logs].
  split; [reflexivity|].
  assert (Hlen : List.length (inserted_rows now applicationId (loan_approvals_id_seq s)
                                (approvalLevels amount))
                 = List.length (approvalLevels amount)).
  { generalize (loan_approvals_id_seq s).
    induction (approvalLevels amount) as [|l rest IH]; intro k; [reflexivity|].
    cbn. f_equal. apply IH. }
  rewrite inserted_rows_ids, Hlen.
  unfold approvalLevels, getRequiredRoleForLevel.
  destruct (Qle_bool amount 100000) eqn:E1;
    [|destruct (Qle_bool amount 500000) eqn:E2;
      [|destruct (Qle_bool amount 5000000) eqn:E3]];
    cbn; repeat split; try lia; repeat constructor.
Qed.

(** ** Authority by rank *)

(** The roles exempt from the CEO rule are exactly those of rank 4 and above. *)
Lemma exempt_roles_by_rank (role_ : string) (k : Z) :
  userLevel role_ = JsNumber k ->
  0 <= k <= 6
  /\ negb (String.eqb role_ "ceo") && negb (is_admin_role role_) = (k <? 4).
Proof.
  unfold userLevel, roleHierarchy, is_admin_role. cbn [existsb].
  destruct (String.eqb role_ "loan_officer") eqn:E1.
  { apply String.eqb_eq in E1. subst. cbn. intro H. injection H as <-. split; [lia|reflexivity]. }
  destruct (String.eqb role_ "branch_manager") eqn:E2.
  { apply String.eqb_eq in E2. subst. cbn. intro H. injection H as <-. split; [lia|reflexivity]. }
  destruct (String.eqb role_ "finance_manager") eqn:E3.
  { apply String.eqb_eq in E3. subst. cbn. intro H. injection H as <-. split; [lia|reflexivity]. }
  destruct (String.eqb role_ "ceo") eqn:E4.
  { cbn. intro H. injection H as <-. split; [lia|reflexivity]. }
  destruct (String.eqb role_ "admin") eqn:E5.
  { cbn. intro H. injection H as <-. split; [lia|reflexivity]. }
  destruct (String.eqb role_ "super_admin") eqn:E6.
  { cbn. intro H. injection H as <-. split; [lia|reflexivity]. }
  destruct (existsb (String.eqb role_) Object_prototype_members); cbn; intro H;
    [discriminate|]. injection H as <-. split; [lia|reflexivity].
Qed.

(** [validateApprovalAuthority] in terms of ranks.  For an existing actor of
    rank [k] (0 for a role outside the hierarchy) and a requirement of rank
    [l] (999 for a role outside the hierarchy): the check passes exactly when
    [l <= k] and the amount is at most 5,000,000 or [k] is at least 4 (ceo);
    a lower rank is refused with the authority message, a sufficient rank below
    4 on a larger loan with the CEO message.  The store is never changed. *)
Theorem validateApprovalAuthority_by_rank (userId : Z) (requiredRole : string)
    (loanAmount : Q) (s : store) (user : User.t) (rest : list User.t) (k l : Z) :
  filter (fun u => User.id u =? userId) (users s) = user :: rest ->
  userLevel (User.role user) = JsNumber k ->
  requiredLevel requiredRole = JsNumber l ->
  (l <= k /\ ((loanAmount <= 5000000)%Q \/ 4 <= k) ->
   validateApprovalAuthority userId requiredRole loanAmount s = (s, Returned tt))
  /\ (k < l ->
      validateApprovalAuthority userId requiredRole loanAmount s
      = (s, Threw Insufficient_authority))
  /\ (l <= k -> (5000000 < loanAmount)%Q -> k < 4 ->
      validateApprovalAuthority userId requiredRole loanAmount s
      = (s, Threw CEO_approval_required))
  /\ (1 <= l /\ 0 <= k <= 6).
Proof.
  intros Huser Hk Hl.
  destruct (exempt_roles_by_rank _ _ Hk) as [Hrange Hexempt].
  assert (Hl1 : 1 <= l).
  { unfold requiredLevel, roleHierarchy in Hl.
    repeat match type of Hl with
           | context [if ?c then _ else _] => destruct c
           end; cbn in Hl; try discriminate; injection Hl as <-; lia. }
  unfold validateApprovalAuthority, bind, select_users. rewrite Huser, Hk, Hl.
  cbn [js_lt]. rewrite <- andb_assoc, Hexempt.
  repeat split; try lia.
  - intros [Hle Hamount].
    replace (k <? l) with false by (symmetry; apply Z.ltb_ge; lia).
    destruct Hamount as [Hamount | Hceo].
    + apply Qgt_bool_false in Hamount. rewrite Hamount. reflexivity.
    + replace (k <? 4) with false by (symmetry; apply Z.ltb_ge; lia).
      rewrite andb_false_r. reflexivity.
  - intro Hlt. apply Z.ltb_lt in Hlt. now rewrite Hlt.
  - intros Hle Hamount Hk4.
    replace (k <? l) with false by (symmetry; apply Z.ltb_ge; lia).
    apply Qgt_bool_iff in Hamount. rewrite Hamount.
    apply Z.ltb_lt in Hk4. now rewrite Hk4.
Qed.

(** A branch manager (rank 2) against a loan-officer requirement (rank 1). *)
Lemma validateApprovalAuthority_by_rank_witness :
  validateApprovalAuthority 4 "loan_officer" 50000 small_loan_store
  = (small_loan_store, Returned tt).
Proof.
  refine (proj1 (validateApprovalAuthority_by_rank 4 "loan_officer" 50000
                   small_loan_store (User.mk 4 "branch_manager" 2 1) [] 2 1 _ _ _) _).
  - reflexivity.
  - reflexivity.
  - reflexivity.
  - split; [lia|]. left. unfold Qle. cbn. lia.
Defined.

(** The level of a role that names an inherited member is that member. *)
Lemma inherited_member_level (role_ : string) :
  In role_ Object_prototype_members ->
  userLevel role_ = JsObject (member_text role_)
  /\ negb (String.eqb role_ "ceo") && negb (is_admin_role role_) = true.
Proof.
  intro Hin. cbn in Hin.
  repeat (destruct Hin as [Hin | Hin]; [rewrite <- Hin; split; reflexivity|]).
  destruct Hin.
Qed.

(** The required level of any role: a number, or the member it names. *)
Lemma requiredLevel_cases (requiredRole : string) :
  (exists l, requiredLevel requiredRole = JsNumber l
             /\ existsb (String.eqb requiredRole) Object_prototype_members = false)
  \/ (requiredLevel requiredRole = JsObject (member_text requiredRole)
      /\ existsb (String.eqb requiredRole) Object_prototype_members = true).
Proof.
  unfold requiredLevel, roleHierarchy.
  destruct (String.eqb requiredRole "loan_officer") eqn:E1.
  { apply String.eqb_eq in E1. subst. left. now exists 1. }
  destruct (String.eqb requiredRole "branch_manager") eqn:E2.
  { apply String.eqb_eq in E2. subst. left. now exists 2. }
  destruct (String.eqb requiredRole "finance_manager") eqn:E3.
  { apply String.eqb_eq in E3. subst. left. now exists 3. }
  destruct (String.eqb requiredRole "ceo") eqn:E4.
  { apply String.eqb_eq in E4. subst. left. now exists 4. }
  destruct (String.eqb requiredRole "admin") eqn:E5.
  { apply String.eqb_eq in E5. subst. left. now exists 5. }
  destruct (String.eqb requiredRole "super_admin") eqn:E6.
  { apply String.eqb_eq in E6. subst. left. now exists 6. }
  destruct (existsb (String.eqb requiredRole) Object_prototype_members).
  - right. split; reflexivity.
  - left. now exists 999.
Qed.

(** A role string that names a member every object inherits (['constructor'],
    ['toString'], ...) is looked up as that member, not as [undefined], so the
    actor's level is an object.  Against a required role that is a number
    (one of the six roles, or 999 for an unknown one) the comparison
    [userLevel < requiredLevel] is false and the rank check lets the actor
    through.  Against a required role that names an inherited member too, both
    sides are objects and compare as the strings they convert to: the actor is
    refused with the authority message exactly when its string is the
    smaller.  An actor that is let through is still subject to the amount
    rule. *)
Theorem inherited_member_role_rank_check (userId : Z) (requiredRole : string)
    (loanAmount : Q) (s : store) (user : User.t) (rest : list User.t) :
  filter (fun u => User.id u =? userId) (users s) = user :: rest ->
  In (User.role user) Object_prototype_members ->
  let refused :=
    existsb (String.eqb requiredRole) Object_prototype_members
    && String.ltb (member_text (User.role user)) (member_text requiredRole) in
  (refused = true ->
   validateApprovalAuthority userId requiredRole loanAmount s
   = (s, Threw Insufficient_authority))
  /\ (refused = false -> (loanAmount <= 5000000)%Q ->
      validateApprovalAuthority userId requiredRole loanAmount s = (s, Returned tt))
  /\ (refused = false -> (5000000 < loanAmount)%Q ->
      validateApprovalAuthority userId requiredRole loanAmount s
      = (s, Threw CEO_approval_required)).
Proof.
  intros Huser Hin refused. subst refused.
  unfold validateApprovalAuthority, bind, select_users. rewrite Huser.
  destruct (inherited_member_level _ Hin) as [Hlevel Hexempt]. rewrite Hlevel.
  rewrite <- andb_assoc, Hexempt, andb_true_r.
  destruct (requiredLevel_cases requiredRole) as [[l [-> ->]] | [-> ->]];
    cbn [js_lt andb].
  - split; [discriminate|]. split; intros _ Hamount.
    + apply Qgt_bool_false in Hamount. now rewrite Hamount.
    + apply Qgt_bool_iff in Hamount. now rewrite Hamount.
  - split; [intros ->; reflexivity|]. split; intros -> Hamount.
    + apply Qgt_bool_false in Hamount. now rewrite Hamount.
    + apply Qgt_bool_iff in Hamount. now rewrite Hamount.
Qed.

(** A user whose role is ['constructor']: let through against a [ceo]
    requirement, refused against a requirement named ['toString'], whose
    string is the larger. *)
Lemma inherited_member_role_witness :
  let s := mkStore [] [] 1 [User.mk 5 "constructor" 0 1] [] in
  validateApprovalAuthority 5 "ceo" 50000 s = (s, Returned tt)
  /\ validateApprovalAuthority 5 "toString" 50000 s = (s, Threw Insufficient_authority).
Proof.
  intro s. split.
  - refine (proj1 (proj2 (inherited_member_role_rank_check 5 "ceo" 50000 s
                            (User.mk 5 "constructor" 0 1) [] _ _)) _ _).
    + reflexivity.
    + left. reflexivity.
    + reflexivity.
    + unfold Qle. cbn. lia.
  - refine (proj1 (inherited_member_role_rank_check 5 "toString" 50000 s
                     (User.mk 5 "constructor" 0 1) [] _ _) _).
    + reflexivity.
    + left. reflexivity.
    + reflexivity.
Defined.

(** ** Outcomes of [processApproval] *)

Lemma update_where_map {R B} (q : R -> bool) (f : R -> R) (g : R -> B) (l : list R) :
  (forall r, g (f r) = g r) -> map g (update_where q f l) = map g l.
Proof.
  intro Hg. unfold update_where. rewrite map_map. apply map_ext.
  intro r. destruct (q r); [apply Hg | reflexivity].
Qed.

Lemma update_where_same {R} (q : R -> bool) (l : list R) :
  update_where q (fun r => r) l = l.
Proof.
  unfold update_where. erewrite map_ext; [apply map_id|].
  intro r. now destruct (q r).
Qed.

(** The columns of an application that no decision touches. *)
Definition application_terms (a : Application.t) :=
  (Application.id a, Application.application_id a, Application.customer_id a,
   Application.requested_amount a, Application.submitted_at a, Application.branch_id a).

(** The columns of an approval record that fix its place in the chain. *)
Definition approval_slot (r : Approval.t) :=
  (Approval.id r, Approval.loan_application_id r, Approval.approval_level r,
   Approval.required_role r, Approval.created_at r).

(** What the decision branch does to the store, whatever the decision. *)
Lemma apply_decision_effect (now applicationId : Z) (application : Application.t)
    (approvalData : approval_data) (m : store) :
  exists s2 status count set cancel,
    apply_decision now applicationId application approvalData m
    = (s2, Returned (status, count))
    /\ loan_applications s2
       = update_where (fun a => Application.id a =? applicationId) set
           (loan_applications m)
    /\ (forall a, application_terms (set a) = application_terms a)
    /\ loan_approvals s2
       = (if cancel : bool
          then update_where (pending_of applicationId) Approval.set_cancelled
                 (loan_approvals m)
          else loan_approvals m)
    /\ loan_approvals_id_seq s2 = loan_approvals_id_seq m
    /\ users s2 = users m
    /\ audit_logs s2
       = audit_logs m
         ++ (if match count with Some 0 => true | _ => false end
                && String.eqb (decision approvalData) "approved"
             then [loan_account_audit application] else []).
Proof.
  unfold apply_decision.
  destruct (String.eqb (decision approvalData) "approved").
  - unfold bind at 1, select_approvals.
    destruct (Z.of_nat (List.length (filter (pending_required_of applicationId)
                                       (loan_approvals m))) =? 0) eqn:E.
    + apply Z.eqb_eq in E. rewrite E.
      exists (with_audit (loan_account_audit application)
                (with_applications applicationId (Application.set_approved now) m)).
      exists "approved", (Some 0), (Application.set_approved now), false.
      repeat (split; [reflexivity|]). reflexivity.
    + exists (with_applications applicationId Application.set_pending_approval m).
      eexists. eexists.
      exists Application.set_pending_approval, false.
      repeat (split; [reflexivity|]). cbn [audit_logs with_applications].
      apply Z.eqb_neq in E.
      destruct (Z.of_nat _) as [|n|n]; [congruence| |]; cbn; now rewrite app_nil_r.
  - destruct (String.eqb (decision approvalData) "rejected").
    + exists (with_approvals
                (update_where (pending_of applicationId) Approval.set_cancelled
                   (loan_approvals m))
                (with_applications applicationId
                   (Application.set_rejected now (rejection_reason approvalData)) m)).
      eexists. eexists.
      exists (Application.set_rejected now (rejection_reason approvalData)), true.
      repeat (split; [reflexivity|]). cbn. now rewrite app_nil_r.
    + exists m, (Application.status application), None, (fun a => a), false.
      split; [reflexivity|]. split; [now rewrite update_where_same|].
      repeat (split; [reflexivity|]). cbn. now rewrite app_nil_r.
Qed.

(** Every call either throws one of the errors of its four checks, leaving
    the store as it was, or passes all four and returns. *)
Lemma processApproval_cases (now applicationId approvalLevel approvedBy : Z)
    (approvalData : approval_data) (s : store) :
  (exists e, processApproval now applicationId approvalLevel approvalData approvedBy s
             = (s, Threw e))
  \/ (exists application apps approval_ others s2 status count,
        filter (fun a => Application.id a =? applicationId) (loan_applications s)
        = application :: apps
        /\ reviewable (Application.status application) = true
        /\ filter (pending_at applicationId approvalLevel) (loan_approvals s)
           = approval_ :: others
        /\ validateApprovalAuthority approvedBy (Approval.required_role approval_)
             (Application.requested_amount application) s = (s, Returned tt)
        /\ apply_decision now applicationId application approvalData
             (marked now approvedBy approvalData s approval_)
           = (s2, Returned (status, count))
        /\ processApproval now applicationId approvalLevel approvalData approvedBy s
           = (with_audit (decision_audit applicationId approvalLevel approvedBy
                            approvalData status) s2,
              Returned
                (mkResult (hd_error (marked_rows now approvedBy approvalData s approval_))
                   status
                   (match count with Some 0 => true | _ => false end
                    && String.eqb (decision approvalData) "approved")
                   (getNextSteps applicationId status)))).
Proof.
  destruct (filter (fun a => Application.id a =? applicationId) (loan_applications s))
    as [|application apps] eqn:Happ.
  { left. exists Loan_application_not_found. unfold processApproval.
    apply transaction_rolls_back with (s' := s).
    unfold processApproval_callback, bind at 1, select_applications. now rewrite Happ. }
  destruct (reviewable (Application.status application)) eqn:Hrev.
  2:{ left. exists Application_not_reviewable. unfold processApproval.
      apply transaction_rolls_back with (s' := s).
      unfold processApproval_callback, bind at 1, select_applications.
      now rewrite Happ, Hrev. }
  destruct (filter (pending_at applicationId approvalLevel) (loan_approvals s))
    as [|approval_ others] eqn:Hpend.
  { left. exists No_pending_approval. unfold processApproval.
    apply transaction_rolls_back with (s' := s).
    unfold processApproval_callback, bind at 1, select_applications.
    rewrite Happ, Hrev. cbn [negb]. unfold bind at 1, select_approvals.
    now rewrite Hpend. }
  pose proof (validateApprovalAuthority_reads_only approvedBy
                (Approval.required_role approval_)
                (Application.requested_amount application) s) as Hread.
  destruct (validateApprovalAuthority approvedBy (Approval.required_role approval_)
              (Application.requested_amount application) s) as [s1 [[]|e]] eqn:Hauth;
    cbn [fst] in Hread; subst s1.
  - right.
    destruct (apply_decision_effect now applicationId application approvalData
                (marked now approvedBy approvalData s approval_))
      as [s2 [status [count [_ [_ [Hd _]]]]]].
    exists application, apps, approval_, others, s2, status, count.
    repeat (split; [assumption || reflexivity|]).
    unfold processApproval. apply transaction_commits.
    exact (callback_after_authority_check now applicationId approvalLevel approvedBy
             approvalData s application apps approval_ others Happ Hrev Hpend Hauth
             s2 status count Hd).
  - left. exists e. unfold processApproval.
    apply transaction_rolls_back with (s' := s).
    exact (callback_throws_at_authority_check now applicationId approvalLevel approvedBy
             approvalData s application apps approval_ others Happ Hrev Hpend e Hauth).
Qed.

(** The errors [validateApprovalAuthority] can throw. *)
Lemma validateApprovalAuthority_errors (userId : Z) (requiredRole : string)
    (loanAmount : Q) (s s1 : store) (e : error) :
  validateApprovalAuthority userId requiredRole loanAmount s = (s1, Threw e) ->
  e = User_not_found \/ e = Insufficient_authority \/ e = CEO_approval_required.
Proof.
  unfold validateApprovalAuthority, bind, select_users.
  destruct (filter _ (users s)) as [|user rest].
  { intro H. injection H as _ <-. now left. }
  destruct (js_lt _ _).
  { intro H. injection H as _ <-. right. now left. }
  destruct (_ && _); intro H; [|discriminate].
  injection H as _ <-. right. now right.
Qed.

(** Which check a thrown error comes from. *)
Lemma processApproval_throw_cases
    (now applicationId approvalLevel approvedBy : Z) (approvalData : approval_data)
    (s s' : store) (e : error) :
  processApproval now applicationId approvalLevel approvalData approvedBy s
  = (s', Threw e) ->
  let found := filter (fun a => Application.id a =? applicationId)
                 (loan_applications s) in
  let pending := filter (pending_at applicationId approvalLevel) (loan_approvals s) in
  (e = Loan_application_not_found /\ found = [])
  \/ (e = Application_not_reviewable
      /\ exists application apps,
           found = application :: apps
           /\ reviewable (Application.status application) = false)
  \/ (e = No_pending_approval /\ found <> [] /\ pending = [])
  \/ ((e = User_not_found \/ e = Insufficient_authority \/ e = CEO_approval_required)
      /\ found <> [] /\ pending <> []).
Proof.
  intros Hrun found pending. subst found pending.
  destruct (filter (fun a => Application.id a =? applicationId) (loan_applications s))
    as [|application apps] eqn:Happ.
  { left. split; [|reflexivity].
    unfold processApproval, transaction, processApproval_callback, bind at 1,
      select_applications in Hrun.
    rewrite Happ in Hrun. now injection Hrun as _ <-. }
  right.
  destruct (reviewable (Application.status application)) eqn:Hrev.
  2:{ left. split; [|now exists application, apps].
      unfold processApproval, transaction, processApproval_callback, bind at 1,
        select_applications in Hrun.
      rewrite Happ, Hrev in Hrun. now injection Hrun as _ <-. }
  right.
  destruct (filter (pending_at applicationId approvalLevel) (loan_approvals s))
    as [|approval_ others] eqn:Hpend.
  { left. split; [|split; [discriminate|reflexivity]].
    unfold processApproval, transaction, processApproval_callback, bind at 1,
      select_applications in Hrun.
    rewrite Happ, Hrev in Hrun. cbn [negb] in Hrun.
    unfold bind at 1, select_approvals in Hrun. rewrite Hpend in Hrun.
    now injection Hrun as _ <-. }
  right. split; [|split; discriminate].
  pose proof (validateApprovalAuthority_reads_only approvedBy
                (Approval.required_role approval_)
                (Application.requested_amount application) s) as Hread.
  destruct (validateApprovalAuthority approvedBy (Approval.required_role approval_)
              (Application.requested_amount application) s) as [s1 [[]|e1]] eqn:Hauth;
    cbn [fst] in Hread; subst s1.
  - destruct (apply_decision_effect now applicationId application approvalData
                (marked now approvedBy approvalData s approval_))
      as [s2 [status [count [_ [_ [Hd _]]]]]].
    unfold processApproval in Hrun.
    rewrite (transaction_commits _ _ _ _
               (callback_after_authority_check now applicationId approvalLevel approvedBy
                  approvalData s application apps approval_ others Happ Hrev Hpend Hauth
                  s2 status count Hd)) in Hrun.
    discriminate.
  - unfold processApproval in Hrun.
    rewrite (transaction_rolls_back _ _ _ _
               (callback_throws_at_authority_check now applicationId approvalLevel
                  approvedBy approvalData s application apps approval_ others Happ Hrev
                  Hpend e1 Hauth)) in Hrun.
    injection Hrun as _ <-.
    exact (validateApprovalAuthority_errors _ _ _ _ _ _ Hauth).
Qed.

(** The errors of the second and third check. *)
Lemma processApproval_throws_not_reviewable
    (now applicationId approvalLevel approvedBy : Z) (approvalData : approval_data)
    (s : store) (application : Application.t) (apps : list Application.t) :
  filter (fun a => Application.id a =? applicationId) (loan_applications s)
  = application :: apps ->
  reviewable (Application.status application) = false ->
  processApproval now applicationId approvalLevel approvalData approvedBy s
  = (s, Threw Application_not_reviewable).
Proof.
  intros Happ Hrev. unfold processApproval. apply transaction_rolls_back with (s' := s).
  unfold processApproval_callback, bind at 1, select_applications.
  now rewrite Happ, Hrev.
Qed.

Lemma processApproval_throws_no_pending
    (now applicationId approvalLevel approvedBy : Z) (approvalData : approval_data)
    (s : store) (application : Application.t) (apps : list Application.t) :
  filter (fun a => Application.id a =? applicationId) (loan_applications s)
  = application :: apps ->
  reviewable (Application.status application) = true ->
  filter (pending_at applicationId approvalLevel) (loan_approvals s) = [] ->
  processApproval now applicationId approvalLevel approvalData approvedBy s
  = (s, Threw No_pending_approval).
Proof.
  intros Happ Hrev Hpend. unfold processApproval.
  apply transaction_rolls_back with (s' := s).
  unfold processApproval_callback, bind at 1, select_applications.
  rewrite Happ, Hrev. cbn [negb]. unfold bind at 1, select_approvals.
  now rewrite Hpend.
Qed.

(** [processApproval] makes its four checks in a fixed order and returns
    exactly when all pass: a missing application gives 'Loan application not
    found'; else a status outside submitted / under_review / pending_approval
    gives the not-reviewable error; else no pending record at the level gives
    'No pending approval found for this level'; else an error of the authority
    check is passed on; else the call returns.  Every failure leaves the store
    as it was. *)
Theorem processApproval_checks_in_order
    (now applicationId approvalLevel approvedBy : Z) (approvalData : approval_data)
    (s : store) :
  let run := processApproval now applicationId approvalLevel approvalData approvedBy s in
  let found := filter (fun a => Application.id a =? applicationId)
                 (loan_applications s) in
  let pending := filter (pending_at applicationId approvalLevel) (loan_approvals s) in
  (found = [] -> run = (s, Threw Loan_application_not_found))
  /\ (forall application apps,
        found = application :: apps ->
        reviewable (Application.status application) = false ->
        run = (s, Threw Application_not_reviewable))
  /\ (forall application apps,
        found = application :: apps ->
        reviewable (Application.status application) = true ->
        pending = [] ->
        run = (s, Threw No_pending_approval))
  /\ (forall application apps approval_ others e,
        found = application :: apps ->
        reviewable (Application.status application) = true ->
        pending = approval_ :: others ->
        validateApprovalAuthority approvedBy (Approval.required_role approval_)
          (Application.requested_amount application) s = (s, Threw e) ->
        run = (s, Threw e))
  /\ ((exists s' result, run = (s', Returned result))
      <-> exists application apps approval_ others,
            found = application :: apps
            /\ reviewable (Application.status application) = true
            /\ pending = approval_ :: others
            /\ validateApprovalAuthority approvedBy (Approval.required_role approval_)
                 (Application.requested_amount application) s = (s, Returned tt))
  /\ (forall e s', run = (s', Threw e) -> s' = s).
Proof.
  intros run found pending. subst run found pending.
  split.
  { intro Happ. unfold processApproval. apply transaction_rolls_back with (s' := s).
    unfold processApproval_callback, bind at 1, select_applications. now rewrite Happ. }
  split.
  { intros application apps Happ Hrev. unfold processApproval.
    apply transaction_rolls_back with (s' := s).
    unfold processApproval_callback, bind at 1, select_applications.
    now rewrite Happ, Hrev. }
  split.
  { intros application apps Happ Hrev Hpend. unfold processApproval.
    apply transaction_rolls_back with (s' := s).
    unfold processApproval_callback, bind at 1, select_applications.
    rewrite Happ, Hrev. cbn [negb]. unfold bind at 1, select_approvals.
    now rewrite Hpend. }
  split.
  { intros application apps approval_ others e Happ Hrev Hpend Hauth.
    unfold processApproval. apply transaction_rolls_back with (s' := s).
    exact (callback_throws_at_authority_check now applicationId approvalLevel approvedBy
             approvalData s application apps approval_ others Happ Hrev Hpend e Hauth). }
  split.
  { split.
    - intros [s' [result Hrun]].
      destruct (processApproval_cases now applicationId approvalLevel approvedBy
                  approvalData s)
        as [[e He] | [application [apps [approval_ [others [s2 [status [count
              [Happ [Hrev [Hpend [Hauth _]]]]]]]]]]]].
      + rewrite He in Hrun. discriminate.
      + exists application, apps, approval_, others. auto.
    - intros [application [apps [approval_ [others [Happ [Hrev [Hpend Hauth]]]]]]].
      destruct (apply_decision_effect now applicationId application approvalData
                  (marked now approvedBy approvalData s approval_))
        as [s2 [status [count [_ [_ [Hd _]]]]]].
      eexists. eexists. unfold processApproval. apply transaction_commits.
      exact (callback_after_authority_check now applicationId approvalLevel approvedBy
               approvalData s application apps approval_ others Happ Hrev Hpend Hauth
               s2 status count Hd). }
  intros e s' Hrun.
  exact (processApproval_failure_keeps_store approvedBy _ _ _ _ _ _ _ Hrun).
Qed.

(** An update restricted to rows of the table that it cannot select. *)
Lemma filter_update_where_apart_in {R} (p q : R -> bool) (f : R -> R) (l : list R) :
  (forall r, In r l -> q r = true -> p r = false /\ p (f r) = false) ->
  filter p (update_where q f l) = filter p l.
Proof.
  induction l as [|r l IH]; intro Hapart; [reflexivity|]. cbn.
  assert (IH' : filter p (update_where q f l) = filter p l)
    by (apply IH; intros r0 Hin; apply Hapart; now right).
  destruct (q r) eqn:Eq.
  - destruct (Hapart r (or_introl eq_refl) Eq) as [H1 H2]. now rewrite H1, H2.
  - destruct (p r); [f_equal|]; exact IH'.
Qed.

Lemma unique_by_id (l : list Approval.t) (r1 r2 : Approval.t) :
  NoDup (map Approval.id l) -> In r1 l -> In r2 l ->
  Approval.id r1 = Approval.id r2 -> r1 = r2.
Proof.
  induction l as [|r l IH]; intros Hnd H1 H2 Hid; [destruct H1|].
  cbn in Hnd. inversion Hnd as [|x xs Hnotin Hnd']. subst.
  destruct H1 as [-> | H1], H2 as [-> | H2]; auto.
  - exfalso. apply Hnotin. rewrite Hid. now apply in_map.
  - exfalso. apply Hnotin. rewrite <- Hid. now apply in_map.
Qed.

(** The store a returning call leaves, table by table. *)
Lemma processApproval_returning_store
    (now applicationId approvalLevel approvedBy : Z) (approvalData : approval_data)
    (s s' : store) (result : approval_result) :
  processApproval now applicationId approvalLevel approvalData approvedBy s
  = (s', Returned result) ->
  exists application apps approval_ others set cancel,
    filter (fun a => Application.id a =? applicationId) (loan_applications s)
    = application :: apps
    /\ filter (pending_at applicationId approvalLevel) (loan_approvals s)
       = approval_ :: others
    /\ (forall a, application_terms (set a) = application_terms a)
    /\ loan_applications s'
       = update_where (fun a => Application.id a =? applicationId) set
           (loan_applications s)
    /\ loan_approvals s'
       = (if cancel : bool
          then update_where (pending_of applicationId) Approval.set_cancelled
                 (loan_approvals (marked now approvedBy approvalData s approval_))
          else loan_approvals (marked now approvedBy approvalData s approval_))
    /\ loan_approvals_id_seq s' = loan_approvals_id_seq s
    /\ users s' = users s
    /\ audit_logs s'
       = audit_logs s
         ++ (if workflow_complete result then [loan_account_audit application] else [])
         ++ [decision_audit applicationId approvalLevel approvedBy approvalData
               (application_status result)].
Proof.
  intro Hrun.
  destruct (processApproval_cases now applicationId approvalLevel approvedBy
              approvalData s)
    as [[e He] | [application [apps [approval_ [others [s2 [status [count
          [Happ [Hrev [Hpend [Hauth [Hd Hres]]]]]]]]]]]]].
  { rewrite He in Hrun. discriminate. }
  rewrite Hres in Hrun. injection Hrun as <- <-.
  destruct (apply_decision_effect now applicationId application approvalData
              (marked now approvedBy approvalData s approval_))
    as [s2' [status' [count' [set [cancel [Hd' [Happs [Hset [Hrows [Hseq [Husers
          Haudit]]]]]]]]]]].
  rewrite Hd in Hd'. injection Hd' as <- <- <-.
  exists application, apps, approval_, others, set, cancel.
  cbn [with_audit loan_applications loan_approvals loan_approvals_id_seq users
       audit_logs workflow_complete application_status].
  rewrite Happs, Hrows, Hseq, Husers, Haudit.
  repeat (split; [assumption || reflexivity|]).
  now rewrite <- app_assoc.
Qed.

(** A decision never changes the structure of the data: after any call,
    returning or not, every application keeps its id, code, customer, amount,
    submission time and branch, every approval record keeps its id,
    application, level, required role and creation time (so no record is added
    or removed), and the users and the id sequence are untouched. *)
Theorem processApproval_keeps_structure
    (now applicationId approvalLevel approvedBy : Z) (approvalData : approval_data)
    (s : store) :
  let s' := fst (processApproval now applicationId approvalLevel approvalData
                   approvedBy s) in
  map application_terms (loan_applications s')
  = map application_terms (loan_applications s)
  /\ map approval_slot (loan_approvals s') = map approval_slot (loan_approvals s)
  /\ map Approval.is_required (loan_approvals s')
     = map Approval.is_required (loan_approvals s)
  /\ users s' = users s
  /\ loan_approvals_id_seq s' = loan_approvals_id_seq s
  /\ (forall a, In a (loan_applications s) ->
        Application.id a <> applicationId -> In a (loan_applications s')).
Proof.
  intro s'. subst s'.
  destruct (processApproval now applicationId approvalLevel approvalData approvedBy s)
    as [s' [result|e]] eqn:Hrun; cbn [fst].
  2:{ rewrite (processApproval_failure_keeps_store approvedBy _ _ _ _ _ _ _ Hrun).
      repeat split; auto. }
  destruct (processApproval_returning_store _ _ _ _ _ _ _ _ Hrun)
    as [application [apps [approval_ [others [set [cancel
          [_ [_ [Hset [Happs [Hrows [Hseq [Husers _]]]]]]]]]]]]].
  rewrite Happs, Hrows, Hseq, Husers.
  split; [apply update_where_map; exact Hset|].
  assert (Hmarked : forall (B : Type) (g : Approval.t -> B),
            (forall d b t c r0 r, g (Approval.set_decision d b t c r0 r) = g r) ->
            (forall r, g (Approval.set_cancelled r) = g r) ->
            map g (if cancel
                   then update_where (pending_of applicationId) Approval.set_cancelled
                          (loan_approvals (marked now approvedBy approvalData s approval_))
                   else loan_approvals (marked now approvedBy approvalData s approval_))
            = map g (loan_approvals s)).
  { intros B g Hg1 Hg2. unfold marked. cbn [loan_approvals].
    destruct cancel; rewrite ?update_where_map; auto. }
  split; [apply Hmarked; reflexivity|].
  split; [apply Hmarked; reflexivity|].
  split; [reflexivity|]. split; [reflexivity|].
  intros a Hin Hid. apply in_update_where. exists a. split; [exact Hin|].
  apply Z.eqb_neq in Hid. now rewrite Hid.
Qed.

(** With unique record ids, a decision on one application leaves the approval
    records of every other application exactly as they were. *)
Theorem processApproval_other_applications
    (now applicationId approvalLevel approvedBy : Z) (approvalData : approval_data)
    (s : store) :
  NoDup (map Approval.id (loan_approvals s)) ->
  let s' := fst (processApproval now applicationId approvalLevel approvalData
                   approvedBy s) in
  filter (fun r => negb (Approval.loan_application_id r =? applicationId))
         (loan_approvals s')
  = filter (fun r => negb (Approval.loan_application_id r =? applicationId))
           (loan_approvals s)
  /\ filter (fun a => negb (Application.id a =? applicationId)) (loan_applications s')
     = filter (fun a => negb (Application.id a =? applicationId)) (loan_applications s).
Proof.
  intros Hnd s'. subst s'.
  destruct (processApproval now applicationId approvalLevel approvalData approvedBy s)
    as [s' [result|e]] eqn:Hrun; cbn [fst].
  2:{ rewrite (processApproval_failure_keeps_store approvedBy _ _ _ _ _ _ _ Hrun).
      split; reflexivity. }
  destruct (processApproval_returning_store _ _ _ _ _ _ _ _ Hrun)
    as [application [apps [approval_ [others [set [cancel
          [_ [Hpend [Hset [Happs [Hrows _]]]]]]]]]]].
  rewrite Happs, Hrows. split.
  - destruct (filter_head_in _ _ _ _ Hpend) as [Hin Hp].
    unfold pending_at in Hp. apply andb_prop in Hp. destruct Hp as [Hp _].
    apply andb_prop in Hp. destruct Hp as [Hown _]. apply Z.eqb_eq in Hown.
    assert (Hm : filter (fun r => negb (Approval.loan_application_id r =? applicationId))
                   (loan_approvals (marked now approvedBy approvalData s approval_))
                 = filter (fun r => negb (Approval.loan_application_id r =? applicationId))
                     (loan_approvals s)).
    { unfold marked. cbn [loan_approvals]. apply filter_update_where_apart_in.
      intros r Hr Hid. apply Z.eqb_eq in Hid.
      rewrite (unique_by_id _ r approval_ Hnd Hr Hin Hid). cbn.
      rewrite Hown, Z.eqb_refl. split; reflexivity. }
    destruct cancel; [|exact Hm].
    rewrite filter_update_where_apart; [exact Hm| |].
    + intros r Hr. unfold pending_of in Hr. apply andb_prop in Hr.
      destruct Hr as [Hr _]. now rewrite Hr.
    + intros r Hr. unfold pending_of in Hr. apply andb_prop in Hr.
      destruct Hr as [Hr _]. cbn. now rewrite Hr.
  - apply filter_update_where_apart.
    + intros a Ha. now rewrite Ha.
    + intros a Ha. pose proof (Hset a) as Hterms. unfold application_terms in Hterms.
      injection Hterms as Hid _. now rewrite Hid, Ha.
Qed.

(** The audit trail of a decision: a failing call writes nothing; a returning
    call appends the entry of the decision (actor, decision as action, level,
    comments, reason, resulting status), preceded by a 'loan_account_created'
    entry exactly when it completed the workflow. *)
Theorem processApproval_audit_trail
    (now applicationId approvalLevel approvedBy : Z) (approvalData : approval_data)
    (s : store) :
  let run := processApproval now applicationId approvalLevel approvalData approvedBy s in
  match snd run with
  | Threw _ => audit_logs (fst run) = audit_logs s
  | Returned result =>
      exists application,
        find_application applicationId s = Some application
        /\ audit_logs (fst run)
           = audit_logs s
             ++ (if workflow_complete result
                 then [Audit.mk None "loan_account_created" "loan_approval"
                         (toString (Application.id application))
                         (LoanAccountDetails (Application.application_id application)
                            (Application.requested_amount application))
                         true]
                 else [])
             ++ [Audit.mk (Some approvedBy) (decision approvalData) "loan_approval"
                   (toString applicationId)
                   (ApprovalDetails approvalLevel (comments approvalData)
                      (rejection_reason approvalData) (application_status result))
                   true]
  end.
Proof.
  intro run. subst run.
  destruct (processApproval now applicationId approvalLevel approvalData approvedBy s)
    as [s' [result|e]] eqn:Hrun; cbn [fst snd].
  2:{ now rewrite (processApproval_failure_keeps_store approvedBy _ _ _ _ _ _ _ Hrun). }
  destruct (processApproval_returning_store _ _ _ _ _ _ _ _ Hrun)
    as [application [apps [approval_ [others [set [cancel
          [Happ [_ [_ [_ [_ [_ [_ Haudit]]]]]]]]]]]]].
  exists application. split; [unfold find_application; now rewrite Happ|].
  exact Haudit.
Qed.

Lemma filter_andb {R} (p g : R -> bool) (l : list R) :
  filter (fun r => p r && g r) l = filter g (filter p l).
Proof.
  induction l as [|r l IH]; [reflexivity|]. cbn.
  destruct (p r); cbn; [destruct (g r); [f_equal|]|]; exact IH.
Qed.

(** A level is decided once: when the decided record was the only pending one
    at its level and the stored decision is not the string ['pending'], no
    pending record is left at that level, and every later [processApproval] at
    the level fails, with the not-reviewable error or with 'No pending approval
    found for this level', and changes nothing. *)
Theorem processApproval_level_decided_once
    (now applicationId approvalLevel approvedBy : Z) (approvalData : approval_data)
    (s s' : store) (result : approval_result) (approval_ : Approval.t) :
  processApproval now applicationId approvalLevel approvalData approvedBy s
  = (s', Returned result) ->
  filter (pending_at applicationId approvalLevel) (loan_approvals s) = [approval_] ->
  decision approvalData <> "pending" ->
  filter (pending_at applicationId approvalLevel) (loan_approvals s') = []
  /\ forall now2 approvalData2 approvedBy2,
       exists e,
         processApproval now2 applicationId approvalLevel approvalData2 approvedBy2 s'
         = (s', Threw e)
         /\ (e = Application_not_reviewable \/ e = No_pending_approval).
Proof.
  intros Hrun Hone Hdec.
  destruct (processApproval_returning_store _ _ _ _ _ _ _ _ Hrun)
    as [application [apps [approval0 [others [set [cancel
          [Happ [Hpend [Hset [Happs [Hrows _]]]]]]]]]]].
  rewrite Hone in Hpend. injection Hpend as <- <-.
  assert (Hm : filter (pending_at applicationId approvalLevel)
                 (loan_approvals (marked now approvedBy approvalData s approval_)) = []).
  { unfold marked. cbn [loan_approvals].
    rewrite filter_update_where_out.
    - rewrite filter_andb, Hone. cbn. now rewrite Z.eqb_refl.
    - intros r _. unfold pending_at. cbn.
      apply String.eqb_neq in Hdec. rewrite Hdec. now rewrite andb_false_r. }
  assert (Hnone : filter (pending_at applicationId approvalLevel) (loan_approvals s') = []).
  { rewrite Hrows. destruct cancel; [|exact Hm].
    rewrite filter_update_where_out.
    - now rewrite filter_andb, Hm.
    - intros r _. unfold pending_at. cbn. now rewrite andb_false_r. }
  split; [exact Hnone|].
  intros now2 approvalData2 approvedBy2.
  assert (Hfound : filter (fun a => Application.id a =? applicationId)
                     (loan_applications s')
                   = set application :: map set apps).
  { rewrite Happs, filter_update_where_same, Happ; [reflexivity|].
    intros a Ha. pose proof (Hset a) as Hterms. unfold application_terms in Hterms.
    injection Hterms as Hid _. now rewrite Hid. }
  destruct (reviewable (Application.status (set application))) eqn:E.
  - exists No_pending_approval. split; [|now right].
    exact (processApproval_throws_no_pending _ _ _ _ _ _ _ _ Hfound E Hnone).
  - exists Application_not_reviewable. split; [|now left].
    exact (processApproval_throws_not_reviewable _ _ _ _ _ _ _ _ Hfound E).
Qed.

(** On [medium_loan_store], after the loan officer approved level 1. *)
Lemma processApproval_level_decided_once_witness :
  let s' := fst (processApproval 8 1 1 (mkData "approved" None None) 3
                   medium_loan_store) in
  filter (pending_at 1 1) (loan_approvals s') = []
  /\ forall now2 approvalData2 approvedBy2,
       exists e,
         processApproval now2 1 1 approvalData2 approvedBy2 s' = (s', Threw e)
         /\ (e = Application_not_reviewable \/ e = No_pending_approval).
Proof.
  refine (processApproval_level_decided_once 8 1 1 3 (mkData "approved" None None)
            medium_loan_store _
            (snd (match processApproval 8 1 1 (mkData "approved" None None) 3
                          medium_loan_store with
                  | (s', Returned r) => (s', r)
                  | (s', Threw _) => (s', mkResult None "" false [])
                  end))
            level_1_pending _ _ _).
  - reflexivity.
  - reflexivity.
  - discriminate.
Defined.

(** A second application, of 50,000, with its one pending record, next to
    the loan of 200,000 and its two. *)
Definition second_loan : Application.t :=
  Application.mk 2 "LA00000002" 11 50000 "submitted" (Some 5) None None None 1.

Definition second_loan_pending : Approval.t :=
  Approval.mk 3 2 1 "loan_officer" None None "pending" None None true 5.

Definition two_loans_store : store :=
  mkStore [medium_loan; second_loan]
    [level_1_pending; level_2_pending; second_loan_pending] 4
    [User.mk 3 "loan_officer" 1 1; User.mk 4 "branch_manager" 2 1] [].

(** On [two_loans_store], whose record ids are 1, 2 and 3: rejecting
    application 1 at level 1 rejects it and cancels its other pending record,
    and leaves the row and the pending record of application 2. *)
Lemma processApproval_other_applications_witness :
  let s' := fst (processApproval 8 1 1
                   (mkData "rejected" None (Some "income not verified")) 3
                   two_loans_store) in
  filter (fun r => negb (Approval.loan_application_id r =? 1)) (loan_approvals s')
  = [second_loan_pending]
  /\ filter (fun a => negb (Application.id a =? 1)) (loan_applications s')
     = [second_loan]
  /\ map Approval.status (loan_approvals s') = ["rejected"; "cancelled"; "pending"]
  /\ map Application.status (loan_applications s') = ["rejected"; "submitted"].
Proof.
  intro s'.
  destruct (processApproval_other_applications 8 1 1 3
              (mkData "rejected" None (Some "income not verified")) two_loans_store)
    as [Hrecords Hrows].
  - cbn. repeat (constructor; [cbn; intuition discriminate|]). constructor.
  - split; [exact Hrecords|]. split; [exact Hrows|]. split; reflexivity.
Defined.

(** ** Outcomes of [escalateApproval] *)

Lemma filter_none {R} (p : R -> bool) (l : list R) :
  (forall r, In r l -> p r = false) -> filter p l = [].
Proof.
  induction l as [|r l IH]; intro H; [reflexivity|]. cbn.
  rewrite (H r (or_introl eq_refl)). apply IH. intros r0 Hr0. apply H. now right.
Qed.

(** The store a returning escalation leaves, table by table. *)
Lemma escalateApproval_returning_store
    (now applicationId currentLevel escalatedBy : Z) (reason : string)
    (s s' : store) (result : escalation_result) :
  escalateApproval now applicationId currentLevel reason escalatedBy s
  = (s', Returned result) ->
  exists application apps nextRole,
    filter (fun a => Application.id a =? applicationId) (loan_applications s)
    = application :: apps
    /\ getRequiredRoleForLevel (currentLevel + 1)
         (Application.requested_amount application) = Some nextRole
    /\ loan_applications s' = loan_applications s
    /\ users s' = users s
    /\ audit_logs s'
       = audit_logs s ++ [escalation_audit applicationId currentLevel escalatedBy reason]
    /\ escalation_reason result = reason
    /\ ((filter (at_next_level applicationId currentLevel) (loan_approvals s) = []
         /\ loan_approvals s'
            = update_where (at_current_level applicationId currentLevel)
                (Approval.set_escalated reason)
                (loan_approvals s
                 ++ [Approval.mk (loan_approvals_id_seq s) applicationId
                       (currentLevel + 1) nextRole None None "pending" None None
                       true now])
         /\ loan_approvals_id_seq s' = loan_approvals_id_seq s + 1)
        \/ (exists existing rest,
              filter (at_next_level applicationId currentLevel) (loan_approvals s)
              = existing :: rest
              /\ loan_approvals s'
                 = update_where (at_current_level applicationId currentLevel)
                     (Approval.set_escalated reason)
                     (update_where (fun r => Approval.id r =? Approval.id existing)
                        Approval.set_pending_required (loan_approvals s))
              /\ loan_approvals_id_seq s' = loan_approvals_id_seq s)).
Proof.
  intro Hrun. unfold escalateApproval in Hrun.
  destruct (filter (fun a => Application.id a =? applicationId) (loan_applications s))
    as [|application apps] eqn:Happ.
  { unfold transaction, escalateApproval_callback, bind at 1, select_applications in Hrun.
    rewrite Happ in Hrun. discriminate. }
  destruct (getRequiredRoleForLevel (currentLevel + 1)
              (Application.requested_amount application)) as [nextRole|] eqn:Hrole.
  2:{ rewrite (transaction_rolls_back _ _ _ _
                 (escalate_without_next_role now applicationId currentLevel escalatedBy
                    reason s application apps Happ Hrole)) in Hrun.
      discriminate. }
  exists application, apps, nextRole.
  split; [reflexivity|]. split; [exact Hrole|].
  destruct (filter (at_next_level applicationId currentLevel) (loan_approvals s))
    as [|existing rest] eqn:E.
  - pose proof (escalate_onto_new now applicationId currentLevel escalatedBy reason s
                  application apps Happ nextRole Hrole E) as Hcb.
    cbv zeta in Hcb. rewrite (transaction_commits _ _ _ _ Hcb) in Hrun.
    injection Hrun as <- <-. cbn.
    repeat (split; [reflexivity|]). left. repeat split; reflexivity.
  - pose proof (escalate_onto_existing now applicationId currentLevel escalatedBy reason s
                  application apps Happ nextRole existing rest Hrole E) as Hcb.
    rewrite (transaction_commits _ _ _ _ Hcb) in Hrun.
    injection Hrun as <- <-. cbn.
    repeat (split; [reflexivity|]). right. exists existing, rest.
    repeat split; reflexivity.
Qed.

Lemma escalateApproval_failure_keeps_store
    (now applicationId currentLevel escalatedBy : Z) (reason : string)
    (s s' : store) (e : error) :
  escalateApproval now applicationId currentLevel reason escalatedBy s = (s', Threw e) ->
  s' = s.
Proof.
  unfold escalateApproval, transaction.
  destruct (escalateApproval_callback now applicationId currentLevel reason escalatedBy s)
    as [s1 [r|e1]]; intro H; [discriminate|]. now injection H as <- _.
Qed.

(** What an escalation touches: a failing call changes nothing; a returning
    call leaves the applications (hence the application's status) and the users
    as they were, appends exactly one audit entry, with action 'escalated', the
    escalating user and both levels, and adds one approval record and advances
    the id sequence by one exactly when no record existed at the next level. *)
Theorem escalateApproval_frame
    (now applicationId currentLevel escalatedBy : Z) (reason : string) (s : store) :
  let run := escalateApproval now applicationId currentLevel reason escalatedBy s in
  let fresh :=
    match filter (at_next_level applicationId currentLevel) (loan_approvals s) with
    | [] => 1
    | _ :: _ => 0
    end in
  match snd run with
  | Threw _ => fst run = s
  | Returned result =>
      loan_applications (fst run) = loan_applications s
      /\ users (fst run) = users s
      /\ audit_logs (fst run)
         = audit_logs s
           ++ [Audit.mk (Some escalatedBy) "escalated" "loan_approval"
                 (toString applicationId)
                 (EscalationDetails currentLevel (currentLevel + 1) reason) true]
      /\ loan_approvals_id_seq (fst run) = loan_approvals_id_seq s + fresh
      /\ Z.of_nat (List.length (loan_approvals (fst run)))
         = Z.of_nat (List.length (loan_approvals s)) + fresh
      /\ escalation_reason result = reason
  end.
Proof.
  intros run fresh. subst run fresh.
  destruct (escalateApproval now applicationId currentLevel reason escalatedBy s)
    as [s' [result|e]] eqn:Hrun; cbn [fst snd].
  2:{ exact (escalateApproval_failure_keeps_store _ _ _ _ _ _ _ _ Hrun). }
  destruct (escalateApproval_returning_store _ _ _ _ _ _ _ _ Hrun)
    as [application [apps [nextRole [_ [_ [Happs [Husers [Haudit [Hreason Hrows]]]]]]]]].
  split; [exact Happs|]. split; [exact Husers|]. split; [exact Haudit|].
  destruct Hrows as [[E [Hrows Hseq]] | [existing [rest [E [Hrows Hseq]]]]];
    rewrite E, Hrows, Hseq.
  - split; [reflexivity|]. split; [|exact Hreason].
    rewrite update_where_length, length_app. cbn. lia.
  - split; [lia|]. split; [|exact Hreason].
    rewrite !update_where_length. lia.
Qed.

(** An escalation hands the level over: afterwards no record of the
    application is pending at the escalated level, a required pending record
    exists at the next level, a decision at the escalated level fails with the
    not-reviewable error or 'No pending approval found for this level', and a
    decision at the next level can fail only on the application's status or on
    the authority check. *)
Theorem escalateApproval_hands_level_over
    (now applicationId currentLevel escalatedBy : Z) (reason : string)
    (s s' : store) (result : escalation_result) :
  escalateApproval now applicationId currentLevel reason escalatedBy s
  = (s', Returned result) ->
  filter (pending_at applicationId currentLevel) (loan_approvals s') = []
  /\ (exists r, In r (loan_approvals s')
                /\ pending_at applicationId (currentLevel + 1) r = true
                /\ Approval.is_required r = true)
  /\ forall now2 approvalData approvedBy,
       (exists e,
          processApproval now2 applicationId currentLevel approvalData approvedBy s'
          = (s', Threw e)
          /\ (e = Application_not_reviewable \/ e = No_pending_approval))
       /\ (forall s2 e,
             processApproval now2 applicationId (currentLevel + 1) approvalData
               approvedBy s' = (s2, Threw e) ->
             e <> Loan_application_not_found /\ e <> No_pending_approval).
Proof.
  intro Hrun.
  destruct (escalateApproval_returning_store _ _ _ _ _ _ _ _ Hrun)
    as [application [apps [nextRole [Happ [_ [Happs [_ [_ [_ Hrows]]]]]]]]].
  assert (Hcur : forall rows,
            filter (pending_at applicationId currentLevel)
              (update_where (at_current_level applicationId currentLevel)
                 (Approval.set_escalated reason) rows) = []).
  { intro rows. rewrite filter_update_where_out.
    - apply filter_none. intros r _. unfold pending_at, at_current_level.
      destruct ((Approval.loan_application_id r =? applicationId)
                && (Approval.approval_level r =? currentLevel)); cbn;
        [apply andb_false_r|reflexivity].
    - intros r _. unfold pending_at. cbn. now rewrite andb_false_r. }
  assert (Hnone : filter (pending_at applicationId currentLevel) (loan_approvals s') = []).
  { destruct Hrows as [[_ [-> _]] | [existing [rest [_ [-> _]]]]]; apply Hcur. }
  assert (Hnext : exists r, In r (loan_approvals s')
                            /\ pending_at applicationId (currentLevel + 1) r = true
                            /\ Approval.is_required r = true).
  { destruct Hrows as [[_ [-> _]] | [existing [rest [E [-> _]]]]].
    - exists (Approval.mk (loan_approvals_id_seq s) applicationId (currentLevel + 1)
                nextRole None None "pending" None None true now).
      split; [|split].
      + apply next_level_row_kept; [|reflexivity]. apply in_or_app. right. now left.
      + unfold pending_at. cbn. now rewrite !Z.eqb_refl.
      + reflexivity.
    - destruct (filter_head_in _ _ _ _ E) as [Hin Hp].
      unfold at_next_level in Hp. apply andb_prop in Hp. destruct Hp as [Hown Hlevel].
      exists (Approval.set_pending_required existing). split; [|split].
      + apply next_level_row_kept; [|apply Z.eqb_eq in Hlevel; exact Hlevel].
        apply in_update_where. exists existing. split; [exact Hin|].
        now rewrite Z.eqb_refl.
      + unfold pending_at. cbn. now rewrite Hown, Hlevel.
      + reflexivity. }
  split; [exact Hnone|]. split; [exact Hnext|].
  intros now2 approvalData approvedBy.
  assert (Hfound : filter (fun a => Application.id a =? applicationId)
                     (loan_applications s') = application :: apps)
    by (now rewrite Happs).
  split.
  - destruct (reviewable (Application.status application)) eqn:E.
    + exists No_pending_approval. split; [|now right].
      exact (processApproval_throws_no_pending _ _ _ _ _ _ _ _ Hfound E Hnone).
    + exists Application_not_reviewable. split; [|now left].
      exact (processApproval_throws_not_reviewable _ _ _ _ _ _ _ _ Hfound E).
  - intros s2 e Hthrow.
    destruct Hnext as [r [Hin [Hp _]]].
    assert (Hpend : filter (pending_at applicationId (currentLevel + 1))
                      (loan_approvals s') <> []).
    { intro Hnil.
      assert (Hr : In r (filter (pending_at applicationId (currentLevel + 1))
                           (loan_approvals s')))
        by (apply filter_In; now split).
      rewrite Hnil in Hr. destruct Hr. }
    destruct (processApproval_throw_cases _ _ _ _ _ _ _ _ Hthrow)
      as [[_ Hnil] | [[-> _] | [[_ [_ Hnil]] | [[-> | [-> | ->]] _]]]];
      try (split; discriminate).
    + rewrite Hfound in Hnil. discriminate.
    + now destruct Hpend.
Qed.

(** On [medium_loan_store]: escalating level 1 to the branch manager. *)
Lemma escalateApproval_hands_level_over_witness :
  let s' := fst (escalateApproval 8 1 1 "needs senior review" 3 medium_loan_store) in
  filter (pending_at 1 1) (loan_approvals s') = []
  /\ (exists r, In r (loan_approvals s')
                /\ pending_at 1 (1 + 1) r = true
                /\ Approval.is_required r = true)
  /\ forall now2 approvalData approvedBy,
       (exists e,
          processApproval now2 1 1 approvalData approvedBy s' = (s', Threw e)
          /\ (e = Application_not_reviewable \/ e = No_pending_approval))
       /\ (forall s2 e,
             processApproval now2 1 (1 + 1) approvalData approvedBy s' = (s2, Threw e) ->
             e <> Loan_application_not_found /\ e <> No_pending_approval).
Proof.
  refine (escalateApproval_hands_level_over 8 1 1 3 "needs senior review"
            medium_loan_store _
            (mkEscalation 2 "branch_manager"
               (Some (Approval.set_pending_required level_2_pending))
               "needs senior review") _).
  reflexivity.
Defined.

(** ** Record ids *)

From Stdlib Require Import FinFun.

(** The ids of the approval records are pairwise different and below the next
    value of the [SERIAL] sequence. *)
Definition fresh_ids (s : store) : Prop :=
  NoDup (map Approval.id (loan_approvals s))
  /\ forall i, In i (map Approval.id (loan_approvals s)) -> i < loan_approvals_id_seq s.

Lemma fresh_ids_extend (s s' : store) (n : nat) :
  fresh_ids s ->
  map Approval.id (loan_approvals s')
  = map Approval.id (loan_approvals s)
    ++ map (fun k => loan_approvals_id_seq s + Z.of_nat k) (seq 0 n) ->
  loan_approvals_id_seq s' = loan_approvals_id_seq s + Z.of_nat n ->
  fresh_ids s'.
Proof.
  intros [Hnd Hlt] Hids Hseq. unfold fresh_ids. rewrite Hids, Hseq. split.
  - apply NoDup_app; [exact Hnd| |].
    + apply Injective_map_NoDup; [|apply seq_NoDup].
      intros a b Hab. lia.
    + intros i Hi Hin. apply Hlt in Hi. apply in_map_iff in Hin.
      destruct Hin as [k [Hk _]]. lia.
  - intros i Hin. apply in_app_or in Hin. destruct Hin as [Hin | Hin].
    + apply Hlt in Hin. lia.
    + apply in_map_iff in Hin. destruct Hin as [k [Hk Hin]].
      apply in_seq in Hin. lia.
Qed.

Lemma inserted_rows_length (now : timestamp) (applicationId next : Z)
    (levels : list approval_level_spec) :
  List.length (inserted_rows now applicationId next levels) = List.length levels.
Proof.
  revert next. induction levels as [|l rest IH]; intro next; [reflexivity|].
  cbn. f_equal. apply IH.
Qed.

Lemma processApproval_ids
    (now applicationId approvalLevel approvedBy : Z) (approvalData : approval_data)
    (s : store) :
  let s' := fst (processApproval now applicationId approvalLevel approvalData
                   approvedBy s) in
  map Approval.id (loan_approvals s') = map Approval.id (loan_approvals s)
  /\ loan_approvals_id_seq s' = loan_approvals_id_seq s.
Proof.
  intro s'. subst s'.
  destruct (processApproval now applicationId approvalLevel approvalData approvedBy s)
    as [s' [result|e]] eqn:Hrun; cbn [fst].
  2:{ rewrite (processApproval_failure_keeps_store approvedBy _ _ _ _ _ _ _ Hrun).
      split; reflexivity. }
  destruct (processApproval_returning_store _ _ _ _ _ _ _ _ Hrun)
    as [application [apps [approval_ [others [set [cancel
          [_ [_ [_ [_ [Hrows [Hseq _]]]]]]]]]]]].
  split; [|exact Hseq]. rewrite Hrows. unfold marked. cbn [loan_approvals].
  destruct cancel; rewrite ?update_where_map; reflexivity.
Qed.

Lemma fresh_ids_same (s s' : store) :
  fresh_ids s ->
  map Approval.id (loan_approvals s') = map Approval.id (loan_approvals s) ->
  loan_approvals_id_seq s' = loan_approvals_id_seq s ->
  fresh_ids s'.
Proof.
  intros H Hids Hseq. apply (fresh_ids_extend s s' 0 H).
  - cbn. now rewrite app_nil_r.
  - cbn. lia.
Qed.

(** Every operation of the approval flow keeps the record ids unique and
    below the sequence: a store whose ids are so stays so under
    [createApprovalWorkflow], [processApproval], [escalateApproval] and
    [bulkApprove], whatever their arguments and outcome. *)
Theorem approval_ids_stay_unique (s : store) :
  fresh_ids s ->
  (forall now applicationId amount,
     fresh_ids (fst (createApprovalWorkflow now applicationId amount s)))
  /\ (forall now applicationId approvalLevel approvalData approvedBy,
        fresh_ids (fst (processApproval now applicationId approvalLevel approvalData
                          approvedBy s)))
  /\ (forall now applicationId currentLevel reason escalatedBy,
        fresh_ids (fst (escalateApproval now applicationId currentLevel reason
                          escalatedBy s)))
  /\ (forall applications approvedBy,
        fresh_ids (fst (bulkApprove applications approvedBy s))).
Proof.
  intro Hfresh. split; [|split; [|split]].
  - intros now applicationId amount. unfold createApprovalWorkflow.
    rewrite insert_approval_levels_store.
    apply (fresh_ids_extend s _ (List.length (approvalLevels amount)) Hfresh).
    + cbn [loan_approvals]. rewrite map_app. f_equal. apply inserted_rows_ids.
    + reflexivity.
  - intros now applicationId approvalLevel approvalData approvedBy.
    destruct (processApproval_ids now applicationId approvalLevel approvedBy
                approvalData s) as [Hids Hseq].
    exact (fresh_ids_same s _ Hfresh Hids Hseq).
  - intros now applicationId currentLevel reason escalatedBy.
    destruct (escalateApproval now applicationId currentLevel reason escalatedBy s)
      as [s' [result|e]] eqn:Hrun; cbn [fst].
    2:{ now rewrite (escalateApproval_failure_keeps_store _ _ _ _ _ _ _ _ Hrun). }
    destruct (escalateApproval_returning_store _ _ _ _ _ _ _ _ Hrun)
      as [application [apps [nextRole [_ [_ [_ [_ [_ [_ Hrows]]]]]]]]].
    destruct Hrows as [[_ [Hrows Hseq]] | [existing [rest [_ [Hrows Hseq]]]]].
    + apply (fresh_ids_extend s s' 1 Hfresh).
      * rewrite Hrows, update_where_map by reflexivity.
        rewrite map_app. cbn. now rewrite Z.add_0_r.
      * rewrite Hseq. reflexivity.
    + apply (fresh_ids_same s s' Hfresh); [|exact Hseq].
      rewrite Hrows, !update_where_map; reflexivity.
  - intros applications approvedBy. unfold bulkApprove.
    rewrite bulk_loop_outcomes. cbn [fst].
    revert s Hfresh. induction applications as [|timed rest IH]; intros s Hfresh;
      [exact Hfresh|].
    cbn [store_after]. apply IH. unfold process_item.
    destruct (processApproval_ids (fst timed) (item_application_id (snd timed))
                (item_approval_level (snd timed)) approvedBy
                (mkData (item_decision (snd timed)) (item_comments (snd timed))
                   (item_rejection_reason (snd timed))) s) as [Hids Hseq].
    exact (fresh_ids_same s _ Hfresh Hids Hseq).
Qed.

(** On [medium_loan_store] (ids 1 and 2, next id 3). *)
Lemma approval_ids_stay_unique_witness :
  (forall now applicationId amount,
     fresh_ids (fst (createApprovalWorkflow now applicationId amount medium_loan_store)))
  /\ (forall now applicationId approvalLevel approvalData approvedBy,
        fresh_ids (fst (processApproval now applicationId approvalLevel approvalData
                          approvedBy medium_loan_store)))
  /\ (forall now applicationId currentLevel reason escalatedBy,
        fresh_ids (fst (escalateApproval now applicationId currentLevel reason
                          escalatedBy medium_loan_store)))
  /\ (forall applications approvedBy,
        fresh_ids (fst (bulkApprove applications approvedBy medium_loan_store))).
Proof.
  apply (approval_ids_stay_unique medium_loan_store). split.
  - cbn. constructor; [|constructor; [|constructor]].
    + intros [H | []]. discriminate.
    + intros [].
  - cbn. intros i [<- | [<- | []]]; reflexivity.
Defined.

(** With unique record ids, an escalation leaves the approval records of
    every other application exactly as they were. *)
Theorem escalateApproval_other_applications
    (now applicationId currentLevel escalatedBy : Z) (reason : string) (s : store) :
  NoDup (map Approval.id (loan_approvals s)) ->
  let s' := fst (escalateApproval now applicationId currentLevel reason escalatedBy s) in
  filter (fun r => negb (Approval.loan_application_id r =? applicationId))
         (loan_approvals s')
  = filter (fun r => negb (Approval.loan_application_id r =? applicationId))
           (loan_approvals s).
Proof.
  intros Hnd s'. subst s'.
  destruct (escalateApproval now applicationId currentLevel reason escalatedBy s)
    as [s' [result|e]] eqn:Hrun; cbn [fst].
  2:{ now rewrite (escalateApproval_failure_keeps_store _ _ _ _ _ _ _ _ Hrun). }
  destruct (escalateApproval_returning_store _ _ _ _ _ _ _ _ Hrun)
    as [application [apps [nextRole [_ [_ [_ [_ [_ [_ Hrows]]]]]]]]].
  assert (Hcur : forall rows,
            filter (fun r => negb (Approval.loan_application_id r =? applicationId))
              (update_where (at_current_level applicationId currentLevel)
                 (Approval.set_escalated reason) rows)
            = filter (fun r => negb (Approval.loan_application_id r =? applicationId))
                rows).
  { intro rows. apply filter_update_where_apart.
    - intros r Hr. unfold at_current_level in Hr. apply andb_prop in Hr.
      destruct Hr as [Hr _]. now rewrite Hr.
    - intros r Hr. unfold at_current_level in Hr. apply andb_prop in Hr.
      destruct Hr as [Hr _]. cbn. now rewrite Hr. }
  destruct Hrows as [[_ [-> _]] | [existing [rest [E [-> _]]]]]; rewrite Hcur.
  - rewrite filter_app. cbn. rewrite Z.eqb_refl. cbn. apply app_nil_r.
  - destruct (filter_head_in _ _ _ _ E) as [Hin Hp].
    unfold at_next_level in Hp. apply andb_prop in Hp. destruct Hp as [Hown _].
    apply filter_update_where_apart_in.
    intros r Hr Hid. apply Z.eqb_eq in Hid.
    rewrite (unique_by_id _ r existing Hnd Hr Hin Hid). cbn.
    rewrite Hown. split; reflexivity.
Qed.

(** On [two_loans_store]: escalating level 1 of application 1 marks its
    level-1 record and leaves the pending record of application 2. *)
Lemma escalateApproval_other_applications_witness :
  let s' := fst (escalateApproval 8 1 1 "needs senior review" 3 two_loans_store) in
  filter (fun r => negb (Approval.loan_application_id r =? 1)) (loan_approvals s')
  = [second_loan_pending]
  /\ map Approval.status (loan_approvals s') = ["escalated"; "pending"; "pending"].
Proof.
  intro s'. split; [|reflexivity].
  apply (escalateApproval_other_applications 8 1 1 3 "needs senior review"
           two_loans_store).
  cbn. repeat (constructor; [cbn; intuition discriminate|]). constructor.
Defined.

(** ** The shape of a payment schedule *)

(** The columns of an entry other than its due date. *)
Definition entry_amounts (e : schedule_entry)
    : nat * float * float * float * float * string :=
  (payment_number e, payment_amount e, principal_amount e, interest_amount e,
   remaining_balance e, entry_status e).

Section ScheduleShape.
Variable moment : Type.
Variable add : moment -> Z -> string -> moment.
Variable format : moment -> string.
Variable Math_pow : float -> float -> float.

(** The dates at which the loop formats [currentDate]. *)
Fixpoint payment_dates (n : nat) (paymentFrequency : string) (currentDate : moment)
    : list moment :=
  match n with
  | O => []
  | S n' =>
      currentDate
      :: payment_dates n' paymentFrequency
           (next_payment_date moment add paymentFrequency currentDate)
  end.

Lemma schedule_loop_shape (remaining i termMonths : nat)
    (monthlyRate monthlyPayment_ : float) (paymentFrequency : string)
    (remainingBalance : float) (currentDate : moment) :
  let entries := schedule_loop moment add format remaining i termMonths monthlyRate
                   monthlyPayment_ paymentFrequency remainingBalance currentDate in
  map payment_number entries = seq i remaining
  /\ map due_date entries
     = map format (payment_dates remaining paymentFrequency currentDate)
  /\ Forall (fun e => entry_status e = "pending") entries.
Proof.
  revert i remainingBalance currentDate.
  induction remaining as [|remaining IH]; intros i remainingBalance currentDate.
  - repeat split. constructor.
  - cbn [schedule_loop payment_dates]. cbv zeta.
    destruct (Nat.eqb i termMonths && _)%bool; cbn [map seq];
      match goal with
      | |- context [schedule_loop moment add format remaining (S i) termMonths
                      monthlyRate monthlyPayment_ paymentFrequency ?b ?d] =>
          destruct (IH (S i) b d) as [H1 [H2 H3]]
      end;
      (split; [now rewrite H1 | split; [now rewrite H2 | now constructor]]).
Qed.

Lemma schedule_loop_amounts (remaining i termMonths : nat)
    (monthlyRate monthlyPayment_ : float) (f1 f2 : string)
    (remainingBalance : float) (d1 d2 : moment) :
  map entry_amounts
    (schedule_loop moment add format remaining i termMonths monthlyRate
       monthlyPayment_ f1 remainingBalance d1)
  = map entry_amounts
      (schedule_loop moment add format remaining i termMonths monthlyRate
         monthlyPayment_ f2 remainingBalance d2).
Proof.
  revert i remainingBalance d1 d2.
  induction remaining as [|remaining IH]; intros i remainingBalance d1 d2;
    [reflexivity|].
  cbn [schedule_loop]. cbv zeta.
  destruct (Nat.eqb i termMonths && _)%bool; cbn [map]; f_equal; apply IH.
Qed.

Lemma sum_by_column (g : schedule_entry -> float) (l1 l2 : list schedule_entry)
    (z : float) :
  map g l1 = map g l2 ->
  fold_left (fun sum payment => (sum + g payment)%float) l1 z
  = fold_left (fun sum payment => (sum + g payment)%float) l2 z.
Proof.
  revert l2 z. induction l1 as [|e1 l1 IH]; intros [|e2 l2] z H; try discriminate;
    [reflexivity|].
  cbn in H. injection H as He Hl. cbn. rewrite He. now apply IH.
Qed.

(** For every principal, rate and term the schedule has exactly [termMonths]
    entries, numbered 1, 2, ..., all ['pending']; the first is due on the
    start date and each next one a frequency step later. *)
Theorem calculatePaymentSchedule_shape
    (principal interestRate : float) (termMonths : nat) (paymentFrequency : string)
    (startDate : moment) :
  let result := calculatePaymentSchedule moment add format Math_pow principal
                  interestRate termMonths paymentFrequency startDate in
  List.length (schedule result) = termMonths
  /\ map payment_number (schedule result) = seq 1 termMonths
  /\ map due_date (schedule result)
     = map format (payment_dates termMonths paymentFrequency startDate)
  /\ Forall (fun e => entry_status e = "pending") (schedule result).
Proof.
  intro result. subst result. unfold calculatePaymentSchedule. cbv zeta.
  cbn [schedule].
  match goal with
  | |- context [schedule_loop moment add format termMonths 1 termMonths ?r ?p
                  paymentFrequency principal startDate] =>
      destruct (schedule_loop_shape termMonths 1 termMonths r p paymentFrequency
                  principal startDate) as [H1 [H2 H3]]
  end.
  split; [|split; [exact H1 | split; [exact H2 | exact H3]]].
  rewrite <- (length_map payment_number), H1. apply length_seq.
Qed.

Lemma schedule_loop_column (g : schedule_entry -> float)
    (h : nat * float * float * float * float * string -> float)
    (remaining i termMonths : nat) (monthlyRate monthlyPayment_ : float)
    (f1 f2 : string) (remainingBalance : float) (d1 d2 : moment) :
  (forall e, g e = h (entry_amounts e)) ->
  map g (schedule_loop moment add format remaining i termMonths monthlyRate
           monthlyPayment_ f1 remainingBalance d1)
  = map g (schedule_loop moment add format remaining i termMonths monthlyRate
             monthlyPayment_ f2 remainingBalance d2).
Proof.
  intro Hg.
  rewrite !(map_ext g (fun e => h (entry_amounts e)) Hg).
  rewrite <- (map_map entry_amounts h), <- (map_map entry_amounts h).
  f_equal. apply schedule_loop_amounts.
Qed.

(** The [default] branch of the [switch] adds a month. *)
Lemma schedule_loop_default_frequency (paymentFrequency : string)
    (remaining i termMonths : nat) (monthlyRate monthlyPayment_ : float)
    (remainingBalance : float) (currentDate : moment) :
  existsb (String.eqb paymentFrequency) ["weekly"; "bi_weekly"; "monthly"; "quarterly"]
  = false ->
  schedule_loop moment add format remaining i termMonths monthlyRate monthlyPayment_
    "monthly" remainingBalance currentDate
  = schedule_loop moment add format remaining i termMonths monthlyRate monthlyPayment_
      paymentFrequency remainingBalance currentDate.
Proof.
  intro Hother.
  assert (Hnext : forall d, next_payment_date moment add "monthly" d
                            = next_payment_date moment add paymentFrequency d).
  { intro d. unfold next_payment_date. cbn [existsb] in Hother.
    destruct (String.eqb paymentFrequency "weekly"); [discriminate|].
    destruct (String.eqb paymentFrequency "bi_weekly"); [discriminate|].
    destruct (String.eqb paymentFrequency "monthly"); [discriminate|].
    destruct (String.eqb paymentFrequency "quarterly"); [discriminate|].
    reflexivity. }
  revert i remainingBalance currentDate.
  induction remaining as [|remaining IH]; intros i b d; [reflexivity|].
  cbn [schedule_loop]. cbv zeta. rewrite Hnext.
  destruct (Nat.eqb i termMonths && _)%bool; f_equal; apply IH.
Qed.

(** The payment frequency and the start date only move the due dates: the
    periodic payment, the totals and every amount of every entry are the same
    for any two frequencies and start dates, so a weekly loan is charged the
    monthly rate per period over [termMonths] periods.  A frequency outside the
    four known ones gives the monthly schedule. *)
Theorem calculatePaymentSchedule_frequency_only_moves_dates
    (principal interestRate : float) (termMonths : nat) (f1 f2 : string)
    (d1 d2 : moment) :
  let r1 := calculatePaymentSchedule moment add format Math_pow principal interestRate
              termMonths f1 d1 in
  let r2 := calculatePaymentSchedule moment add format Math_pow principal interestRate
              termMonths f2 d2 in
  monthlyPayment r1 = monthlyPayment r2
  /\ totalAmount r1 = totalAmount r2
  /\ totalInterest r1 = totalInterest r2
  /\ map entry_amounts (schedule r1) = map entry_amounts (schedule r2)
  /\ (existsb (String.eqb f1) ["weekly"; "bi_weekly"; "monthly"; "quarterly"] = false ->
      calculatePaymentSchedule moment add format Math_pow principal interestRate
        termMonths "monthly" d1 = r1).
Proof.
  intros r1 r2. subst r1 r2. unfold calculatePaymentSchedule. cbv zeta.
  cbn [monthlyPayment totalAmount totalInterest schedule].
  split; [reflexivity|].
  split.
  { f_equal. apply sum_by_column.
    apply (schedule_loop_column payment_amount
             (fun t => snd (fst (fst (fst (fst t)))))).
    reflexivity. }
  split.
  { f_equal. apply sum_by_column.
    apply (schedule_loop_column interest_amount (fun t => snd (fst (fst t)))).
    reflexivity. }
  split; [apply schedule_loop_amounts|].
  intro Hother.
  rewrite (schedule_loop_default_frequency f1 termMonths 1 termMonths _ _ principal d1
             Hother).
  reflexivity.
Qed.
End ScheduleShape.

(** ** [savePaymentSchedule] and [getPaymentSchedule] *)

From Stdlib Require Import Permutation Sorted.

(** [loan_payment_schedules]: the columns [savePaymentSchedule] writes, as
    the application id and the entry. *)
Definition payment_schedules := list (Z * schedule_entry).

(** [LoanService.savePaymentSchedule(client, applicationId, schedule)]: the
    [DELETE ... WHERE loan_application_id = $1], then one [INSERT] per entry in
    the order of the array.  [updatePaymentSchedule] is the same call. *)
Definition savePaymentSchedule (applicationId : Z) (entries : list schedule_entry)
    (table : payment_schedules) : payment_schedules :=
  fold_left (fun t payment => t ++ [(applicationId, payment)]) entries
    (filter (fun r => negb (fst r =? applicationId)) table).

Definition updatePaymentSchedule (applicationId : Z) (entries : list schedule_entry)
    (table : payment_schedules) : payment_schedules :=
  savePaymentSchedule applicationId entries table.










(** ** Comparisons of numbers *)

Section FloatOrder.
Local Open Scope float_scope.

Lemma SFcompare_flip (a b : spec_float) :
  SFcompare b a = option_map CompOpp (SFcompare a b).
Proof.
  destruct a as [sa|sa| |sa ma ea], b as [sb|sb| |sb mb eb]; cbn;
    try reflexivity;
    try (destruct sa; reflexivity); try (destruct sb; reflexivity);
    try (destruct sa, sb; reflexivity).
  change (Pos.compare_cont Eq ma mb) with (Pos.compare ma mb).
  change (Pos.compare_cont Eq mb ma) with (Pos.compare mb ma).
  rewrite (Z.compare_antisym ea eb), (Pos.compare_antisym ma mb).
  destruct sa, sb; try reflexivity;
    destruct (ea ?= eb)%Z; cbn; try reflexivity;
    destruct (ma ?= mb)%positive; reflexivity.
Qed.

Lemma SFcompare_refl (a : spec_float) :
  a <> S754_nan -> SFcompare a a = Some Eq.
Proof.
  destruct a as [sa|sa| |sa ma ea]; intro H; cbn.
  - reflexivity.
  - now destruct sa.
  - now destruct H.
  - change (Pos.compare_cont Eq ma ma) with (Pos.compare ma ma).
    rewrite Z.compare_refl, Pos.compare_refl. now destruct sa.
Qed.

Lemma is_nan_spec (x : float) : is_nan x = true <-> Prim2SF x = S754_nan.
Proof.
  unfold is_nan. rewrite FloatAxioms.eqb_spec. unfold SFeqb. split.
  - intro H. destruct (Prim2SF x) as [s|s| |s m e] eqn:E; [| |reflexivity|];
      rewrite SFcompare_refl in H by discriminate; discriminate.
  - intros ->. reflexivity.
Qed.

(** [y < x] is the negation of [x <= y] unless one of them is [NaN]. *)
Lemma ltb_negb_leb (x y : float) :
  is_nan x = false -> is_nan y = false -> (y <? x) = negb (x <=? y).
Proof.
  intros Hx Hy.
  assert (Hx' : Prim2SF x <> S754_nan)
    by (intro H; apply is_nan_spec in H; congruence).
  assert (Hy' : Prim2SF y <> S754_nan)
    by (intro H; apply is_nan_spec in H; congruence).
  rewrite ltb_spec, leb_spec. unfold SFltb, SFleb.
  rewrite (SFcompare_flip (Prim2SF x) (Prim2SF y)).
  destruct (Prim2SF x) as [sa|sa| |sa ma ea], (Prim2SF y) as [sb|sb| |sb mb eb];
    try (now destruct Hx'); try (now destruct Hy');
    match goal with
    | |- context [SFcompare ?a ?b] => destruct (SFcompare a b) as [[]|] eqn:E
    end; try reflexivity; discriminate E.
Qed.

Lemma falsy_spec (x : float) :
  JsMath.falsy x = false <-> is_nan x = false /\ (x =? 0) = false.
Proof.
  unfold JsMath.falsy. rewrite orb_false_iff. tauto.
Qed.

Lemma leb_as_ltb (x y : float) : (x =? y) = false -> (x <=? y) = (x <? y).
Proof.
  rewrite FloatAxioms.eqb_spec, leb_spec, ltb_spec. unfold SFeqb, SFleb, SFltb.
  destruct (SFcompare (Prim2SF x) (Prim2SF y)) as [[]|]; intro H;
    try reflexivity; discriminate.
Qed.

Lemma ltb_not_falsy (x : float) : (0 <? x) = true -> JsMath.falsy x = false.
Proof.
  intro H. apply falsy_spec. rewrite ltb_spec in H.
  unfold is_nan. rewrite !FloatAxioms.eqb_spec.
  change (Prim2SF 0) with (S754_zero false) in *.
  destruct (Prim2SF x) as [s|s| |s m e] eqn:E; try discriminate H.
  - destruct s; [discriminate H|]. split; reflexivity.
  - destruct s; [discriminate H|]. split; [|reflexivity].
    unfold SFeqb. now rewrite SFcompare_refl.
Qed.
End FloatOrder.

(** ** Validation of application data *)

Module Validation.
Import Ascii.
Local Open Scope float_scope.

(** The properties of [applicationData] / [updateData] the validators read;
    [None] is an absent ([undefined] or [null]) property.  Numbers are numbers
    and strings are strings, as the schemas of the routes ensure. *)
Record application_data := mk {
  customer_id : option float;
  loan_product_id : option float;
  requested_amount : option float;
  term_months : option float;
  purpose : option string;
  employment_status : option string;
  monthly_income : option float;
  collateral_type : option string;
  collateral_value : option float
}.

(** [!v] on an optional number and on an optional string. *)
Definition not_number (v : option float) : bool :=
  match v with
  | None => true
  | Some x => JsMath.falsy x
  end.

Definition not_string (v : option string) : bool :=
  match v with
  | None => true
  | Some s => String.eqb s ""
  end.

(** The operand of a comparison: [undefined] converts to [NaN]. *)
Definition number (v : option float) : float :=
  match v with
  | Some x => x
  | None => nan
  end.

(** [field.replace('_', ' ')]: a string pattern replaces the first match only. *)
Fixpoint replace_first (c by_ : Ascii.ascii) (s : string) : string :=
  match s with
  | EmptyString => EmptyString
  | String a rest =>
      if Ascii.eqb a c then String by_ rest
      else String a (replace_first c by_ rest)
  end.

(** The [required] array, each name with [!applicationData[field]]. *)
Definition required (d : application_data) : list (string * bool) :=
  [("customer_id", not_number (customer_id d));
   ("loan_product_id", not_number (loan_product_id d));
   ("requested_amount", not_number (requested_amount d));
   ("term_months", not_number (term_months d));
   ("purpose", not_string (purpose d));
   ("employment_status", not_string (employment_status d));
   ("monthly_income", not_number (monthly_income d))].

(** The first field the [for] loop throws at. *)
Definition first_missing (fields : list (string * bool)) : option string :=
  option_map fst (find snd fields).

(** [LoanService.validateLoanApplication(applicationData)]: the message of
    the [Error] it throws, [None] when it returns. *)
Definition validateLoanApplication (d : application_data) : option string :=
  match first_missing (required d) with
  | Some field => Some (String.append (replace_first "_"%char " "%char field) " is required")
  | None =>
      if number (requested_amount d) <=? 0 then
        Some "Requested amount must be greater than zero"
      else if (number (term_months d) <=? 0) || (240 <? number (term_months d)) then
        Some "Term months must be between 1 and 240"
      else if number (monthly_income d) <=? 0 then
        Some "Monthly income must be greater than zero"
      else if negb (not_string (collateral_type d))
              && negb (match collateral_type d with
                       | Some t => String.eqb t "none"
                       | None => false
                       end)
              && (not_number (collateral_value d)
                  || (number (collateral_value d) <=? 0)) then
        Some "Collateral value is required when collateral type is specified"
      else None
  end.

(** [LoanService.validateLoanApplicationUpdate(updateData)] *)
Definition validateLoanApplicationUpdate (d : application_data) : option string :=
  if negb (not_number (requested_amount d)) && (number (requested_amount d) <=? 0) then
    Some "Requested amount must be greater than zero"
  else if negb (not_number (term_months d))
          && ((number (term_months d) <=? 0) || (240 <? number (term_months d))) then
    Some "Term months must be between 1 and 240"
  else if negb (not_number (monthly_income d)) && (number (monthly_income d) <=? 0) then
    Some "Monthly income must be greater than zero"
  else None.

(** A number that is present and above zero. *)
Definition positive (v : option float) : bool :=
  match v with
  | Some x => 0 <? x
  | None => false
  end.

(** A term that is present, above zero and at most 240. *)
Definition term_in_range (v : option float) : bool :=
  match v with
  | Some t => (0 <? t) && (t <=? 240)
  | None => false
  end.

(** No collateral type, the empty one or ['none']. *)
Definition without_collateral (v : option string) : bool :=
  match v with
  | None => true
  | Some t => String.eqb t "" || String.eqb t "none"
  end.
End Validation.

Section ValidationFacts.
Import Validation.
Local Open Scope float_scope.

Lemma truthy_leb_zero (x : float) :
  JsMath.falsy x = false -> (x <=? 0) = negb (0 <? x).
Proof.
  intro H. apply falsy_spec in H. destruct H as [Hnan _].
  rewrite (ltb_negb_leb x 0 Hnan eq_refl). now rewrite negb_involutive.
Qed.

Lemma truthy_above_240 (x : float) :
  JsMath.falsy x = false -> (240 <? x) = negb (x <=? 240).
Proof.
  intro H. apply falsy_spec in H. destruct H as [Hnan _].
  exact (ltb_negb_leb x 240 Hnan eq_refl).
Qed.

Lemma positive_present (v : option float) :
  positive v = true -> not_number v = false.
Proof.
  destruct v as [x|]; [|discriminate]. cbn. apply ltb_not_falsy.
Qed.

Lemma present_not_above_zero (v : option float) :
  not_number v = false -> (number v <=? 0) = negb (positive v).
Proof.
  destruct v as [x|]; [|discriminate]. cbn. apply truthy_leb_zero.
Qed.

Lemma present_term (v : option float) :
  not_number v = false ->
  (number v <=? 0) || (240 <? number v) = negb (term_in_range v).
Proof.
  destruct v as [x|]; [|discriminate]. cbn. intro H.
  rewrite (truthy_leb_zero x H), (truthy_above_240 x H).
  now rewrite negb_andb.
Qed.

(** [validateLoanApplication] returns exactly when the two ids are non-zero
    numbers, the purpose and the employment status are non-empty, the amount
    and the income are above zero, the term is above zero and at most 240, and
    either there is no collateral type (absent, empty or 'none') or the
    collateral value is above zero.  Nothing asks the ids or the term to be
    whole numbers, or any number to be finite. *)
Theorem validateLoanApplication_accepts (d : application_data) :
  validateLoanApplication d = None
  <-> not_number (customer_id d) = false
      /\ not_number (loan_product_id d) = false
      /\ positive (requested_amount d) = true
      /\ term_in_range (term_months d) = true
      /\ not_string (purpose d) = false
      /\ not_string (employment_status d) = false
      /\ positive (monthly_income d) = true
      /\ (without_collateral (collateral_type d) = true
          \/ positive (collateral_value d) = true).
Proof.
  unfold validateLoanApplication, first_missing, required. cbn [find snd fst option_map].
  destruct (not_number (customer_id d)) eqn:E1;
    [split; [discriminate | intros [H _]; discriminate]|].
  destruct (not_number (loan_product_id d)) eqn:E2;
    [split; [discriminate | intros [_ [H _]]; discriminate]|].
  destruct (not_number (requested_amount d)) eqn:E3.
  { split; [discriminate|]. intros [_ [_ [H _]]].
    apply positive_present in H. congruence. }
  destruct (not_number (term_months d)) eqn:E4.
  { split; [discriminate|]. intros [_ [_ [_ [H _]]]].
    destruct (term_months d) as [t|]; [|discriminate]. cbn in H, E4.
    apply andb_prop in H. destruct H as [H _]. apply ltb_not_falsy in H. congruence. }
  destruct (not_string (purpose d)) eqn:E5;
    [split; [discriminate | intros [_ [_ [_ [_ [H _]]]]]; discriminate]|].
  destruct (not_string (employment_status d)) eqn:E6;
    [split; [discriminate | intros [_ [_ [_ [_ [_ [H _]]]]]]; discriminate]|].
  destruct (not_number (monthly_income d)) eqn:E7.
  { split; [discriminate|]. intros [_ [_ [_ [_ [_ [_ [H _]]]]]]].
    apply positive_present in H. congruence. }
  cbn [option_map].
  rewrite (present_not_above_zero _ E3), (present_term _ E4),
    (present_not_above_zero _ E7).
  destruct (positive (requested_amount d));
    [|split; [discriminate | intros [_ [_ [H _]]]; discriminate]].
  destruct (term_in_range (term_months d));
    [|split; [discriminate | intros [_ [_ [_ [H _]]]]; discriminate]].
  destruct (positive (monthly_income d));
    [|split; [discriminate | intros [_ [_ [_ [_ [_ [_ [H _]]]]]]]; discriminate]].
  cbn [negb].
  assert (Hcol : negb (not_string (collateral_type d))
                 && negb (match collateral_type d with
                          | Some t => String.eqb t "none"
                          | None => false
                          end)
                 = negb (without_collateral (collateral_type d))).
  { destruct (collateral_type d) as [t|]; [|reflexivity]. cbn.
    now rewrite negb_orb. }
  rewrite Hcol.
  destruct (without_collateral (collateral_type d)); cbn [negb andb].
  { split; [|reflexivity]. intros _. repeat (split; [reflexivity|]). now left. }
  destruct (not_number (collateral_value d)) eqn:E8; cbn [orb].
  { split; [discriminate|]. intros [_ [_ [_ [_ [_ [_ [_ [H | H]]]]]]]];
      [discriminate|]. apply positive_present in H. congruence. }
  rewrite (present_not_above_zero _ E8).
  destruct (positive (collateral_value d)); cbn [negb].
  - split; [|reflexivity]. intros _. repeat (split; [reflexivity|]). now right.
  - split; [discriminate|]. intros [_ [_ [_ [_ [_ [_ [_ [H | H]]]]]]]]; discriminate.
Qed.

(** Which message a bad amount gets: the loop over the required fields runs
    first and treats [0] and [NaN] as missing, so a zero amount is reported as
    'requested amount is required' and 'Requested amount must be greater than
    zero' is thrown for negative amounts only.  The field name in the message
    has its first underscore replaced, not all: 'loan product_id is required'. *)
Theorem validateLoanApplication_messages (d : application_data) :
  (not_number (customer_id d) = false ->
   not_number (loan_product_id d) = true ->
   validateLoanApplication d = Some "loan product_id is required")
  /\ (not_number (customer_id d) = false ->
      not_number (loan_product_id d) = false ->
      not_number (requested_amount d) = true ->
      validateLoanApplication d = Some "requested amount is required")
  /\ (validateLoanApplication d = Some "Requested amount must be greater than zero" ->
      exists x, requested_amount d = Some x /\ (x <? 0) = true).
Proof.
  unfold validateLoanApplication, first_missing, required. cbn [find snd fst option_map].
  split; [|split].
  - intros -> ->. reflexivity.
  - intros -> -> ->. reflexivity.
  - destruct (not_number (customer_id d)); [discriminate|].
    destruct (not_number (loan_product_id d)); [discriminate|].
    destruct (not_number (requested_amount d)) eqn:E3; [discriminate|].
    destruct (not_number (term_months d)); [discriminate|].
    destruct (not_string (purpose d)); [discriminate|].
    destruct (not_string (employment_status d)); [discriminate|].
    destruct (not_number (monthly_income d)); [discriminate|].
    cbn [option_map].
    destruct (requested_amount d) as [x|]; [|discriminate E3]. cbn in E3 |- *.
    apply falsy_spec in E3. destruct E3 as [_ Hzero].
    rewrite (leb_as_ltb x 0 Hzero).
    destruct (x <? 0) eqn:Hneg; [intros _; now exists x|].
    destruct (_ || _); [discriminate|].
    destruct (_ <=? _); [discriminate|].
    destruct (_ && _); discriminate.
Qed.

(** An application without product and, next to it, one with a zero amount. *)
Lemma validateLoanApplication_messages_witness :
  validateLoanApplication
    (mk (Some 7) None (Some 1000) (Some 12) (Some "stock") (Some "employed")
        (Some 500) None None)
  = Some "loan product_id is required"
  /\ validateLoanApplication
       (mk (Some 7) (Some 2) (Some 0) (Some 12) (Some "stock") (Some "employed")
           (Some 500) None None)
     = Some "requested amount is required".
Proof.
  split.
  - refine (proj1 (validateLoanApplication_messages _) _ _); reflexivity.
  - refine (proj1 (proj2 (validateLoanApplication_messages _)) _ _ _); reflexivity.
Defined.

(** [validateLoanApplicationUpdate] skips every field that is absent, zero
    or [NaN]: it returns exactly when each of amount, term and income is one
    of those or in range.  So it accepts all that [validateLoanApplication]
    accepts, and also an update that sets amount, term and income to zero. *)
Theorem validateLoanApplicationUpdate_accepts (d : application_data) :
  (validateLoanApplicationUpdate d = None
   <-> (not_number (requested_amount d) || positive (requested_amount d))
       && (not_number (term_months d) || term_in_range (term_months d))
       && (not_number (monthly_income d) || positive (monthly_income d)) = true)
  /\ (validateLoanApplication d = None -> validateLoanApplicationUpdate d = None)
  /\ validateLoanApplicationUpdate
       (mk (customer_id d) (loan_product_id d) (Some 0) (Some 0) (purpose d)
           (employment_status d) (Some 0) (collateral_type d) (collateral_value d))
     = None.
Proof.
  assert (Hiff : validateLoanApplicationUpdate d = None
                 <-> (not_number (requested_amount d) || positive (requested_amount d))
                     && (not_number (term_months d) || term_in_range (term_months d))
                     && (not_number (monthly_income d) || positive (monthly_income d))
                     = true).
  { unfold validateLoanApplicationUpdate.
    destruct (not_number (requested_amount d)) eqn:E3; cbn [negb andb orb].
    - destruct (not_number (term_months d)) eqn:E4; cbn [negb andb orb].
      + destruct (not_number (monthly_income d)) eqn:E7; cbn [negb andb orb].
        * split; reflexivity.
        * rewrite (present_not_above_zero _ E7).
          destruct (positive (monthly_income d)); cbn; split; congruence.
      + rewrite (present_term _ E4).
        destruct (term_in_range (term_months d)); cbn [negb andb];
          [|split; discriminate].
        destruct (not_number (monthly_income d)) eqn:E7; cbn [negb andb orb].
        * split; reflexivity.
        * rewrite (present_not_above_zero _ E7).
          destruct (positive (monthly_income d)); cbn; split; congruence.
    - rewrite (present_not_above_zero _ E3).
      destruct (positive (requested_amount d)); cbn [negb andb];
        [|split; discriminate].
      destruct (not_number (term_months d)) eqn:E4; cbn [negb andb orb].
      + destruct (not_number (monthly_income d)) eqn:E7; cbn [negb andb orb].
        * split; reflexivity.
        * rewrite (present_not_above_zero _ E7).
          destruct (positive (monthly_income d)); cbn; split; congruence.
      + rewrite (present_term _ E4).
        destruct (term_in_range (term_months d)); cbn [negb andb];
          [|split; discriminate].
        destruct (not_number (monthly_income d)) eqn:E7; cbn [negb andb orb].
        * split; reflexivity.
        * rewrite (present_not_above_zero _ E7).
          destruct (positive (monthly_income d)); cbn; split; congruence. }
  split; [exact Hiff|]. split; [|reflexivity].
  intro Hvalid. apply Hiff.
  unfold validateLoanApplication, first_missing, required in Hvalid.
  cbn [find snd fst option_map] in Hvalid.
  destruct (not_number (customer_id d)); [discriminate|].
  destruct (not_number (loan_product_id d)); [discriminate|].
  destruct (not_number (requested_amount d)) eqn:E3; [discriminate|].
  destruct (not_number (term_months d)) eqn:E4; [discriminate|].
  destruct (not_string (purpose d)); [discriminate|].
  destruct (not_string (employment_status d)); [discriminate|].
  destruct (not_number (monthly_income d)) eqn:E7; [discriminate|].
  cbn [option_map] in Hvalid.
  rewrite (present_not_above_zero _ E3), (present_term _ E4),
    (present_not_above_zero _ E7) in Hvalid.
  destruct (positive (requested_amount d)); [|discriminate].
  destruct (term_in_range (term_months d)); [|discriminate].
  destruct (positive (monthly_income d)); [|discriminate].
  reflexivity.
Qed.
End ValidationFacts.

(** ** Ranges of the risk scores *)

Section RiskRanges.
Import Risk.
Local Open Scope float_scope.


(** Closes a membership goal whose element and list are numerals. *)
Ltac pick_value :=
  vm_compute; repeat (first [left; reflexivity | right]).

Ltac split_tests :=
  repeat match goal with
  | |- context [if ?c then _ else _] => destruct c
  end.

Lemma assessExistingLoans_values (existingDebts monthlyIncome : float) :
  In (assessExistingLoans existingDebts monthlyIncome) [100; 80; 60; 40; 20].
Proof. unfold assessExistingLoans. cbv zeta. split_tests; pick_value. Qed.

Lemma assessDebtToIncomeRatio_values (existingDebts monthlyIncome : float) :
  In (assessDebtToIncomeRatio existingDebts monthlyIncome) [100; 90; 75; 60; 40; 20].
Proof. unfold assessDebtToIncomeRatio. cbv zeta. split_tests; pick_value. Qed.

Lemma assessEmploymentHistory_values (employmentStatus : string) :
  In (assessEmploymentHistory employmentStatus) [90; 75; 70; 10; 40; 50].
Proof. unfold assessEmploymentHistory. split_tests; pick_value. Qed.

Lemma assessGuarantorStrength_values (guarantorName guarantorPhone : option string) :
  In (assessGuarantorStrength guarantorName guarantorPhone) [40; 70].
Proof. unfold assessGuarantorStrength. split_tests; pick_value. Qed.

Lemma assessKYCCompleteness_values (kycStatus : string) (at_ : option timestamp) :
  In (assessKYCCompleteness kycStatus at_) [100; 50; 0; 20].
Proof. unfold assessKYCCompleteness. split_tests; pick_value. Qed.

Lemma assessIncomeStability_values (employmentStatus : string) (monthlyIncome : float) :
  In (assessIncomeStability employmentStatus monthlyIncome)
     [95; 90; 85; 80; 75; 70; 65; 60; 50; 45; 40; 35; 30; 25; 20; 10].
Proof. unfold assessIncomeStability. cbv zeta. split_tests; pick_value. Qed.

Lemma calculateFraudScore_values (application : application_row) :
  In (calculateFraudScore application) [0; 10; 30; 40].
Proof. unfold calculateFraudScore. cbv zeta. split_tests; pick_value. Qed.

(** The values of the collateral factor: 20, 30 and the products of a
    coverage score with a type multiplier, capped at 100. *)
Definition collateral_values : list float :=
  20 :: 30
  :: flat_map (fun score => map (fun multiplier => JsMath.min 100 (score * multiplier))
                              [1.2; 1.1; 1.0; 0.9; 0.8; 0.7; 0.6])
       [100; 90; 80; 70; 60; 40].

(** The branch of [assessCollateralValue] for a collateral type other than
    [''] and ['none']. *)
Definition collateral_score (ty : string) (collateralValue loanAmount : float) : float :=
  if JsMath.falsy collateralValue || (collateralValue =? 0) then 30
  else
    let collateralRatio := (collateralValue / loanAmount) * 100 in
    let typeMultiplier :=
      if String.eqb ty "property" then 1.2
      else if String.eqb ty "fixed_deposit" then 1.1
      else if String.eqb ty "gold" then 1.0
      else if String.eqb ty "vehicle" then 0.9
      else if String.eqb ty "business_assets" then 0.8
      else if String.eqb ty "guarantee" then 0.7
      else 0.6 in
    let score :=
      if 150 <=? collateralRatio then 100
      else if 120 <=? collateralRatio then 90
      else if 100 <=? collateralRatio then 80
      else if 80 <=? collateralRatio then 70
      else if 60 <=? collateralRatio then 60
      else 40 in
    JsMath.min 100 (score * typeMultiplier).

(** One more character of the collateral type. *)
Ltac next_char s :=
  destruct s as [|[[] [] [] [] [] [] [] []] s]; try reflexivity; try discriminate.

Lemma assessCollateralValue_cases (collateralType : option string)
    (collateralValue loanAmount : float) :
  assessCollateralValue collateralType collateralValue loanAmount = 20
  \/ exists ty, collateralType = Some ty
                /\ assessCollateralValue collateralType collateralValue loanAmount
                   = collateral_score ty collateralValue loanAmount.
Proof.
  destruct collateralType as [ty|]; [|now left].
  destruct (String.eqb ty "") eqn:E1; [apply String.eqb_eq in E1; subst; now left|].
  destruct (String.eqb ty "none") eqn:E2; [apply String.eqb_eq in E2; subst; now left|].
  right. exists ty. split; [reflexivity|].
  unfold assessCollateralValue, collateral_score.
  next_char ty. next_char ty. next_char ty. next_char ty. next_char ty.
Qed.

Lemma assessCollateralValue_values (collateralType : option string)
    (collateralValue loanAmount : float) :
  In (assessCollateralValue collateralType collateralValue loanAmount)
     collateral_values.
Proof.
  destruct (assessCollateralValue_cases collateralType collateralValue loanAmount)
    as [-> | [ty [_ ->]]]; [now left|].
  unfold collateral_score. cbv zeta. split_tests; pick_value.
Qed.

Definition placeholder_overall (loans income dti employment collateral guarantor kyc : float)
    : float :=
  calculateOverallRiskScore
    (nine_scores 50 60 loans income dti employment collateral guarantor kyc).


(** The pairs of income-stability and employment-history scores: both come
    from the employment status, the first moves with the income band. *)
Definition employment_pairs : list (float * float) :=
  flat_map (fun base_history =>
              map (fun adjust => (JsMath.max 0 (JsMath.min 100 (fst base_history + adjust)),
                                  snd base_history))
                  [10; 5; -10; 0])
    [(85, 90); (70, 75); (60, 70); (20, 10); (30, 40); (40, 50)].

Lemma employment_scores_values (employmentStatus : string) (monthlyIncome : float) :
  In (assessIncomeStability employmentStatus monthlyIncome,
      assessEmploymentHistory employmentStatus)
     employment_pairs.
Proof.
  unfold assessIncomeStability, assessEmploymentHistory. cbv zeta.
  split_tests; pick_value.
Qed.

(** The weighted mean of the nine scores, as the loop computes it. *)
Definition weighted_mean (s1 s2 s3 s4 s5 s6 s7 s8 s9 : float) : float :=
  JsMath.round
    ((0 + s1 * 0.25 + s2 * 0.20 + s3 * 0.15 + s4 * 0.15 + s5 * 0.10
      + s6 * 0.05 + s7 * 0.05 + s8 * 0.03 + s9 * 0.02)
     / (0 + 0.25 + 0.20 + 0.15 + 0.15 + 0.10 + 0.05 + 0.05 + 0.03 + 0.02)).

Lemma placeholder_overall_mean
    (loans income dti employment collateral guarantor kyc : float) :
  placeholder_overall loans income dti employment collateral guarantor kyc
  = weighted_mean 50 60 loans income dti employment collateral guarantor kyc.
Proof. reflexivity. Qed.

(** A score between 34 and 77, hence below the 90 of ['very_low']. *)
Definition overall_in_range (x : float) : bool :=
  (34 <=? x) && (x <=? 77) && negb (90 <=? x).

(** Every combination of factor values gives a score in the range; the sum
    is built up factor by factor as the loops descend. *)
Lemma all_combinations_in_range :
  forallb (fun loans =>
    let sum3 := 0 + 50 * 0.25 + 60 * 0.20 + loans * 0.15 in
  forallb (fun employment =>
    let sum4 := sum3 + fst employment * 0.15 in
  forallb (fun dti =>
    let sum6 := sum4 + dti * 0.10 + snd employment * 0.05 in
  forallb (fun collateral =>
    let sum7 := sum6 + collateral * 0.05 in
  forallb (fun guarantor =>
    let sum8 := sum7 + guarantor * 0.03 in
  forallb (fun kyc =>
    overall_in_range
      (JsMath.round
         ((sum8 + kyc * 0.02)
          / (0 + 0.25 + 0.20 + 0.15 + 0.15 + 0.10 + 0.05 + 0.05 + 0.03 + 0.02))))
    [100; 50; 0; 20])
    [40; 70])
    collateral_values)
    [100; 90; 75; 60; 40; 20])
    employment_pairs)
    [100; 80; 60; 40; 20]
  = true.
Proof. vm_cast_no_check (eq_refl true). Qed.

Lemma combination_in_range
    (loans income dti employment collateral guarantor kyc : float) :
  In loans [100; 80; 60; 40; 20] ->
  In (income, employment) employment_pairs ->
  In dti [100; 90; 75; 60; 40; 20] ->
  In collateral collateral_values ->
  In guarantor [40; 70] ->
  In kyc [100; 50; 0; 20] ->
  overall_in_range
    (placeholder_overall loans income dti employment collateral guarantor kyc) = true.
Proof.
  intros H1 H2 H3 H4 H5 H6. rewrite placeholder_overall_mean.
  pose proof (proj1 (forallb_forall _ _) all_combinations_in_range _ H1) as Ha.
  cbv beta zeta in Ha.
  pose proof (proj1 (forallb_forall _ _) Ha _ H2) as Hb. cbv beta zeta in Hb.
  pose proof (proj1 (forallb_forall _ _) Hb _ H3) as Hc. cbv beta zeta in Hc.
  pose proof (proj1 (forallb_forall _ _) Hc _ H4) as Hd. cbv beta zeta in Hd.
  pose proof (proj1 (forallb_forall _ _) Hd _ H5) as He. cbv beta zeta in He.
  pose proof (proj1 (forallb_forall _ _) He _ H6) as Hf. cbv beta zeta in Hf.
  exact Hf.
Qed.

(** Seven of the nine factor scores, and the fraud score, take one of a few
    fixed values whatever the numbers are, [NaN], infinite and negative ones
    included: a comparison that fails falls through to the last band. *)
Theorem factor_scores_from_fixed_sets
    (existingDebts monthlyIncome collateralValue loanAmount : float)
    (employmentStatus kycStatus : string)
    (collateralType guarantorName guarantorPhone : option string)
    (kycApprovedAt : option timestamp) (application : application_row) :
  In (assessExistingLoans existingDebts monthlyIncome) [100; 80; 60; 40; 20]
  /\ In (assessIncomeStability employmentStatus monthlyIncome)
        [95; 90; 85; 80; 75; 70; 65; 60; 50; 45; 40; 35; 30; 25; 20; 10]
  /\ In (assessDebtToIncomeRatio existingDebts monthlyIncome) [100; 90; 75; 60; 40; 20]
  /\ In (assessEmploymentHistory employmentStatus) [90; 75; 70; 10; 40; 50]
  /\ In (assessCollateralValue collateralType collateralValue loanAmount)
        collateral_values
  /\ In (assessGuarantorStrength guarantorName guarantorPhone) [40; 70]
  /\ In (assessKYCCompleteness kycStatus kycApprovedAt) [100; 50; 0; 20]
  /\ In (calculateFraudScore application) [0; 10; 30; 40].
Proof.
  split; [apply assessExistingLoans_values|].
  split; [apply assessIncomeStability_values|].
  split; [apply assessDebtToIncomeRatio_values|].
  split; [apply assessEmploymentHistory_values|].
  split; [apply assessCollateralValue_values|].
  split; [apply assessGuarantorStrength_values|].
  split; [apply assessKYCCompleteness_values|].
  apply calculateFraudScore_values.
Qed.

(** With the placeholder history the first two scores are constants. *)
Lemma calculateRiskFactorScores_placeholder (application : application_row)
    (customerId : Z) :
  calculateRiskFactorScores application (getCustomerFinancialHistory customerId)
  = nine_scores 50 60
      (assessExistingLoans (existing_debts application) (monthly_income application))
      (assessIncomeStability (employment_status application)
         (monthly_income application))
      (assessDebtToIncomeRatio (existing_debts application)
         (monthly_income application))
      (assessEmploymentHistory (employment_status application))
      (assessCollateralValue (collateral_type application)
         (collateral_value application) (requested_amount application))
      (assessGuarantorStrength (guarantor_name application)
         (guarantor_phone application))
      (assessKYCCompleteness (kyc_status application) (kyc_approved_at application)).
Proof. reflexivity. Qed.

Lemma placeholder_history_overall (application : application_row) :
  overall_in_range
    (calculateOverallRiskScore
       (calculateRiskFactorScores application
          (getCustomerFinancialHistory (Risk.customer_id application))))
  = true.
Proof.
  rewrite calculateRiskFactorScores_placeholder.
  apply combination_in_range.
  - apply assessExistingLoans_values.
  - apply employment_scores_values.
  - apply assessDebtToIncomeRatio_values.
  - apply assessCollateralValue_values.
  - apply assessGuarantorStrength_values.
  - apply assessKYCCompleteness_values.
Qed.

(** Every assessment [performRiskAssessment] returns has credit score 50 and
    payment-history score 60, because the financial history is a placeholder
    of zeros; with the fixed values of the other factors the overall score
    lies between 34 and 77, so no application is ever rated ['very_low']. *)
Theorem performRiskAssessment_score_range (now : timestamp) (random : nat -> float)
    (applicationId assessedBy : Z) (d d' : db) (saved : saved_assessment) :
  performRiskAssessment now random applicationId assessedBy d = (d', Returned saved) ->
  lookup "credit_score" (risk_factors saved) = Some 50
  /\ lookup "payment_history" (risk_factors saved) = Some 60
  /\ (34 <=? overall_score saved) = true
  /\ (overall_score saved <=? 77) = true
  /\ risk_level saved = determineRiskLevel (overall_score saved)
  /\ In (risk_level saved) ["low"; "medium"; "high"; "very_high"].
Proof.
  intro Hrun.
  destruct (filter (fun a => (Risk.id a =? applicationId)%Z) (application_rows d))
    as [|application rest] eqn:Happ.
  { rewrite (performRiskAssessment_not_found now random _ _ d Happ) in Hrun.
    discriminate. }
  rewrite (performRiskAssessment_returns now random _ _ d _ _ Happ) in Hrun.
  injection Hrun as _ <-.
  cbn [risk_factors overall_score risk_level].
  split; [reflexivity|]. split; [reflexivity|].
  pose proof (placeholder_history_overall application) as Hrange.
  unfold overall_in_range in Hrange.
  apply andb_prop in Hrange. destruct Hrange as [Hrange Hlevel].
  apply andb_prop in Hrange. destruct Hrange as [Hlow Hhigh].
  split; [exact Hlow|]. split; [exact Hhigh|]. split; [reflexivity|].
  apply negb_true_iff in Hlevel. unfold determineRiskLevel. rewrite Hlevel.
  repeat match goal with
  | |- context [if ?c then _ else _] => destruct c
  end; cbn; auto 6.
Qed.

(** On the database of the repository's orchestrator test. *)
Lemma performRiskAssessment_score_range_witness :
  let saved := mkSaved 555 1%Z 10%Z 76 "low"
                 (calculateRiskFactorScores test_application_row
                    (getCustomerFinancialHistory 10%Z))
                 (generateRecommendations "low"
                    (calculateRiskFactorScores test_application_row
                       (getCustomerFinancialHistory 10%Z))
                    test_application_row)
                 (generateAIInsights (fun _ => 0.5) test_application_row
                    (calculateRiskFactorScores test_application_row
                       (getCustomerFinancialHistory 10%Z)))
                 42%Z 1%Z in
  lookup "credit_score" (risk_factors saved) = Some 50
  /\ lookup "payment_history" (risk_factors saved) = Some 60
  /\ (34 <=? overall_score saved) = true
  /\ (overall_score saved <=? 77) = true
  /\ risk_level saved = determineRiskLevel (overall_score saved)
  /\ In (risk_level saved) ["low"; "medium"; "high"; "very_high"].
Proof.
  refine (performRiskAssessment_score_range 1%Z (fun _ => 0.5) 1%Z 42%Z test_risk_db _ _ _).
  reflexivity.
Defined.

(** Both ends of the range are reached: a debt-free employed applicant with
    a high income, well-covered property collateral, a guarantor and approved
    KYC scores 77; an unemployed applicant with a low income, heavy debts, no
    collateral, no guarantor and rejected KYC scores 34. *)
Example overall_score_range_is_reached :
  calculateOverallRiskScore
    (calculateRiskFactorScores
       (mkRow 1%Z 10%Z 100000 150000 0 "employed" (Some "property") 200000
              (Some "G") (Some "123") "approved" (Some 0%Z))
       (getCustomerFinancialHistory 10%Z)) = 77
  /\ calculateOverallRiskScore
       (calculateRiskFactorScores
          (mkRow 2%Z 11%Z 100000 10000 50000 "unemployed" None 0 None None "rejected" None)
          (getCustomerFinancialHistory 11%Z)) = 34.
Proof. split; reflexivity. Qed.


Lemma leb_nan (x score : float) : is_nan score = true -> (x <=? score) = false.
Proof.
  intro H. apply is_nan_spec in H. rewrite leb_spec, H. unfold SFleb.
  destruct (Prim2SF x); reflexivity.
Qed.

(** [determineRiskLevel] always gives one of the five levels, and
    ['very_high'] for a [NaN] score, every comparison being false.  For such a
    level [generateRecommendations] is never empty: it starts with the
    recommendation of the level, a rejection exactly for ['very_high'], and
    adds at most the three concerns on debt-to-income, collateral and income
    stability; a missing debt-to-income score counts as 0 and raises its
    concern. *)
Theorem generateRecommendations_of_level (score : float) (factors : scores)
    (application : application_row) :
  let level := determineRiskLevel score in
  let recs := generateRecommendations level factors application in
  In level ["very_low"; "low"; "medium"; "high"; "very_high"]
  /\ (is_nan score = true -> level = "very_high")
  /\ (exists first rest,
        recs = first :: rest
        /\ In (rec_type first) ["approval"; "conditional"; "review"; "rejection"]
        /\ (rec_type first = "rejection" <-> level = "very_high")
        /\ (List.length rest <= 3)%nat
        /\ Forall (fun r => In (rec_type r) ["concern"; "requirement"; "verification"])
                  rest)
  /\ (lookup "debt_to_income_ratio" factors = None ->
      In "concern" (map rec_type recs)).
Proof.
  intros level recs. subst level recs.
  split.
  { unfold determineRiskLevel.
    repeat match goal with
    | |- context [if ?c then _ else _] => destruct c
    end; cbn; auto 6. }
  split.
  { intro Hnan. unfold determineRiskLevel. now rewrite !(leb_nan _ _ Hnan). }
  split.
  { unfold determineRiskLevel, generateRecommendations.
    destruct (90 <=? score); [|destruct (75 <=? score);
      [|destruct (60 <=? score); [|destruct (40 <=? score)]]];
      cbn [String.eqb Ascii.eqb Bool.eqb app];
      (eexists; eexists; split; [reflexivity|]);
      (split; [cbn; auto 6|]);
      (split; [cbn; split; intro; (discriminate || reflexivity)|]);
      destruct (score_or_zero "debt_to_income_ratio" factors <? 60);
      destruct (score_or_zero "collateral_value" factors <? 50);
      destruct (score_or_zero "income_stability" factors <? 60);
      cbn; (split; [lia|]);
      repeat (apply Forall_cons; [cbn; auto 6|]); apply Forall_nil. }
  intro Hmissing. unfold generateRecommendations, score_or_zero.
  rewrite Hmissing. change (0 <? 60) with true. cbv iota.
  rewrite !map_app. apply in_or_app. right. apply in_or_app. left. now left.
Qed.

(** Entries that take part in the weighted sum. *)
Definition known_factor (entry : string * float) : bool :=
  match weight_of (fst entry) with
  | Some _ => true
  | None => false
  end.

Lemma accumulate_known (s : scores) (totalScore totalWeight : float) :
  accumulate s totalScore totalWeight
  = accumulate (filter known_factor s) totalScore totalWeight.
Proof.
  revert totalScore totalWeight.
  induction s as [|[factor score] s IH]; intros totalScore totalWeight; [reflexivity|].
  cbn [accumulate filter]. unfold known_factor at 1. cbn [fst].
  destruct (weight_of factor) as [w|] eqn:E; [|apply IH].
  cbn [accumulate]. rewrite E. apply IH.
Qed.

Lemma nan_add (y : float) : nan + y = nan.
Proof. apply nan_of_spec. rewrite add_spec. reflexivity. Qed.

Lemma accumulate_nan_weight (s : scores) (totalScore : float) :
  snd (accumulate s totalScore nan) = nan.
Proof.
  revert totalScore. induction s as [|[factor score] s IH]; intro totalScore;
    [reflexivity|].
  cbn [accumulate]. destruct (weight_of factor) as [w|]; [|apply IH].
  rewrite nan_add. apply IH.
Qed.

Lemma inherited_member_weight (factor : string) :
  In factor Object_prototype_members -> weight_of factor = Some nan.
Proof.
  intro H. unfold Object_prototype_members in H. cbn [In] in H.
  repeat (destruct H as [<- | H]; [reflexivity|]). destruct H.
Qed.

(** [calculateOverallRiskScore] skips every entry whose name is not a risk
    factor, and gives 50 when no entry is left.  An entry named after a member
    every object inherits (['constructor'], ['toString'], ...) is not skipped:
    its weight is [undefined], the sums become [NaN], and the result is 50
    whatever the other scores are. *)
Theorem calculateOverallRiskScore_unknown_factors (s : scores) :
  calculateOverallRiskScore s = calculateOverallRiskScore (filter known_factor s)
  /\ (filter known_factor s = [] -> calculateOverallRiskScore s = 50)
  /\ ((exists entry, In entry s /\ In (fst entry) Object_prototype_members) ->
      calculateOverallRiskScore s = 50).
Proof.
  assert (Hknown : calculateOverallRiskScore s
                   = calculateOverallRiskScore (filter known_factor s)).
  { unfold calculateOverallRiskScore. now rewrite accumulate_known. }
  split; [exact Hknown|]. split.
  { intro Hnone. rewrite Hknown, Hnone. reflexivity. }
  intros [entry [Hin Hmember]]. clear Hknown.
  assert (Hnan : forall totalScore totalWeight,
            snd (accumulate s totalScore totalWeight) = nan).
  { induction s as [|[factor score] s IH]; intros totalScore totalWeight;
      [destruct Hin|].
    cbn [accumulate]. destruct Hin as [<- | Hin].
    - cbn [fst] in Hmember. rewrite (inherited_member_weight _ Hmember).
      rewrite add_nan. apply accumulate_nan_weight.
    - destruct (weight_of factor); apply (IH Hin). }
  unfold calculateOverallRiskScore.
  pose proof (Hnan 0 0) as H0.
  destruct (accumulate s 0 0) as [totalScore totalWeight]. cbn [snd] in H0.
  rewrite H0. reflexivity.
Qed.
End RiskRanges.

(** ** Batches in sequence *)

Lemma count_app {A} (p : A -> bool) (l1 l2 : list A) :
  count p (l1 ++ l2) = count p l1 + count p l2.
Proof. unfold count. rewrite filter_app, length_app. lia. Qed.

(** One batch is its parts in sequence: [bulkApprove] on [first ++ second]
    ends in the store that [second] reaches from the store [first] left, its
    [successful] and [failed] lists are those of the two runs one after the
    other, and each counter of its summary is the sum of theirs. *)
Theorem bulkApprove_in_sequence (first second : list (timestamp * bulk_item))
    (approvedBy : Z) (s : store) :
  let whole := bulkApprove (first ++ second) approvedBy s in
  let run1 := bulkApprove first approvedBy s in
  let run2 := bulkApprove second approvedBy (fst run1) in
  fst whole = fst run2
  /\ successful (snd whole) = successful (snd run1) ++ successful (snd run2)
  /\ failed (snd whole) = failed (snd run1) ++ failed (snd run2)
  /\ total (summary (snd whole))
     = total (summary (snd run1)) + total (summary (snd run2))
  /\ approved (summary (snd whole))
     = approved (summary (snd run1)) + approved (summary (snd run2))
  /\ rejected (summary (snd whole))
     = rejected (summary (snd run1)) + rejected (summary (snd run2))
  /\ failed_count (summary (snd whole))
     = failed_count (summary (snd run1)) + failed_count (summary (snd run2)).
Proof.
  intros whole run1 run2. subst whole run1 run2. unfold bulkApprove.
  rewrite !bulk_loop_outcomes.
  cbn [fst snd successful failed summary total approved rejected failed_count app].
  rewrite store_after_app, outcomes_app, successes_app, failures_app, !count_app.
  rewrite !length_app, !Nat2Z.inj_add.
  repeat (split; [first [reflexivity | lia]|]). lia.
Qed.

(** ** [submitLoanApplication] *)

(** The errors [submitLoanApplication] throws; [Incomplete] carries the
    message of [validateApplicationCompleteness]. *)
Inductive submit_error :=
| Submit_application_not_found
| Only_draft_can_be_submitted
| Incomplete (message : string).

Definition submit_message (e : submit_error) : string :=
  match e with
  | Submit_application_not_found => "Loan application not found"
  | Only_draft_can_be_submitted => "Only draft applications can be submitted"
  | Incomplete message => message
  end.

(** [SET status = 'submitted', submitted_at = CURRENT_TIMESTAMP] *)
Definition set_submitted (now : timestamp) (a : Application.t) : Application.t :=
  Application.mk (Application.id a) (Application.application_id a)
    (Application.customer_id a) (Application.requested_amount a)
    "submitted" (Some now) (Application.approved_at a) (Application.rejected_at a)
    (Application.rejection_reason a) (Application.branch_id a).

(** [logLoanActivity(client, applicationId, userId, action, details)] with
    the details [{ application_id, amount }]. *)
Definition logLoanActivity (applicationId userId : Z) (action : string)
    (application_id : string) (amount : Q) : tx store unit :=
  insert_audit_log
    (Audit.mk (Some userId) action "loan_application" (toString applicationId)
       (LoanAccountDetails application_id amount) true).

Section Submission.
(** [validateApplicationCompleteness(application)] reads columns and the
    customer's KYC status, which are not part of the rows here; it is taken as
    given: the message of the error it throws for a row, if any. *)
Variable validateApplicationCompleteness : Application.t -> option string.

(** [LoanService.submitLoanApplication(applicationId, submittedBy)]: the
    store it commits and the updated row it returns, or the store as it was
    and the error.  Every [throw] comes before the first write, so the
    rollback has nothing to undo. *)
Definition submitLoanApplication (now : timestamp) (applicationId submittedBy : Z)
    (s : store) : store * (submit_error + option Application.t) :=
  match filter (fun a => Application.id a =? applicationId) (loan_applications s) with
  | [] => (s, inl Submit_application_not_found)
  | application :: _ =>
      if negb (String.eqb (Application.status application) "draft") then
        (s, inl Only_draft_can_be_submitted)
      else
        match validateApplicationCompleteness application with
        | Some message => (s, inl (Incomplete message))
        | None =>
            let updated :=
              update_applications (fun a => Application.id a =? applicationId)
                (set_submitted now) s in
            let updatedApplication :=
              hd_error (map (set_submitted now)
                          (filter (fun a => Application.id a =? applicationId)
                             (loan_applications s))) in
            let with_workflow :=
              createApprovalWorkflow now applicationId
                (Application.requested_amount application) (fst updated) in
            let logged :=
              logLoanActivity applicationId submittedBy "application_submitted"
                (Application.application_id application)
                (Application.requested_amount application) (fst with_workflow) in
            (fst logged, inr updatedApplication)
        end
  end.

Lemma submitLoanApplication_store (now : timestamp) (applicationId submittedBy : Z)
    (s : store) (application : Application.t) (apps : list Application.t) :
  filter (fun a => Application.id a =? applicationId) (loan_applications s)
  = application :: apps ->
  Application.status application = "draft" ->
  validateApplicationCompleteness application = None ->
  submitLoanApplication now applicationId submittedBy s
  = (mkStore
       (update_where (fun a => Application.id a =? applicationId) (set_submitted now)
          (loan_applications s))
       (loan_approvals s
        ++ inserted_rows now applicationId (loan_approvals_id_seq s)
             (approvalLevels (Application.requested_amount application)))
       (loan_approvals_id_seq s
        + Z.of_nat (List.length
                      (approvalLevels (Application.requested_amount application))))
       (users s)
       (audit_logs s
        ++ [Audit.mk (Some submittedBy) "application_submitted" "loan_application"
              (toString applicationId)
              (LoanAccountDetails (Application.application_id application)
                 (Application.requested_amount application))
              true]),
     inr (Some (set_submitted now application))).
Proof.
  intros Happ Hdraft Hcomplete. unfold submitLoanApplication.
  rewrite Happ, Hdraft, Hcomplete. cbn [String.eqb Ascii.eqb Bool.eqb negb].
  cbv zeta. unfold createApprovalWorkflow. rewrite insert_approval_levels_store.
  reflexivity.
Qed.

(** [submitLoanApplication] fails, without a change, for a missing
    application, else for one that is not a ['draft'], else for an incomplete
    one; otherwise it returns: every row of the application is ['submitted']
    at the transaction's time, the approval records of the chain for the
    amount are appended as [createApprovalWorkflow] builds them, one
    'application_submitted' entry is logged, and nothing else changes. *)
Theorem submitLoanApplication_outcomes (now : timestamp)
    (applicationId submittedBy : Z) (s : store) :
  let run := submitLoanApplication now applicationId submittedBy s in
  let found := filter (fun a => Application.id a =? applicationId)
                 (loan_applications s) in
  (found = [] -> run = (s, inl Submit_application_not_found))
  /\ (forall application apps,
        found = application :: apps ->
        Application.status application <> "draft" ->
        run = (s, inl Only_draft_can_be_submitted))
  /\ (forall application apps message,
        found = application :: apps ->
        Application.status application = "draft" ->
        validateApplicationCompleteness application = Some message ->
        run = (s, inl (Incomplete message)))
  /\ (forall application apps,
        found = application :: apps ->
        Application.status application = "draft" ->
        validateApplicationCompleteness application = None ->
        snd run = inr (Some (set_submitted now application))
        /\ loan_applications (fst run)
           = update_where (fun a => Application.id a =? applicationId)
               (set_submitted now) (loan_applications s)
        /\ loan_approvals (fst run)
           = loan_approvals (fst (createApprovalWorkflow now applicationId
                                    (Application.requested_amount application) s))
        /\ loan_approvals_id_seq (fst run)
           = loan_approvals_id_seq
               (fst (createApprovalWorkflow now applicationId
                       (Application.requested_amount application) s))
        /\ users (fst run) = users s
        /\ audit_logs (fst run)
           = audit_logs s
             ++ [Audit.mk (Some submittedBy) "application_submitted" "loan_application"
                   (toString applicationId)
                   (LoanAccountDetails (Application.application_id application)
                      (Application.requested_amount application))
                   true]).
Proof.
  intros run found. subst run found. split; [|split; [|split]].
  - intro Happ. unfold submitLoanApplication. now rewrite Happ.
  - intros application apps Happ Hstatus. unfold submitLoanApplication. rewrite Happ.
    apply String.eqb_neq in Hstatus. now rewrite Hstatus.
  - intros application apps message Happ Hdraft Hincomplete.
    unfold submitLoanApplication. rewrite Happ, Hdraft, Hincomplete. reflexivity.
  - intros application apps Happ Hdraft Hcomplete.
    rewrite (submitLoanApplication_store now applicationId submittedBy s application apps
               Happ Hdraft Hcomplete).
    cbn [fst snd loan_applications loan_approvals loan_approvals_id_seq users audit_logs].
    unfold createApprovalWorkflow. rewrite insert_approval_levels_store.
    repeat split; reflexivity.
Qed.

(** A submission opens the workflow, once.  Before it, the application
    being a draft, [processApproval] fails with the not-reviewable error at
    every level.  After a submission that returned, a second submission fails
    with 'Only draft applications can be submitted' and changes nothing, a
    record is pending at level 1, and [processApproval] at level 1 can fail
    only in the authority check. *)
Theorem submitLoanApplication_opens_workflow (now : timestamp)
    (applicationId submittedBy : Z) (s s' : store) (returned : option Application.t) :
  submitLoanApplication now applicationId submittedBy s = (s', inr returned) ->
  (forall now0 approvalLevel approvalData approvedBy,
     processApproval now0 applicationId approvalLevel approvalData approvedBy s
     = (s, Threw Application_not_reviewable))
  /\ (forall now2 submittedBy2,
        submitLoanApplication now2 applicationId submittedBy2 s'
        = (s', inl Only_draft_can_be_submitted))
  /\ filter (pending_at applicationId 1) (loan_approvals s') <> []
  /\ (forall now2 approvalData approvedBy s2 e,
        processApproval now2 applicationId 1 approvalData approvedBy s' = (s2, Threw e) ->
        e = User_not_found \/ e = Insufficient_authority \/ e = CEO_approval_required).
Proof.
  intro Hrun.
  destruct (filter (fun a => Application.id a =? applicationId) (loan_applications s))
    as [|application apps] eqn:Happ.
  { unfold submitLoanApplication in Hrun. rewrite Happ in Hrun. discriminate. }
  destruct (String.eqb (Application.status application) "draft") eqn:Hdraft.
  2:{ unfold submitLoanApplication in Hrun. rewrite Happ, Hdraft in Hrun.
      discriminate. }
  apply String.eqb_eq in Hdraft.
  destruct (validateApplicationCompleteness application) as [message|] eqn:Hcomplete.
  { unfold submitLoanApplication in Hrun. rewrite Happ, Hdraft, Hcomplete in Hrun.
    discriminate. }
  rewrite (submitLoanApplication_store now applicationId submittedBy s application apps
             Happ Hdraft Hcomplete) in Hrun.
  injection Hrun as <- _.
  assert (Hfound : filter (fun a => Application.id a =? applicationId)
                     (update_where (fun a => Application.id a =? applicationId)
                        (set_submitted now) (loan_applications s))
                   = set_submitted now application :: map (set_submitted now) apps).
  { rewrite filter_update_where_same by (intros a Ha; exact Ha). now rewrite Happ. }
  assert (Hpending : filter (pending_at applicationId 1)
                       (loan_approvals s
                        ++ inserted_rows now applicationId (loan_approvals_id_seq s)
                             (approvalLevels (Application.requested_amount application)))
                     <> []).
  { intro Hnil.
    assert (Hrow : In (Approval.mk (loan_approvals_id_seq s) applicationId 1
                         "loan_officer" None None "pending" None None true now)
                      (filter (pending_at applicationId 1)
                         (loan_approvals s
                          ++ inserted_rows now applicationId (loan_approvals_id_seq s)
                               (approvalLevels
                                  (Application.requested_amount application))))).
    { apply filter_In. split.
      - apply in_or_app. right. unfold approvalLevels.
        destruct (Qle_bool _ 100000); [|destruct (Qle_bool _ 500000)]; now left.
      - unfold pending_at. cbn [Approval.loan_application_id Approval.approval_level
                                  Approval.status].
        now rewrite !Z.eqb_refl. }
    rewrite Hnil in Hrow. destruct Hrow. }
  split; [|split; [|split]].
  - intros now0 approvalLevel approvalData approvedBy.
    apply (processApproval_throws_not_reviewable _ _ _ _ _ _ application apps Happ).
    now rewrite Hdraft.
  - intros now2 submittedBy2. unfold submitLoanApplication.
    cbn [loan_applications]. rewrite Hfound. reflexivity.
  - exact Hpending.
  - intros now2 approvalData approvedBy s2 e Hthrow.
    destruct (processApproval_throw_cases _ _ _ _ _ _ _ _ Hthrow)
      as [[_ Hnil] | [[_ [a [rest [Ha Hrev]]]] | [[_ [_ Hnil]] | [Hauth _]]]].
    + cbn [loan_applications] in Hnil. rewrite Hfound in Hnil. discriminate.
    + cbn [loan_applications] in Ha. rewrite Hfound in Ha. injection Ha as <- _.
      discriminate Hrev.
    + cbn [loan_approvals] in Hnil. now destruct Hpending.
    + exact Hauth.
Qed.
End Submission.

(** A draft of 200,000 that is complete. *)
Definition draft_loan : Application.t :=
  Application.mk 1 "LA00000001" 10 200000 "draft" None None None None 1.

Definition draft_loan_store : store := mkStore [draft_loan] [] 1 [] [].

Lemma submitLoanApplication_opens_workflow_witness :
  let s' := fst (submitLoanApplication (fun _ => None) 5 1 3 draft_loan_store) in
  (forall now0 approvalLevel approvalData approvedBy,
     processApproval now0 1 approvalLevel approvalData approvedBy draft_loan_store
     = (draft_loan_store, Threw Application_not_reviewable))
  /\ (forall now2 submittedBy2,
        submitLoanApplication (fun _ => None) now2 1 submittedBy2 s'
        = (s', inl Only_draft_can_be_submitted))
  /\ filter (pending_at 1 1) (loan_approvals s') <> []
  /\ (forall now2 approvalData approvedBy s2 e,
        processApproval now2 1 1 approvalData approvedBy s' = (s2, Threw e) ->
        e = User_not_found \/ e = Insufficient_authority \/ e = CEO_approval_required).
Proof.
  refine (submitLoanApplication_opens_workflow (fun _ => None) 5 1 3 draft_loan_store _
            (Some (set_submitted 5 draft_loan)) _).
  reflexivity.
Defined.
